(** * Task manager API: a shallow embedding of the route handlers

    The development follows the repository's layout:
    - [Js]        the JavaScript string primitives the handlers call;
    - [Regex]     a matcher for the regular expression of [models/User.ts];
    - the enums of [models/Task.ts] and the Zod schemas of [lib/validations];
    - [Jwt]       the part of [jsonwebtoken] the handlers rely on;
    - the Mongoose models [Task] and [User] over maps keyed by [_id];
    - the handlers of [app/api/auth/*] and [app/api/tasks/*].

    Conventions.  A JavaScript string is a sequence of UTF-16 code units; a
    [string] here is such a sequence with every code unit below 256, one
    [ascii] per code unit.  These are all the strings a header value can
    be (the Fetch API hands a header value over as a byte string, one code
    unit per byte) and, of the strings of a JSON body, those of the Latin-1
    range; a body string with a code unit from 256 on is outside the
    model.  On these strings [s.length] is [Js.length s], and the
    primitives of [Js] treat the code units from 128 to 255 as JavaScript
    does (U+00A0 is white space, U+00C0 to U+00DE are upper case).
    Instants are integers, milliseconds since the epoch; one handler
    invocation sees one instant [now].  The store calls themselves succeed:
    a lost database connection is outside the model. *)

From Stdlib Require Import ZArith String Ascii List Lia Permutation Sorted.
From stdpp Require Import base option list gmap strings sorting.

Local Open Scope string_scope.

(** ** JavaScript string primitives *)

Module Js.

(** [s.startsWith(p)] *)
Definition startsWith (p s : string) : bool := String.prefix p s.

(** [s.substring(n)]: the characters from index [n] on. *)
Fixpoint substring_from (n : nat) (s : string) : string :=
  match n, s with
  | O, _ => s
  | S _, EmptyString => EmptyString
  | S n', String _ s' => substring_from n' s'
  end.

(** [s.split(sep)] for a one-character separator.  The result is never
    empty: ["".split(";")] is [[""]]. *)
Fixpoint split (sep : ascii) (s : string) : list string :=
  match s with
  | EmptyString => [EmptyString]
  | String c s' =>
      if Ascii.eqb c sep then EmptyString :: split sep s'
      else match split sep s' with
           | h :: t => String c h :: t
           | [] => [String c EmptyString]
           end
  end.

(** [s.length]: the number of code units. *)
Abbreviation length := String.length (only parsing).

(** White space and line terminators of [String.prototype.trim] among the
    code units below 256: TAB, LF, VT, FF, CR, SPACE and NO-BREAK SPACE
    (U+00A0).  The others (U+1680, U+2000 to U+200A, U+2028, U+2029,
    U+202F, U+205F, U+3000, U+FEFF) lie above. *)
Definition isWhiteSpace (c : ascii) : bool :=
  let n := nat_of_ascii c in
  (Nat.leb 9 n && Nat.leb n 13) || Nat.eqb n 32 || Nat.eqb n 160.

Fixpoint trimStart (s : string) : string :=
  match s with
  | EmptyString => EmptyString
  | String c s' => if isWhiteSpace c then trimStart s' else s
  end.

Fixpoint trimEnd (s : string) : string :=
  match s with
  | EmptyString => EmptyString
  | String c s' =>
      match trimEnd s' with
      | EmptyString => if isWhiteSpace c then EmptyString else String c EmptyString
      | r => String c r
      end
  end.

(** [s.trim()] *)
Definition trim (s : string) : string := trimEnd (trimStart s).

(** The lower case of a code unit below 256: [A] to [Z], and the upper-case
    letters of Latin-1, U+00C0 to U+00DE without the multiplication sign
    U+00D7, are 32 below their lower case. *)
Definition lowerChar (c : ascii) : ascii :=
  let n := nat_of_ascii c in
  if (Nat.leb 65 n && Nat.leb n 90)
     || (Nat.leb 192 n && Nat.leb n 222 && negb (Nat.eqb n 215))
  then ascii_of_nat (n + 32) else c.

(** [s.toLowerCase()] *)
Fixpoint toLowerCase (s : string) : string :=
  match s with
  | EmptyString => EmptyString
  | String c s' => String (lowerChar c) (toLowerCase s')
  end.

(** JavaScript truthiness of a string: only [""] is falsy. *)
Definition truthy (s : string) : bool := negb (String.eqb s "").

(** [x || undefined] and [if (x)] on a value that may be [null] or a
    string: a missing value and the empty string are both falsy. *)
Definition orUndefined (x : option string) : option string :=
  match x with
  | Some s => if truthy s then Some s else None
  | None => None
  end.

(** [arr.find(p)] *)
Definition find {A} (p : A -> bool) (l : list A) : option A := List.find p l.

(** [arr[i]]: [undefined] out of range. *)
Definition index {A} (l : list A) (i : nat) : option A := nth_error l i.

End Js.

(** ** Regular expressions

    [UserSchema.email.match] is an anchored regular expression; matching an
    anchored expression is language membership, decided here with
    derivatives. *)

Module Regex.

Inductive t : Type :=
| Void
| Eps
| Class (p : ascii -> bool)
| Cat (r s : t)
| Alt (r s : t)
| Star (r : t).

Fixpoint nullable (r : t) : bool :=
  match r with
  | Void => false
  | Eps => true
  | Class _ => false
  | Cat r s => nullable r && nullable s
  | Alt r s => nullable r || nullable s
  | Star _ => true
  end.

Fixpoint deriv (c : ascii) (r : t) : t :=
  match r with
  | Void => Void
  | Eps => Void
  | Class p => if p c then Eps else Void
  | Cat r s =>
      if nullable r then Alt (Cat (deriv c r) s) (deriv c s)
      else Cat (deriv c r) s
  | Alt r s => Alt (deriv c r) (deriv c s)
  | Star r => Cat (deriv c r) (Star r)
  end.

(** [/^r$/.test(s)] *)
Fixpoint test (r : t) (s : string) : bool :=
  match s with
  | EmptyString => nullable r
  | String c s' => test (deriv c r) s'
  end.

Definition plus (r : t) : t := Cat r (Star r).
Definition opt (r : t) : t := Alt Eps r.
Definition chr (c : ascii) : t := Class (Ascii.eqb c).

(** [\w]: letters, digits and the underscore. *)
Definition wordChar (c : ascii) : bool :=
  let n := nat_of_ascii c in
  (Nat.leb 48 n && Nat.leb n 57) || (Nat.leb 65 n && Nat.leb n 90)
  || (Nat.leb 97 n && Nat.leb n 122) || Nat.eqb n 95.

Definition w : t := Class wordChar.

End Regex.

(** ** Enumerations of [models/Task.ts] *)

Inductive TaskStatus : Set := PENDING | IN_PROGRESS | COMPLETED.
Inductive TaskPriority : Set := LOW | MEDIUM | HIGH | URGENT.
Inductive TaskCategory : Set := WORK | PERSONAL | HEALTH | FINANCE | LEARNING | OTHER.

#[global] Instance TaskStatus_eq_dec : EqDecision TaskStatus.
Proof. solve_decision. Defined.
#[global] Instance TaskPriority_eq_dec : EqDecision TaskPriority.
Proof. solve_decision. Defined.
#[global] Instance TaskCategory_eq_dec : EqDecision TaskCategory.
Proof. solve_decision. Defined.

Definition TaskStatus_value (s : TaskStatus) : string :=
  match s with
  | PENDING => "pending"
  | IN_PROGRESS => "in_progress"
  | COMPLETED => "completed"
  end.

Definition TaskPriority_value (p : TaskPriority) : string :=
  match p with
  | LOW => "low"
  | MEDIUM => "medium"
  | HIGH => "high"
  | URGENT => "urgent"
  end.

Definition TaskCategory_value (c : TaskCategory) : string :=
  match c with
  | WORK => "work"
  | PERSONAL => "personal"
  | HEALTH => "health"
  | FINANCE => "finance"
  | LEARNING => "learning"
  | OTHER => "other"
  end.

(** [Object.values(E)] *)
Definition TaskStatus_values : list TaskStatus := [PENDING; IN_PROGRESS; COMPLETED].
Definition TaskPriority_values : list TaskPriority := [LOW; MEDIUM; HIGH; URGENT].
Definition TaskCategory_values : list TaskCategory :=
  [WORK; PERSONAL; HEALTH; FINANCE; LEARNING; OTHER].

(** ** JSON request bodies

    The values [request.json()] yields.  A string value is a string of the
    conventions above: its code units are below 256. *)

Inductive JsonValue : Type :=
| JString (s : string)
| JNumber (n : Z)
| JBool (b : bool)
| JNull
| JArray
| JObject.

(** JavaScript truthiness, as [!x] tests it. *)
Definition json_truthy (v : option JsonValue) : bool :=
  match v with
  | None => false
  | Some (JString s) => Js.truthy s
  | Some (JNumber n) => negb (Z.eqb n 0)
  | Some (JBool b) => b
  | Some JNull => false
  | Some JArray | Some JObject => true
  end.

(** The name Zod gives to the type of a value it rejects. *)
Definition json_typeName (v : JsonValue) : string :=
  match v with
  | JString _ => "string"
  | JNumber _ => "number"
  | JBool _ => "boolean"
  | JNull => "null"
  | JArray => "array"
  | JObject => "object"
  end.

(** What [await request.json()] finds in the request. *)
Inductive RequestBody : Type :=
| BodyNotJson
| BodyObject (fields : gmap string JsonValue)
| BodyValue (v : JsonValue).

(** ** JSON Web Tokens: data *)

(** The payload the handlers read from a verified token
    ([interface JWTPayload]); [exp] is optional in a token. *)
Record JWTPayload : Type := mkPayload {
  payload_userId : string;
  payload_email : string;
  iat : Z;
  exp : option Z
}.

(** A token that splits into a header, a payload and a signature. *)
Record Jws : Type := mkJws {
  alg : string;
  payload : JWTPayload;
  signature : string
}.

(** ** The libraries and the runtime

    The handlers call into [jsonwebtoken], [bcryptjs], [zod], Mongoose and
    the JavaScript [Date].  Their pure primitives are taken as an interface;
    whatever a theorem needs of them is stated where it is used. *)

Class Platform : Type := {
  (** the MAC of [jsonwebtoken] for algorithm, secret, payload *)
  hmac : string -> string -> JWTPayload -> string;
  (** compact serialisation of a token and its inverse *)
  jws_encode : Jws -> string;
  jws_decode : string -> option Jws;
  (** [bcrypt.hash] for a salt, and [bcrypt.compare] *)
  bcrypt_hash : string -> string -> string;
  bcrypt_compare : string -> string -> bool;
  (** [new Date(s).getTime()], [None] for an invalid date *)
  Date_parse : string -> option Z;
  (** [d.setHours(0, 0, 0, 0)]: local midnight of the day of an instant *)
  startOfLocalDay : Z -> Z;
  (** the e-mail pattern of [z.string().email()] *)
  zod_email : string -> bool;
  (** whether Mongoose casts a string to an [ObjectId] *)
  ObjectId_isValid : string -> bool;
  (** whether this Mongoose runs the setters of a path on a query filter *)
  settersOnQuery : bool
}.

(** ** Zod schemas of [lib/validations] *)

Module Zod.

(** An issue: the path joined with dots, and the message. *)
Definition Issue : Type := string * string.

(** The outcome of one schema on one value: [None] when parsing aborted
    (wrong type), otherwise the output; with the issues raised. *)
Definition Parsed (A : Type) : Type := option A * list Issue.

Inductive SafeParse (A : Type) : Type :=
| Success (data : A)
| Failure (issues : list Issue).
Arguments Success {A} data.
Arguments Failure {A} issues.

Inductive StringCheck : Type :=
| Min (n : nat) (message : string)
| Max (n : nat) (message : string)
| Email (message : string)
| Trim
| ToLowerCase.

(** The checks of a [z.string()] run in the order they were attached, each
    on the value the previous transformations left. *)
Fixpoint runChecks `{Platform} (cs : list StringCheck) (s : string) : string * list string :=
  match cs with
  | [] => (s, [])
  | Min n m :: cs' =>
      let r := runChecks cs' s in
      (r.1, if Nat.leb n (Js.length s) then r.2 else m :: r.2)
  | Max n m :: cs' =>
      let r := runChecks cs' s in
      (r.1, if Nat.leb (Js.length s) n then r.2 else m :: r.2)
  | Email m :: cs' =>
      let r := runChecks cs' s in
      (r.1, if zod_email s then r.2 else m :: r.2)
  | Trim :: cs' => runChecks cs' (Js.trim s)
  | ToLowerCase :: cs' => runChecks cs' (Js.toLowerCase s)
  end.

(** [z.string()...] *)
Definition string_ `{Platform} (cs : list StringCheck) (path : string)
    (v : option JsonValue) : Parsed string :=
  match v with
  | None => (None, [(path, "Required")])
  | Some (JString s) =>
      let r := runChecks cs s in (Some r.1, map (pair path) r.2)
  | Some x => (None, [(path, "Expected string, received " ++ json_typeName x)])
  end.

(** [schema.optional()] *)
Definition optional {A} (schema : option JsonValue -> Parsed A)
    (v : option JsonValue) : Parsed (option A) :=
  match v with
  | None => (Some None, [])
  | Some _ => let r := schema v in (Some <$> r.1, r.2)
  end.

Definition quote (s : string) : string := "'" ++ s ++ "'".

(** [z.nativeEnum(E)]; [errorMap] replaces the message of every issue. *)
Definition nativeEnum {A} (value : A -> string) (values : list A)
    (errorMap : option string) (path : string) (v : option JsonValue) : Parsed A :=
  let found :=
    match v with
    | Some (JString s) => List.find (fun a => String.eqb (value a) s) values
    | _ => None
    end in
  match found with
  | Some a => (Some a, [])
  | None =>
      let expected := String.concat " | " (map (fun a => quote (value a)) values) in
      let default :=
        match v with
        | None => "Required"
        | Some (JString s) =>
            "Invalid enum value. Expected " ++ expected ++ ", received " ++ quote s
        | Some x => "Expected " ++ expected ++ ", received " ++ json_typeName x
        end in
      (None, [(path, from_option id default errorMap)])
  end.

(** [formatZodError]: a later issue on the same path replaces the earlier
    one. *)
Definition formatZodError (issues : list Issue) : gmap string string :=
  foldl (fun acc (i : Issue) => <[ i.1 := i.2 ]> acc) ∅ issues.

Definition finish {A} (data : option A) (issues : list Issue) : SafeParse A :=
  match data, issues with
  | Some d, [] => Success d
  | _, _ => Failure issues
  end.

Definition notObject {A} (v : JsonValue) : SafeParse A :=
  Failure [("", "Expected object, received " ++ json_typeName v)].

End Zod.

Record RegisterInput : Type := mkRegisterInput {
  reg_name : string;
  reg_email : string;
  reg_password : string;
  reg_confirmPassword : string
}.

Record CreateTaskInput : Type := mkCreateTaskInput {
  new_title : string;
  new_description : option string;
  new_priority : TaskPriority;
  new_category : TaskCategory;
  new_dueDate : option string
}.

Record UpdateTaskInput : Type := mkUpdateTaskInput {
  upd_title : option string;
  upd_description : option string;
  upd_priority : option TaskPriority;
  upd_category : option TaskCategory;
  upd_dueDate : option string;
  upd_status : option TaskStatus
}.

Record TaskQueryInput : Type := mkTaskQueryInput {
  query_status : option TaskStatus;
  query_priority : option TaskPriority;
  query_category : option TaskCategory
}.

(** The schemas read the value [request.json()] returned; the handlers do
    not reach them with [BodyNotJson]. *)
Module Schemas.
Import Zod.

Definition RegisterSchema `{Platform} (body : RequestBody) : SafeParse RegisterInput :=
  match body with
  | BodyNotJson => Failure []
  | BodyValue v => notObject v
  | BodyObject o =>
      let name := string_ [Min 2 "Name must be at least 2 characters";
                           Max 50 "Name must be less than 50 characters";
                           Trim] "name" (o !! "name") in
      let email := string_ [Email "Please enter a valid email address";
                            ToLowerCase; Trim] "email" (o !! "email") in
      let password := string_ [Min 6 "Password must be at least 6 characters";
                               Max 100 "Password is too long"] "password" (o !! "password") in
      let confirmPassword := string_ [] "confirmPassword" (o !! "confirmPassword") in
      let issues := (name.2 ++ email.2 ++ password.2 ++ confirmPassword.2)%list in
      match name.1, email.1, password.1, confirmPassword.1 with
      | Some n, Some e, Some p, Some c =>
          (* .refine((data) => data.password === data.confirmPassword) *)
          let refined :=
            if String.eqb p c then issues
            else (issues ++ [("confirmPassword", "Passwords don't match")])%list in
          finish (Some (mkRegisterInput n e p c)) refined
      | _, _, _, _ => Failure issues
      end
  end.

(** [schema.or(z.literal(''))] after a schema that already accepts the empty
    string: the union returns the first option unless it aborted. *)
Definition orEmptyLiteral {A} (path : string) (r : Parsed A) : Parsed A :=
  match r.1 with
  | Some _ => r
  | None => (None, [(path, "Invalid input")])
  end.

Definition description_schema `{Platform} (v : option JsonValue) : Parsed (option string) :=
  orEmptyLiteral "description"
    (optional (string_ [Max 1000 "Description must be less than 1000 characters"; Trim]
                 "description") v).

(** The refinement of [dueDate]; [now] is the instant of [new Date()]. *)
Definition dueDate_refine `{Platform} (now : Z) (date : option string) : bool :=
  match Js.orUndefined date with
  | None => true
  | Some s =>
      match Date_parse s with
      | Some dueDate => Z.leb (startOfLocalDay now) dueDate
      | None => false
      end
  end.

Definition dueDate_schema `{Platform} (now : Z) (v : option JsonValue) : Parsed (option string) :=
  let r := orEmptyLiteral "dueDate" (optional (string_ [] "dueDate") v) in
  match r.1 with
  | Some date =>
      (Some date,
       if dueDate_refine now date then r.2
       else (r.2 ++ [("dueDate", "Due date cannot be in the past")])%list)
  | None => r
  end.

Definition title_schema `{Platform} : option JsonValue -> Parsed string :=
  string_ [Min 1 "Task title is required";
           Max 200 "Title must be less than 200 characters";
           Trim] "title".

Definition priority_schema : option JsonValue -> Parsed TaskPriority :=
  nativeEnum TaskPriority_value TaskPriority_values
    (Some "Please select a valid priority") "priority".

Definition category_schema : option JsonValue -> Parsed TaskCategory :=
  nativeEnum TaskCategory_value TaskCategory_values
    (Some "Please select a valid category") "category".

Definition CreateTaskSchema `{Platform} (now : Z) (body : RequestBody)
    : SafeParse CreateTaskInput :=
  match body with
  | BodyNotJson => Failure []
  | BodyValue v => notObject v
  | BodyObject o =>
      let title := title_schema (o !! "title") in
      let description := description_schema (o !! "description") in
      let priority := priority_schema (o !! "priority") in
      let category := category_schema (o !! "category") in
      let dueDate := dueDate_schema now (o !! "dueDate") in
      let issues :=
        (title.2 ++ description.2 ++ priority.2 ++ category.2 ++ dueDate.2)%list in
      match title.1, description.1, priority.1, category.1, dueDate.1 with
      | Some t, Some d, Some p, Some c, Some due =>
          finish (Some (mkCreateTaskInput t d p c due)) issues
      | _, _, _, _, _ => Failure issues
      end
  end.

(** [CreateTaskSchema.extend({ status }).partial()] *)
Definition UpdateTaskSchema `{Platform} (now : Z) (body : RequestBody)
    : SafeParse UpdateTaskInput :=
  match body with
  | BodyNotJson => Failure []
  | BodyValue v => notObject v
  | BodyObject o =>
      let title := optional title_schema (o !! "title") in
      let description := description_schema (o !! "description") in
      let priority := optional priority_schema (o !! "priority") in
      let category := optional category_schema (o !! "category") in
      let dueDate := dueDate_schema now (o !! "dueDate") in
      let status :=
        optional (nativeEnum TaskStatus_value TaskStatus_values
                    (Some "Please select a valid status") "status") (o !! "status") in
      let issues :=
        (title.2 ++ description.2 ++ priority.2 ++ category.2 ++ dueDate.2
         ++ status.2)%list in
      match title.1, description.1, priority.1, category.1, dueDate.1, status.1 with
      | Some t, Some d, Some p, Some c, Some due, Some s =>
          finish (Some (mkUpdateTaskInput t d p c due s)) issues
      | _, _, _, _, _, _ => Failure issues
      end
  end.

(** [TaskIdSchema.safeParse({ id })] succeeds on a non-empty id. *)
Definition TaskIdSchema (id : string) : bool := Nat.leb 1 (Js.length id).

(** [TaskQuerySchema.safeParse(queryParams)], each parameter a string or
    [undefined]. *)
Definition TaskQuerySchema (status priority category : option string)
    : SafeParse TaskQueryInput :=
  let s := optional (nativeEnum TaskStatus_value TaskStatus_values None "status")
             (JString <$> status) in
  let p := optional (nativeEnum TaskPriority_value TaskPriority_values None "priority")
             (JString <$> priority) in
  let c := optional (nativeEnum TaskCategory_value TaskCategory_values None "category")
             (JString <$> category) in
  let issues := (s.2 ++ p.2 ++ c.2)%list in
  match s.1, p.1, c.1 with
  | Some s', Some p', Some c' => finish (Some (mkTaskQueryInput s' p' c')) issues
  | _, _, _ => Failure issues
  end.

End Schemas.

(** ** [jsonwebtoken] *)

Module Jwt.

Inductive Error : Type :=
| JsonWebTokenError (message : string)
| TokenExpiredError (message : string) (expiredAt : Z).

(** [TokenExpiredError.prototype] is created from
    [JsonWebTokenError.prototype]: an expiry error is an instance of both
    classes. *)
Definition instanceof_JsonWebTokenError (e : Error) : bool :=
  match e with
  | JsonWebTokenError _ => true
  | TokenExpiredError _ _ => true
  end.

Definition instanceof_TokenExpiredError (e : Error) : bool :=
  match e with
  | JsonWebTokenError _ => false
  | TokenExpiredError _ _ => true
  end.

(** [Math.floor(Date.now() / 1000)] *)
Definition clockTimestamp (now : Z) : Z := (now / 1000)%Z.

(** [expiresIn: '7d'] in seconds. *)
Definition sevenDays : Z := (7 * 24 * 60 * 60)%Z.

(** The token [jwt.sign] builds: the claims [iat] and [exp] are added to
    the payload, and the default algorithm signs it. *)
Definition signed `{Platform} (userId email secret : string) (expiresIn now : Z) : Jws :=
  let p := mkPayload userId email (clockTimestamp now)
             (Some (clockTimestamp now + expiresIn)%Z) in
  mkJws "HS256" p (hmac "HS256" secret p).

(** [jwt.sign({ userId, email }, secret, { expiresIn })] *)
Definition sign `{Platform} (userId email secret : string) (expiresIn now : Z) : string :=
  jws_encode (signed userId email secret expiresIn now).

Definition hmacAlgorithms : list string := ["HS256"; "HS384"; "HS512"].

(** [jwt.verify(token, secret)] with a string secret and no options. *)
Definition verify `{Platform} (token secret : string) (now : Z) : Error + JWTPayload :=
  match jws_decode token with
  | None => inl (JsonWebTokenError "jwt malformed")
  | Some j =>
      if String.eqb (Js.trim (signature j)) "" then
        inl (JsonWebTokenError "jwt signature is required")
      else if negb (existsb (String.eqb (alg j)) hmacAlgorithms) then
        inl (JsonWebTokenError "invalid algorithm")
      else if negb (String.eqb (signature j) (hmac (alg j) secret (payload j))) then
        inl (JsonWebTokenError "invalid signature")
      else
        match exp (payload j) with
        | Some e =>
            if Z.leb e (clockTimestamp now) then
              inl (TokenExpiredError "jwt expired" (e * 1000)%Z)
            else inr (payload j)
        | None => inr (payload j)
        end
  end.

End Jwt.

(** ** Exceptions and [try] blocks *)

Inductive Exception : Type :=
| JwtException (e : Jwt.Error)
| ValidationError (heading : string) (errors : list (string * string))
| CastError (path : string)
| DuplicateKeyError
| SyntaxError
| TypeError
| PlainError (message : string).

(** [error instanceof Error && error.name === 'ValidationError'] *)
Definition isValidationError (e : Exception) : bool :=
  match e with
  | ValidationError _ _ => true
  | _ => false
  end.

(** The [message] of a Mongoose [ValidationError]: the heading, then one
    [path: message] per failed path. *)
Definition validationMessage (heading : string) (errors : list (string * string)) : string :=
  heading ++ ": " ++ String.concat ", " (map (fun e => e.1 ++ ": " ++ e.2) errors).

(** [error.message.includes('E11000')] *)
Definition isDuplicateKey (e : Exception) : bool :=
  match e with
  | DuplicateKeyError => true
  | _ => false
  end.

Inductive Try (A : Type) : Type :=
| Return (a : A)
| Throw (e : Exception).
Arguments Return {A} a.
Arguments Throw {A} e.

#[global] Instance Try_ret : MRet Try := fun A a => Return a.
#[global] Instance Try_bind : MBind Try := fun A B f m =>
  match m with
  | Return a => f a
  | Throw e => Throw e
  end.

(** ** [models/Task.ts] *)

Module Task.

Record ITaskDocument : Type := mk {
  _id : string;
  title : string;
  description : option string;
  status : TaskStatus;
  priority : TaskPriority;
  category : TaskCategory;
  dueDate : option Z;
  completedAt : option Z;
  userId : string;
  createdAt : Z;
  updatedAt : Z
}.

Definition set_completedAt (v : option Z) (t : ITaskDocument) : ITaskDocument :=
  mk (_id t) (title t) (description t) (status t) (priority t) (category t)
     (dueDate t) v (userId t) (createdAt t) (updatedAt t).

(** [TaskSchema.pre('save', ...)]; [isModified_status] is
    [this.isModified('status')] and [now] the instant of [new Date()]. *)
Definition preSave (isModified_status : bool) (now : Z) (this : ITaskDocument)
    : ITaskDocument :=
  if isModified_status then
    if bool_decide (status this = COMPLETED) && negb (bool_decide (is_Some (completedAt this)))
    then set_completedAt (Some now) this
    else if negb (bool_decide (status this = COMPLETED))
    then set_completedAt None this
    else this
  else this.

(** The validators of the schema paths.  A path reports the first of its
    validators that fails. *)
Definition validate_title (v : string) : list (string * string) :=
  if String.eqb v "" then [("title", "Task title is required")]
  else if negb (Nat.leb 1 (Js.length v)) then [("title", "Task title cannot be empty")]
  else if negb (Nat.leb (Js.length v) 200)
  then [("title", "Task title must be less than 200 characters")]
  else [].

Definition validate_description (v : option string) : list (string * string) :=
  match v with
  | Some d =>
      if Nat.leb (Js.length d) 1000 then []
      else [("description", "Description must be less than 1000 characters")]
  | None => []
  end.

(** [validator: value => !value || value > new Date()] *)
Definition validate_dueDate (now : Z) (v : option Z) : list (string * string) :=
  match v with
  | Some value =>
      if Z.ltb now value then [] else [("dueDate", "Due date should be in the future")]
  | None => []
  end.

Definition validate_userId `{Platform} (v : string) : list (string * string) :=
  if String.eqb v "" then [("userId", "User ID is required")]
  else if ObjectId_isValid v then []
  else [("userId", "Cast to ObjectId failed")].

Definition validate `{Platform} (now : Z) (doc : ITaskDocument) : list (string * string) :=
  (validate_title (title doc) ++ validate_description (description doc)
   ++ validate_dueDate now (dueDate doc) ++ validate_userId (userId doc))%list.

(** [new Task({ title, description, priority, category, dueDate, userId })]:
    the setters trim the strings, the defaults fill [status] and
    [completedAt], and [timestamps] stamps the document when it is saved. *)
Definition new (now : Z) (newId : string) (title : string) (description : option string)
    (priority : TaskPriority) (category : TaskCategory) (dueDate : option Z)
    (userId : string) : ITaskDocument :=
  mk newId (Js.trim title) (Js.trim <$> description) PENDING priority category
     dueDate None userId now now.

(** [doc.save()] of a new document: validation, then the [pre('save')]
    hook, then the insertion.  [status] was not given to the constructor, so
    [isModified('status')] is [false]. *)
Definition save `{Platform} (now : Z) (doc : ITaskDocument)
    (tasks : gmap string ITaskDocument) : Try (ITaskDocument * gmap string ITaskDocument) :=
  match validate now doc with
  | [] =>
      let saved := preSave false now doc in
      match tasks !! _id saved with
      | Some _ => Throw DuplicateKeyError
      | None => Return (saved, <[ _id saved := saved ]> tasks)
      end
  | errors => Throw (ValidationError "Task validation failed" errors)
  end.

(** Casting the filter [{ _id: id, userId }]. *)
Definition castFilter `{Platform} (id userId : string) : Try unit :=
  if negb (ObjectId_isValid id) then Throw (CastError "_id")
  else if negb (ObjectId_isValid userId) then Throw (CastError "userId")
  else Return tt.

(** The document the filter [{ _id: id, userId }] selects. *)
Definition lookup (id userId : string) (tasks : gmap string ITaskDocument)
    : option ITaskDocument :=
  match tasks !! id with
  | Some t => if String.eqb (Task.userId t) userId then Some t else None
  | None => None
  end.

(** [Task.findOne({ _id: id, userId })] *)
Definition findOne `{Platform} (id userId : string) (tasks : gmap string ITaskDocument)
    : Try (option ITaskDocument) :=
  _ ← castFilter id userId; Return (lookup id userId tasks).

(** The update document after casting: a present key is [Some]; a date may
    be set to [null]. *)
Record Update : Type := mkUpdate {
  set_title : option string;
  set_description : option string;
  set_priority : option TaskPriority;
  set_category : option TaskCategory;
  set_dueDate : option (option Z);
  set_status : option TaskStatus
}.

(** Casting [dueDate]: the empty string casts to [null]. *)
Definition castDate `{Platform} (s : string) : Try (option Z) :=
  if String.eqb s "" then Return None
  else match Date_parse s with
       | Some d => Return (Some d)
       | None => Throw (CastError "dueDate")
       end.

Definition castUpdate `{Platform} (u : UpdateTaskInput) : Try Update :=
  due ← match upd_dueDate u with
         | Some s => d ← castDate s; Return (Some d)
         | None => Return None
         end;
  Return (mkUpdate (Js.trim <$> upd_title u) (Js.trim <$> upd_description u)
            (upd_priority u) (upd_category u) due (upd_status u)).

(** [runValidators: true]: the validators of the paths the update sets. *)
Definition validateUpdate (now : Z) (u : Update) : list (string * string) :=
  (from_option validate_title [] (set_title u)
   ++ validate_description (set_description u)
   ++ from_option (validate_dueDate now) [] (set_dueDate u))%list.

Definition applyUpdate (now : Z) (u : Update) (t : ITaskDocument) : ITaskDocument :=
  mk (_id t)
     (default (title t) (set_title u))
     (match set_description u with Some d => Some d | None => description t end)
     (default (status t) (set_status u))
     (default (priority t) (set_priority u))
     (default (category t) (set_category u))
     (default (dueDate t) (set_dueDate u))
     (completedAt t)
     (userId t)
     (createdAt t)
     now.

(** [Task.findOneAndUpdate({ _id: id, userId }, { ...updateData },
    { new: true, runValidators: true })].  Query middleware is all that runs
    on this path: the schema registers none, and the [pre('save')] hook is
    document middleware of [save]. *)
Definition findOneAndUpdate `{Platform} (now : Z) (id userId : string)
    (updateData : UpdateTaskInput) (tasks : gmap string ITaskDocument)
    : Try (option ITaskDocument * gmap string ITaskDocument) :=
  _ ← castFilter id userId;
  u ← castUpdate updateData;
  match validateUpdate now u with
  | [] =>
      match lookup id userId tasks with
      | Some t =>
          let updated := applyUpdate now u t in
          Return (Some updated, <[ id := updated ]> tasks)
      | None => Return (None, tasks)
      end
  | errors => Throw (ValidationError "Validation failed" errors)
  end.

(** [Task.findOneAndDelete({ _id: id, userId })] *)
Definition findOneAndDelete `{Platform} (id userId : string)
    (tasks : gmap string ITaskDocument)
    : Try (option ITaskDocument * gmap string ITaskDocument) :=
  _ ← castFilter id userId;
  match lookup id userId tasks with
  | Some t => Return (Some t, delete id tasks)
  | None => Return (None, tasks)
  end.

(** The filter of the list endpoint: [{ userId }] and one equality per
    supplied parameter. *)
Definition matches (userId : string) (q : TaskQueryInput) (t : ITaskDocument) : bool :=
  String.eqb (Task.userId t) userId
  && from_option (fun s => bool_decide (status t = s)) true (query_status q)
  && from_option (fun p => bool_decide (priority t = p)) true (query_priority q)
  && from_option (fun c => bool_decide (category t = c)) true (query_category q).

(** [sort({ createdAt: -1 })] *)
Definition newestFirst (a b : ITaskDocument) : Prop := (createdAt b <= createdAt a)%Z.

#[global] Instance newestFirst_dec a b : Decision (newestFirst a b).
Proof. unfold newestFirst. apply _. Defined.

(** [Task.find(filter).sort({ createdAt: -1 })] *)
Definition find `{Platform} (userId : string) (q : TaskQueryInput)
    (tasks : gmap string ITaskDocument) : Try (list ITaskDocument) :=
  if negb (ObjectId_isValid userId) then Throw (CastError "userId")
  else Return (merge_sort newestFirst
                 (List.filter (matches userId q) (map snd (map_to_list tasks)))).

End Task.

(** ** [models/User.ts] *)

Module User.

Record IUser : Type := mk {
  _id : string;
  name : string;
  email : string;
  password : string;
  avatar : option string;
  createdAt : Z;
  updatedAt : Z
}.

Definition set_password (v : string) (u : IUser) : IUser :=
  mk (_id u) (name u) (email u) v (avatar u) (createdAt u) (updatedAt u).

(** [/^\w+([.-]?\w+)*@\w+([.-]?\w+)*(\.\w{2,3})+$/] *)
Definition emailPattern : Regex.t :=
  let dotOrDash := Regex.Class (fun c => Ascii.eqb c "." || Ascii.eqb c "-")%char in
  let words := Regex.Cat (Regex.plus Regex.w)
                 (Regex.Star (Regex.Cat (Regex.opt dotOrDash) (Regex.plus Regex.w))) in
  let suffix := Regex.Cat (Regex.chr ".")
                  (Regex.Cat Regex.w (Regex.Cat Regex.w (Regex.opt Regex.w))) in
  Regex.Cat words (Regex.Cat (Regex.chr "@") (Regex.Cat words (Regex.plus suffix))).

(** The setters of [email]: [lowercase: true, trim: true]. *)
Definition emailSetters (v : string) : string := Js.toLowerCase (Js.trim v).

Definition validate_name (v : string) : list (string * string) :=
  if String.eqb v "" then [("name", "Name is required")]
  else if negb (Nat.leb 2 (Js.length v)) then [("name", "Name must be at least 2 characters")]
  else if negb (Nat.leb (Js.length v) 50)
  then [("name", "Name must be less than 50 characters")]
  else [].

Definition validate_email (v : string) : list (string * string) :=
  if String.eqb v "" then [("email", "Email is required")]
  else if Regex.test emailPattern v then []
  else [("email", "Please enter a valid email address")].

Definition validate_password (v : string) : list (string * string) :=
  if String.eqb v "" then [("password", "Password is required")]
  else if negb (Nat.leb 6 (Js.length v))
  then [("password", "Password must be at least 6 characters")]
  else [].

Definition validate (doc : IUser) : list (string * string) :=
  (validate_name (name doc) ++ validate_email (email doc)
   ++ validate_password (password doc))%list.

(** [new User({ name, email, password })] *)
Definition new (now : Z) (newId : string) (name email password : string) : IUser :=
  mk newId (Js.trim name) (emailSetters email) password None now now.

(** [UserSchema.pre('save', ...)]: the password is hashed when it was
    modified; [salt] is the salt [bcrypt.hash] draws. *)
Definition preSave `{Platform} (isModified_password : bool) (salt : string) (this : IUser)
    : IUser :=
  if negb isModified_password then this
  else set_password (bcrypt_hash salt (password this)) this.

(** The documents of the collection. *)
Definition documents (users : gmap string IUser) : list IUser :=
  map snd (map_to_list users).

(** [User.findOne({ email })] *)
Definition findOne `{Platform} (email : string) (users : gmap string IUser)
    : option IUser :=
  let wanted := if settersOnQuery then emailSetters email else email in
  List.find (fun u => String.eqb (User.email u) wanted) (documents users).

(** [User.findById(id)] *)
Definition findById `{Platform} (id : string) (users : gmap string IUser)
    : Try (option IUser) :=
  if ObjectId_isValid id then Return (users !! id) else Throw (CastError "_id").

(** [doc.save()] of a new document.  The password was given to the
    constructor, so [isModified('password')] is [true].  [unique: true]
    makes the insertion fail on an e-mail address already stored. *)
Definition save `{Platform} (salt : string) (doc : IUser) (users : gmap string IUser)
    : Try (IUser * gmap string IUser) :=
  match validate doc with
  | [] =>
      let saved := preSave true salt doc in
      if bool_decide (is_Some (users !! _id saved))
         || existsb (fun u => String.eqb (email u) (email saved)) (documents users)
      then Throw DuplicateKeyError
      else Return (saved, <[ _id saved := saved ]> users)
  | errors => Throw (ValidationError "User validation failed" errors)
  end.

(** [user.comparePassword(password)]: a failure of [bcrypt.compare] (an
    argument that is not a string) is caught and answered [false]. *)
Definition comparePassword `{Platform} (this : IUser) (password : JsonValue) : bool :=
  match password with
  | JString p => bcrypt_compare p (User.password this)
  | _ => false
  end.

End User.

(** ** Requests, responses and the state of the service *)

Record Request : Type := mkRequest {
  authorization : option string;
  cookie : option string;
  searchParams : list (string * string);
  body : RequestBody
}.

(** [url.searchParams.get(k)]: the first value of the key. *)
Definition searchParams_get (k : string) (r : Request) : option string :=
  snd <$> List.find (fun kv => String.eqb kv.1 k) (searchParams r).

(** The user object the auth routes return: the document without its
    password. *)
Record UserResponse : Type := mkUserResponse {
  user_id : string;
  user_name : string;
  user_email : string;
  user_avatar : option string;
  user_createdAt : Z
}.

Definition userResponse (u : User.IUser) : UserResponse :=
  mkUserResponse (User._id u) (User.name u) (User.email u) (User.avatar u)
    (User.createdAt u).

Inductive Data : Type :=
| TaskData (task : Task.ITaskDocument)
| TaskList (tasks : list Task.ITaskDocument)
| UserData (user : UserResponse)
| LoginData (user : UserResponse) (token : string).

(** The envelope [ApiResponse]. *)
Record ApiResponse : Type := mkApiResponse {
  success : bool;
  data : option Data;
  message : option string;
  error : option string;
  fieldErrors : option (gmap string string);
  details : option string
}.

Record Cookie : Type := mkCookie {
  cookie_name : string;
  cookie_value : string;
  httpOnly : bool;
  secure : bool;
  sameSite : string;
  maxAge : Z;
  cookie_path : string
}.

Record Response : Type := mkResponse {
  status : nat;
  json : ApiResponse;
  cookies : list Cookie
}.

(** [NextResponse.json({ success: false, error }, { status })] *)
Definition failure (status : nat) (error : string) : Response :=
  mkResponse status (mkApiResponse false None None (Some error) None None) [].

Definition failureWithFields (error : string) (issues : list Zod.Issue) : Response :=
  mkResponse 400
    (mkApiResponse false None None (Some error) (Some (Zod.formatZodError issues)) None) [].

Definition failureWithDetails (error : string) (details : string) : Response :=
  mkResponse 400 (mkApiResponse false None None (Some error) None (Some details)) [].

(** [NextResponse.json({ success: true, data, message })]: status 200. *)
Definition ok (data : Data) (message : string) : Response :=
  mkResponse 200 (mkApiResponse true (Some data) (Some message) None None None) [].

(** [process.env] *)
Record Env : Type := mkEnv {
  NEXTAUTH_SECRET : option string
}.

(** What one invocation of a handler reads from outside the request: the
    environment, the clock, and the values the libraries draw. *)
Record World : Type := mkWorld {
  env : Env;
  now : Z;
  newObjectId : string;
  salt : string
}.

Record Db : Type := mkDb {
  users : gmap string User.IUser;
  tasks : gmap string Task.ITaskDocument
}.

(** [process.env.NEXTAUTH_SECRET] when it is truthy. *)
Definition secret (w : World) : option string :=
  Js.orUndefined (NEXTAUTH_SECRET (env w)).

(** ** The session extractor

    [getUserFromToken] of both task routes and the first lines of
    [GET /api/auth/me] locate the token with the same statements. *)

(** [if (authHeader && authHeader.startsWith('Bearer '))
      token = authHeader.substring(7)] *)
Definition bearerToken (authHeader : option string) : option string :=
  match Js.orUndefined authHeader with
  | Some h => if Js.startsWith "Bearer " h then Some (Js.substring_from 7 h) else None
  | None => None
  end.

(** [cookies.find(cookie => cookie.trim().startsWith('auth-token='))] *)
Definition authCookie (cookieHeader : string) : option string :=
  Js.find (fun cookie => Js.startsWith "auth-token=" (Js.trim cookie))
    (Js.split ";" cookieHeader).

(** [else if (cookieHeader) { ...; token = authCookie.split('=')[1] }] *)
Definition cookieToken (cookieHeader : option string) : option string :=
  match Js.orUndefined cookieHeader with
  | Some c =>
      match authCookie c with
      | Some found => Js.index (Js.split "=" found) 1
      | None => None
      end
  | None => None
  end.

Definition extractToken (r : Request) : option string :=
  match bearerToken (authorization r) with
  | Some token => Some token
  | None => cookieToken (cookie r)
  end.

(** [getUserFromToken(request)] *)
Definition getUserFromToken `{Platform} (w : World) (r : Request) : option string :=
  match Js.orUndefined (extractToken r), secret w with
  | Some token, Some s =>
      match Jwt.verify token s (now w) with
      | inr decoded => Some (payload_userId decoded)
      | inl _ => None
      end
  | _, _ => None
  end.

(** ** Route handlers *)

(** A handler is one [try] block and its [catch]; a handler that throws has
    not written to the store. *)
Definition tryCatch (db : Db) (catch : Exception -> Response)
    (block : Try (Response * Db)) : Response * Db :=
  match block with
  | Return r => r
  | Throw e => (catch e, db)
  end.

Definition unauthenticated : Response := failure 401 "Authentication required".
Definition taskNotFound : Response := failure 404 "Task not found".

(** [await request.json()] followed by a property access on the result. *)
Definition readBody (b : RequestBody) : Try RequestBody :=
  match b with
  | BodyNotJson => Throw SyntaxError
  | BodyValue JNull => Throw TypeError
  | _ => Return b
  end.

Module TasksRoute.

(** [GET /api/tasks] *)
Definition GET `{Platform} (w : World) (db : Db) (r : Request) : Response * Db :=
  tryCatch db (fun _ => failure 500 "Failed to fetch tasks")
    match Js.orUndefined (getUserFromToken w r) with
    | None => Return (unauthenticated, db)
    | Some userId =>
        match Schemas.TaskQuerySchema
                (Js.orUndefined (searchParams_get "status" r))
                (Js.orUndefined (searchParams_get "priority" r))
                (Js.orUndefined (searchParams_get "category" r)) with
        | Zod.Failure issues =>
            Return (failureWithFields "Invalid query parameters" issues, db)
        | Zod.Success validatedParams =>
            found ← Task.find userId validatedParams (tasks db);
            Return (ok (TaskList found) "Tasks fetched successfully", db)
        end
    end.

(** [dueDate ? new Date(dueDate) : undefined]; an invalid date does not
    pass the document's validation. *)
Definition newDate `{Platform} (dueDate : option string) : Try (option Z) :=
  match Js.orUndefined dueDate with
  | None => Return None
  | Some s =>
      match Date_parse s with
      | Some d => Return (Some d)
      | None => Throw (ValidationError "Task validation failed"
                         [("dueDate", "Cast to date failed")])
      end
  end.

(** [POST /api/tasks] *)
Definition POST `{Platform} (w : World) (db : Db) (r : Request) : Response * Db :=
  tryCatch db
    (fun e =>
       match e with
       | ValidationError heading errors =>
           failureWithDetails "Validation failed" (validationMessage heading errors)
       | _ => failure 500 "Failed to create task"
       end)
    match Js.orUndefined (getUserFromToken w r) with
    | None => Return (unauthenticated, db)
    | Some userId =>
        b ← readBody (body r);
        match Schemas.CreateTaskSchema (now w) b with
        | Zod.Failure issues => Return (failureWithFields "Validation failed" issues, db)
        | Zod.Success d =>
            dueDate ← newDate (new_dueDate d);
            let newTask :=
              Task.new (now w) (newObjectId w) (new_title d)
                (Js.orUndefined (new_description d)) (new_priority d) (new_category d)
                dueDate userId in
            saved ← Task.save (now w) newTask (tasks db);
            Return (ok (TaskData saved.1) "Task created successfully",
                    mkDb (users db) saved.2)
        end
    end.

End TasksRoute.

Module TaskRoute.

(** [GET /api/tasks/:id] *)
Definition GET `{Platform} (w : World) (db : Db) (id : string) (r : Request)
    : Response * Db :=
  tryCatch db (fun _ => failure 500 "Failed to fetch task")
    match Js.orUndefined (getUserFromToken w r) with
    | None => Return (unauthenticated, db)
    | Some userId =>
        task ← Task.findOne id userId (tasks db);
        match task with
        | None => Return (taskNotFound, db)
        | Some t => Return (ok (TaskData t) "Task fetched successfully", db)
        end
    end.

(** [PATCH /api/tasks/:id] *)
Definition PATCH `{Platform} (w : World) (db : Db) (id : string) (r : Request)
    : Response * Db :=
  tryCatch db
    (fun e =>
       match e with
       | ValidationError heading errors =>
           failureWithDetails "Validation failed" (validationMessage heading errors)
       | _ => failure 500 "Failed to update task"
       end)
    (if negb (Schemas.TaskIdSchema id) then Return (failure 400 "Invalid task ID", db)
     else
       match Js.orUndefined (getUserFromToken w r) with
       | None => Return (unauthenticated, db)
       | Some userId =>
           b ← match body r with BodyNotJson => Throw SyntaxError | b => Return b end;
           match Schemas.UpdateTaskSchema (now w) b with
           | Zod.Failure issues =>
               Return (failureWithFields "Validation failed" issues, db)
           | Zod.Success updateData =>
               updated ← Task.findOneAndUpdate (now w) id userId updateData (tasks db);
               match updated.1 with
               | None => Return (taskNotFound, db)
               | Some t =>
                   Return (ok (TaskData t) "Task updated successfully",
                           mkDb (users db) updated.2)
               end
           end
       end).

(** [DELETE /api/tasks/:id] *)
Definition DELETE `{Platform} (w : World) (db : Db) (id : string) (r : Request)
    : Response * Db :=
  tryCatch db (fun _ => failure 500 "Failed to delete task")
    (if negb (Schemas.TaskIdSchema id) then Return (failure 400 "Invalid task ID", db)
     else
       match Js.orUndefined (getUserFromToken w r) with
       | None => Return (unauthenticated, db)
       | Some userId =>
           deleted ← Task.findOneAndDelete id userId (tasks db);
           match deleted.1 with
           | None => Return (taskNotFound, db)
           | Some t =>
               Return (ok (TaskData t) "Task deleted successfully",
                       mkDb (users db) deleted.2)
           end
       end).

End TaskRoute.

Module AuthRoute.

(** The fields [const { email, password } = body] reads. *)
Definition credentials (b : RequestBody) : Try (option JsonValue * option JsonValue) :=
  match b with
  | BodyNotJson => Throw SyntaxError
  | BodyValue JNull => Throw TypeError
  | BodyValue _ => Return (None, None)
  | BodyObject o => Return (o !! "email", o !! "password")
  end.

(** [email.toLowerCase()] on a truthy value: only a string has the
    method. *)
Definition toLowerCase (email : JsonValue) : Try string :=
  match email with
  | JString s => Return (Js.toLowerCase s)
  | _ => Throw TypeError
  end.

Definition invalidCredentials : Response := failure 401 "Invalid email or password".

Definition authCookieOptions (token : string) : Cookie :=
  mkCookie "auth-token" token true false "lax" (7 * 24 * 60 * 60)%Z "/".

(** [POST /api/auth/login] *)
Definition login `{Platform} (w : World) (db : Db) (r : Request) : Response * Db :=
  tryCatch db (fun _ => failure 500 "Login failed. Please try again.")
    (c ← credentials (body r);
     match c with
     | (Some email, Some password) =>
         if negb (json_truthy (Some email)) || negb (json_truthy (Some password))
         then Return (failure 400 "Email and password are required", db)
         else
           lowered ← toLowerCase email;
           match User.findOne lowered (users db) with
           | None => Return (invalidCredentials, db)
           | Some user =>
               if negb (User.comparePassword user password)
               then Return (invalidCredentials, db)
               else
                 match secret w with
                 | None => Throw (PlainError "NEXTAUTH_SECRET is not configured")
                 | Some s =>
                     let token :=
                       Jwt.sign (User._id user) (User.email user) s Jwt.sevenDays (now w) in
                     Return
                       (mkResponse 200
                          (mkApiResponse true (Some (LoginData (userResponse user) token))
                             (Some "Login successful") None None None)
                          [authCookieOptions token],
                        db)
                 end
           end
     | _ => Return (failure 400 "Email and password are required", db)
     end).

(** [GET /api/auth/me].  In the [catch], the test for [JsonWebTokenError]
    comes first and holds of every error [jwt.verify] throws, an expiry
    error included. *)
Definition me `{Platform} (w : World) (db : Db) (r : Request) : Response * Db :=
  tryCatch db
    (fun e =>
       match e with
       | JwtException j =>
           if Jwt.instanceof_JsonWebTokenError j
           then failure 401 "Invalid authentication token"
           else if Jwt.instanceof_TokenExpiredError j
           then failure 401 "Authentication token expired"
           else failure 500 "Failed to get current user"
       | _ => failure 500 "Failed to get current user"
       end)
    match Js.orUndefined (extractToken r) with
    | None => Return (failure 401 "No authentication token provided", db)
    | Some token =>
        match secret w with
        | None => Throw (PlainError "NEXTAUTH_SECRET is not configured")
        | Some s =>
            match Jwt.verify token s (now w) with
            | inl e => Throw (JwtException e)
            | inr decoded =>
                user ← User.findById (payload_userId decoded) (users db);
                match user with
                | None => Return (failure 404 "User not found", db)
                | Some u =>
                    Return (mkResponse 200
                              (mkApiResponse true (Some (UserData (userResponse u)))
                                 None None None None) [],
                            db)
                end
            end
        end
    end.

(** [POST /api/auth/register] *)
Definition register `{Platform} (w : World) (db : Db) (r : Request) : Response * Db :=
  tryCatch db
    (fun e =>
       match e with
       | ValidationError heading errors =>
           failureWithDetails "Validation failed" (validationMessage heading errors)
       | DuplicateKeyError => failure 400 "User with this email already exists"
       | _ => failure 500 "Registration failed. Please try again."
       end)
    (b ← readBody (body r);
     match Schemas.RegisterSchema b with
     | Zod.Failure issues => Return (failureWithFields "Validation failed" issues, db)
     | Zod.Success d =>
         match User.findOne (reg_email d) (users db) with
         | Some _ => Return (failure 400 "User with this email already exists", db)
         | None =>
             let newUser :=
               User.new (now w) (newObjectId w) (reg_name d) (reg_email d)
                 (reg_password d) in
             saved ← User.save (salt w) newUser (users db);
             Return
               (mkResponse 200
                  (mkApiResponse true (Some (UserData (userResponse saved.1)))
                     (Some "User registered successfully") None None None) [],
                mkDb saved.2 (tasks db))
         end
     end).

End AuthRoute.

(** ** A concrete platform and concrete data

    Executable stand-ins for the library primitives, used to run the
    handlers on concrete requests. *)

Module Sample.

Definition mac (alg secret : string) (p : JWTPayload) : string :=
  alg ++ ":" ++ secret ++ ":" ++ payload_userId p ++ ":" ++ payload_email p.

Definition encode (j : Jws) : string :=
  alg j ++ "." ++ payload_userId (payload j) ++ "." ++ signature j.

(** The instants of the examples: noon of a day, and eight days later. *)
Definition noon : Z := 1700049600000%Z.
Definition eightDaysLater : Z := (noon + 8 * 86400000)%Z.

Definition annId : string := "64b000000000000000000001".
Definition bobId : string := "64b000000000000000000002".
Definition taskId : string := "64c000000000000000000001".
Definition theSecret : string := "s3cr3t".

Definition annPayload : JWTPayload :=
  mkPayload annId "ann@example.com" (noon / 1000)%Z (Some (noon / 1000 + Jwt.sevenDays)%Z).
Definition bobPayload : JWTPayload :=
  mkPayload bobId "bob@example.com" (noon / 1000)%Z (Some (noon / 1000 + Jwt.sevenDays)%Z).

(** The tokens the sample decoder knows: Ann's and Bob's, and Ann's payload
    under a signature made with another secret. *)
Definition knownTokens : list Jws :=
  [mkJws "HS256" annPayload (mac "HS256" theSecret annPayload);
   mkJws "HS256" bobPayload (mac "HS256" theSecret bobPayload);
   mkJws "HS256" annPayload (mac "HS256" "guess" annPayload)].

Definition decode (s : string) : option Jws :=
  List.find (fun j => String.eqb (encode j) s) knownTokens.

#[global] Instance platform : Platform := {|
  hmac := mac;
  jws_encode := encode;
  jws_decode := decode;
  bcrypt_hash := fun _ plain => "bcrypt:" ++ plain;
  bcrypt_compare := fun plain digest => String.eqb digest ("bcrypt:" ++ plain);
  Date_parse := fun _ => None;
  startOfLocalDay := fun now => (now - now mod 86400000)%Z;
  zod_email := fun s => String.eqb (Js.trim s) s && Regex.test User.emailPattern s;
  ObjectId_isValid := fun s => Nat.eqb (Js.length s) 24;
  settersOnQuery := true
|}.

Definition world : World := mkWorld (mkEnv (Some theSecret)) noon taskId "salt".
Definition worldWithoutSecret : World := mkWorld (mkEnv None) noon taskId "salt".

Definition annToken : string := Jwt.sign annId "ann@example.com" theSecret Jwt.sevenDays noon.
Definition bobToken : string := Jwt.sign bobId "bob@example.com" theSecret Jwt.sevenDays noon.

Definition withBearer (token : string) (b : RequestBody) : Request :=
  mkRequest (Some ("Bearer " ++ token)) None [] b.

Definition anonymous (b : RequestBody) : Request := mkRequest None None [] b.

Definition noBody : RequestBody := BodyObject ∅.

(** The body [{ title: 'Buy milk', priority: 'low', category: 'personal' }],
    and a store that holds Ann and no task. *)
Definition buyMilk : gmap string JsonValue :=
  {[ "title" := JString "Buy milk"; "priority" := JString "low";
     "category" := JString "personal" ]}.

(** The bodies [{ status: 'completed' }] and [{ title: '' }]. *)
Definition complete : RequestBody := BodyObject {[ "status" := JString "completed" ]}.
Definition emptyTitle : RequestBody := BodyObject {[ "title" := JString "" ]}.

Definition registerAs (name email password : string) : Request :=
  anonymous (BodyObject {[ "name" := JString name; "email" := JString email;
                           "password" := JString password;
                           "confirmPassword" := JString password ]}).

Definition loginAs (email password : string) : Request :=
  anonymous (BodyObject {[ "email" := JString email; "password" := JString password ]}).

(** A pending task of Ann's. *)
Definition annTask : Task.ITaskDocument :=
  Task.mk taskId "Buy milk" None PENDING LOW PERSONAL None None annId
    (noon - 1000)%Z (noon - 1000)%Z.

Definition ann : User.IUser :=
  User.mk annId "Ann" "ann@example.com" "bcrypt:hunter22" None
    (noon - 5000)%Z (noon - 5000)%Z.

Definition db : Db := mkDb {[ annId := ann ]} {[ taskId := annTask ]}.
(** A store with two tasks of Ann's, the completed one older, and a task of
    Bob's. *)
Definition annDone : Task.ITaskDocument :=
  Task.mk "64c000000000000000000002" "File taxes" None COMPLETED HIGH FINANCE None
    (Some (noon - 2000)%Z) annId (noon - 9000)%Z (noon - 2000)%Z.
Definition bobTask : Task.ITaskDocument :=
  Task.mk "64c000000000000000000003" "Call mum" None PENDING MEDIUM PERSONAL None None
    bobId (noon - 500)%Z (noon - 500)%Z.
Definition threeTasks : Db :=
  mkDb {[ annId := ann ]}
    {[ Task._id annDone := annDone; taskId := annTask; Task._id bobTask := bobTask ]}.

Definition listWith (params : list (string * string)) : Request :=
  mkRequest (Some ("Bearer " ++ annToken)) None params noBody.

Definition emptyDb : Db := mkDb ∅ ∅.
Definition dbWithoutTasks : Db := mkDb {[ annId := ann ]} ∅.

End Sample.

(** ** The service as a whole, and the vocabulary of the statements *)

(** One call of the API: the route, its parameter and the request. *)
Inductive Call : Type :=
| Register (r : Request)
| Login (r : Request)
| Me (r : Request)
| ListTasks (r : Request)
| CreateTask (r : Request)
| GetTask (id : string) (r : Request)
| PatchTask (id : string) (r : Request)
| DeleteTask (id : string) (r : Request).

Definition dispatch `{Platform} (w : World) (db : Db) (c : Call) : Response * Db :=
  match c with
  | Register r => AuthRoute.register w db r
  | Login r => AuthRoute.login w db r
  | Me r => AuthRoute.me w db r
  | ListTasks r => TasksRoute.GET w db r
  | CreateTask r => TasksRoute.POST w db r
  | GetTask id r => TaskRoute.GET w db id r
  | PatchTask id r => TaskRoute.PATCH w db id r
  | DeleteTask id r => TaskRoute.DELETE w db id r
  end.

(** The server answers the calls one after the other, each in the world it
    arrives in, on the store the previous calls left. *)
Fixpoint serve `{Platform} (db : Db) (calls : list (World * Call)) : list Response :=
  match calls with
  | [] => []
  | (w, c) :: rest =>
      let r := dispatch w db c in r.1 :: serve r.2 rest
  end.

(** [c] occurs in [s]. *)
Fixpoint occurs (c : ascii) (s : string) : bool :=
  match s with
  | EmptyString => false
  | String x s' => Ascii.eqb x c || occurs c s'
  end.

(** [s] is white space only. *)
Fixpoint blank (s : string) : bool :=
  match s with
  | EmptyString => true
  | String x s' => Js.isWhiteSpace x && blank s'
  end.

(** The invariant of the data model: [completedAt] is set exactly when the
    status is [completed]. *)
Definition completedAt_coupled (t : Task.ITaskDocument) : Prop :=
  Task.status t = COMPLETED <-> is_Some (Task.completedAt t).

(** A [PATCH] body that is JSON, passes [UpdateTaskSchema] and passes the
    update validators. *)
Definition acceptedUpdate `{Platform} (now : Z) (b : RequestBody) : Prop :=
  b <> BodyNotJson /\
  exists input u,
    Schemas.UpdateTaskSchema now b = Zod.Success input /\
    Task.castUpdate input = Return u /\
    Task.validateUpdate now u = [].

(** What a request supplies for a query parameter of the list endpoint. *)
Definition supplied (k : string) (r : Request) : option string :=
  Js.orUndefined (searchParams_get k r).

(** The three ways the verification of a token fails. *)
Inductive FailureCause : Set := Malformed | SignatureInvalid | Expired.

Definition failsWith `{Platform} (cause : FailureCause) (token secret : string) (now : Z)
    : Prop :=
  match cause with
  | Malformed =>
      Jwt.verify token secret now = inl (Jwt.JsonWebTokenError "jwt malformed")
  | SignatureInvalid =>
      Jwt.verify token secret now = inl (Jwt.JsonWebTokenError "invalid signature")
  | Expired =>
      exists expiredAt,
        Jwt.verify token secret now = inl (Jwt.TokenExpiredError "jwt expired" expiredAt)
  end.

(** The caller a request is authenticated as: the token resolves to the
    user id, and the id is one the store can look up. *)
Definition authenticatedAs `{Platform} (w : World) (r : Request) (userId : string) : Prop :=
  Js.orUndefined (getUserFromToken w r) = Some userId /\ ObjectId_isValid userId = true.

(** A login request with a well-formed body: an object whose [email] and
    [password] are non-empty strings. *)
Definition loginRequest (r : Request) (email password : string) : Prop :=
  exists o,
    body r = BodyObject o /\
    o !! "email" = Some (JString email) /\ o !! "password" = Some (JString password) /\
    email <> "" /\ password <> "".

(** A task id of a routed request that the store can look up. *)
Definition wellFormedId `{Platform} (id : string) : Prop :=
  id <> "" /\ ObjectId_isValid id = true.

(** ** [app/api/auth/logout/route.ts] *)

Module LogoutRoute.

(** [POST /api/auth/logout]; nothing in the [try] block throws.
    [production] is [process.env.NODE_ENV === 'production']. *)
Definition POST (production : bool) : Response :=
  mkResponse 200
    (mkApiResponse true None (Some "Logged out successfully") None None None)
    [mkCookie "auth-token" "" true production "strict" 0 "/"].

End LogoutRoute.

(** ** The statics of [models/Task.ts] *)

Module TaskStatics.

(** [TaskSchema.statics.findByUser]: [find({ userId }).sort({ createdAt: -1 })] *)
Definition findByUser `{Platform} (userId : string)
    (tasks : gmap string Task.ITaskDocument) : Try (list Task.ITaskDocument) :=
  if negb (ObjectId_isValid userId) then Throw (CastError "userId")
  else Return (merge_sort Task.newestFirst
                 (List.filter (fun t => String.eqb (Task.userId t) userId)
                    (map snd (map_to_list tasks)))).

(** The filter [{ userId, dueDate: { $lt: new Date() },
    status: { $ne: TaskStatus.COMPLETED } }]; a task without a due date does
    not match [$lt]. *)
Definition overdueFilter (now : Z) (userId : string) (t : Task.ITaskDocument) : bool :=
  String.eqb (Task.userId t) userId
  && match Task.dueDate t with
     | Some due => Z.ltb due now
     | None => false
     end
  && negb (bool_decide (Task.status t = COMPLETED)).

(** [TaskSchema.statics.findOverdue] *)
Definition findOverdue `{Platform} (now : Z) (userId : string)
    (tasks : gmap string Task.ITaskDocument) : Try (list Task.ITaskDocument) :=
  if negb (ObjectId_isValid userId) then Throw (CastError "userId")
  else Return (List.filter (overdueFilter now userId) (map snd (map_to_list tasks))).

End TaskStatics.

(** ** The pages

    The pages hold the tasks the API returned.  A date of a task reaches a
    page as the ISO string of the stored instant, and [new Date] reads the
    instant back; the pages are modelled on the documents themselves. *)

Module TasksPage.

(** [isOverdue(task)] of the task list; [now] is the instant of
    [new Date()]. *)
Definition isOverdue (now : Z) (task : Task.ITaskDocument) : bool :=
  match Task.dueDate task with
  | None => false
  | Some due =>
      if bool_decide (Task.status task = COMPLETED) then false else Z.ltb due now
  end.

(** The body [JSON.stringify({ status })] of [updateTaskStatus]. *)
Definition statusBody (s : TaskStatus) : RequestBody :=
  BodyObject {[ "status" := JString (TaskStatus_value s) ]}.

(** [prevTasks.map(task => task._id === taskId ? result.data : task)] *)
Definition replaceTask (taskId : string) (updated : Task.ITaskDocument)
    (prevTasks : list Task.ITaskDocument) : list Task.ITaskDocument :=
  map (fun task => if String.eqb (Task._id task) taskId then updated else task) prevTasks.

(** [prevTasks.filter(task => task._id !== taskId)] *)
Definition removeTask (taskId : string) (prevTasks : list Task.ITaskDocument)
    : list Task.ITaskDocument :=
  List.filter (fun task => negb (String.eqb (Task._id task) taskId)) prevTasks.

(** The request [fetch(url, { credentials: 'include', body })] sends: the
    credentials of the browser's session with the given body. *)
Definition withBody (b : RequestBody) (session : Request) : Request :=
  mkRequest (authorization session) (cookie session) (searchParams session) b.

(** [response.ok] *)
Definition response_ok (resp : Response) : bool :=
  Nat.leb 200 (status resp) && Nat.leb (status resp) 299.

(** [updateTaskStatus(taskId, status)]: the list the page holds afterwards,
    and the store the server is left with. *)
Definition updateTaskStatus `{Platform} (w : World) (db : Db) (session : Request)
    (taskId : string) (s : TaskStatus) (prevTasks : list Task.ITaskDocument)
    : list Task.ITaskDocument * Db :=
  let answer := TaskRoute.PATCH w db taskId (withBody (statusBody s) session) in
  (if response_ok answer.1 then
     match success (json answer.1), data (json answer.1) with
     | true, Some (TaskData updated) => replaceTask taskId updated prevTasks
     | _, _ => prevTasks
     end
   else prevTasks,
   answer.2).

(** [deleteTask(taskId)]; [confirmed] is the answer to [confirm(...)].  The
    request has no body. *)
Definition deleteTask `{Platform} (w : World) (db : Db) (session : Request)
    (taskId : string) (confirmed : bool) (prevTasks : list Task.ITaskDocument)
    : list Task.ITaskDocument * Db :=
  if negb confirmed then (prevTasks, db)
  else
    let answer := TaskRoute.DELETE w db taskId (withBody BodyNotJson session) in
    (if response_ok answer.1 then removeTask taskId prevTasks else prevTasks, answer.2).

End TasksPage.

Module DashboardPage.

Record Stats : Type := mkStats {
  total : nat;
  completed : nat;
  pending : nat;
  overdue : nat
}.

(** [calculateStats(taskList)] *)
Definition calculateStats (now : Z) (taskList : list Task.ITaskDocument) : Stats :=
  mkStats
    (length taskList)
    (length (List.filter (fun task => bool_decide (Task.status task = COMPLETED)) taskList))
    (length (List.filter (fun task => bool_decide (Task.status task = PENDING)) taskList))
    (length (List.filter
               (fun task =>
                  match Task.dueDate task with
                  | Some due =>
                      Z.ltb due now && negb (bool_decide (Task.status task = COMPLETED))
                  | None => false
                  end) taskList)).

End DashboardPage.

Module CreateTaskPage.

(** The form state: every field is a string of an input, the two selects
    hold enum members. *)
Record FormData : Type := mkFormData {
  title : string;
  description : string;
  priority : TaskPriority;
  category : TaskCategory;
  dueDate : string
}.

(** The errors [validateForm] collects; [now] is the instant of
    [new Date()].  An invalid date compares [false] with every date and
    raises no error here. *)
Definition newErrors `{Platform} (now : Z) (formData : FormData) : gmap string string :=
  let e1 : gmap string string :=
    if negb (Js.truthy (Js.trim (title formData)))
    then {[ "title" := "Task title is required" ]}
    else if Nat.ltb 200 (Js.length (title formData))
    then {[ "title" := "Title must be less than 200 characters" ]}
    else ∅ in
  let e2 :=
    if Js.truthy (description formData)
       && Nat.ltb 1000 (Js.length (description formData))
    then <[ "description" := "Description must be less than 1000 characters" ]> e1
    else e1 in
  if Js.truthy (dueDate formData) then
    match Date_parse (dueDate formData) with
    | Some due =>
        if Z.ltb due (startOfLocalDay now)
        then <[ "dueDate" := "Due date cannot be in the past" ]> e2
        else e2
    | None => e2
    end
  else e2.

(** [validateForm()]: [Object.keys(newErrors).length === 0] *)
Definition validateForm `{Platform} (now : Z) (formData : FormData) : bool :=
  bool_decide (newErrors now formData = ∅).

(** The body [JSON.stringify(formData)] of [handleSubmit]. *)
Definition submitted (formData : FormData) : gmap string JsonValue :=
  {[ "title" := JString (title formData);
     "description" := JString (description formData);
     "priority" := JString (TaskPriority_value (priority formData));
     "category" := JString (TaskCategory_value (category formData));
     "dueDate" := JString (dueDate formData) ]}.

End CreateTaskPage.

(** ** More vocabulary *)

(** The request of a call. *)
Definition callRequest (c : Call) : Request :=
  match c with
  | Register r | Login r | Me r | ListTasks r | CreateTask r => r
  | GetTask _ r | PatchTask _ r | DeleteTask _ r => r
  end.

(** The store the server is left with after a sequence of calls. *)
Fixpoint run `{Platform} (db : Db) (calls : list (World * Call)) : Db :=
  match calls with
  | [] => db
  | (w, c) :: rest => run (dispatch w db c).2 rest
  end.

(** Documents are stored under their own [_id]; no two users share an
    e-mail address, and every stored address is in lower case. *)
Definition storeInvariant (db : Db) : Prop :=
  (forall id t, tasks db !! id = Some t -> Task._id t = id)
  /\ (forall id u, users db !! id = Some u -> User._id u = id)
  /\ (forall i j u v,
        users db !! i = Some u -> users db !! j = Some v ->
        User.email u = User.email v -> i = j)
  /\ (forall id u, users db !! id = Some u -> Js.toLowerCase (User.email u) = User.email u).


(** The first character of [s], if any, is not white space. *)
Definition headNotBlank (s : string) : Prop :=
  match s with
  | EmptyString => True
  | String c _ => Js.isWhiteSpace c = false
  end.

(** The due date a create request carries: none when the field is missing
    or empty; otherwise the instant [new Date] reads, which is not before
    the midnight that began the day of [now] and is after [now]. *)
Definition readsDueDate `{Platform} (now : Z) (field : option string) (due : option Z)
    : Prop :=
  match Js.orUndefined field with
  | None => due = None
  | Some s =>
      exists d, Date_parse s = Some d /\ due = Some d
                /\ (startOfLocalDay now <= d)%Z /\ (now < d)%Z
  end.

(** The calls that write to the store when they succeed. *)
Definition writes (c : Call) : bool :=
  match c with
  | Register _ | CreateTask _ | PatchTask _ _ | DeleteTask _ _ => true
  | Login _ | Me _ | ListTasks _ | GetTask _ _ => false
  end.

(** The user a call is made as, if the call carries a valid token. *)
Definition caller `{Platform} (w : World) (c : Call) : option string :=
  Js.orUndefined (getUserFromToken w (callRequest c)).

(** The schema of [status] in [UpdateTaskSchema], before [optional]. *)
Definition statusSchema : option JsonValue -> Zod.Parsed TaskStatus :=
  Zod.nativeEnum TaskStatus_value TaskStatus_values (Some "Please select a valid status")
    "status".

(** The list holds exactly the tasks of the user that the store holds. *)
Definition shows (userId : string) (db : Db) (l : list Task.ITaskDocument) : Prop :=
  forall t, In t l <-> (exists id, tasks db !! id = Some t) /\ Task.userId t = userId.

(** ** More concrete data *)

Module Cases.

(** A string of [n] letters. *)
Definition letters (n : nat) : string := String.concat "" (repeat "a" n).

Definition createBody (title : string) : gmap string JsonValue :=
  {[ "title" := JString title; "priority" := JString "low";
     "category" := JString "personal" ]}.

Definition create (title : string) : Request :=
  Sample.withBearer Sample.annToken (BodyObject (createBody title)).

(** A platform that reads one date string: [2023-11-15], the day of
    [Sample.noon], as the midnight that begins it. *)
Definition midnight : Z := (Sample.noon - 43200000)%Z.

Definition datedPlatform : Platform := {|
  hmac := Sample.mac;
  jws_encode := Sample.encode;
  jws_decode := Sample.decode;
  bcrypt_hash := fun _ plain => "bcrypt:" ++ plain;
  bcrypt_compare := fun plain digest => String.eqb digest ("bcrypt:" ++ plain);
  Date_parse := fun s => if String.eqb s "2023-11-15" then Some midnight else None;
  startOfLocalDay := fun now => (now - now mod 86400000)%Z;
  zod_email := fun s => String.eqb (Js.trim s) s && Regex.test User.emailPattern s;
  ObjectId_isValid := fun s => Nat.eqb (Js.length s) 24;
  settersOnQuery := true
|}.

Definition dueToday : gmap string JsonValue :=
  <[ "dueDate" := JString "2023-11-15" ]> (createBody "Buy milk").

End Cases.

(** * Theorems *)

(** ** Strings *)

Lemma app_cons (x : ascii) (a b : string) : String x a ++ b = String x (a ++ b).
Proof. reflexivity. Qed.

Lemma app_nil (b : string) : "" ++ b = b.
Proof. reflexivity. Qed.

Lemma string_app_assoc (a b c : string) : (a ++ b) ++ c = a ++ (b ++ c).
Proof.
  induction a as [|x a IH]; [reflexivity |]. rewrite !app_cons. f_equal. exact IH.
Qed.

Lemma startsWith_app (p s : string) : Js.startsWith p (p ++ s) = true.
Proof.
  unfold Js.startsWith. induction p as [|c p IH].
  - destruct s; reflexivity.
  - rewrite app_cons. simpl. destruct (ascii_dec c c); [exact IH | contradiction].
Qed.

Lemma truthy_true (s : string) : s <> "" -> Js.truthy s = true.
Proof.
  intros Hs. unfold Js.truthy. destruct (String.eqb_spec s ""); [contradiction | reflexivity].
Qed.

Lemma orUndefined_Some (x : option string) (s : string) :
  Js.orUndefined x = Some s <-> x = Some s /\ s <> "".
Proof.
  unfold Js.orUndefined, Js.truthy. destruct x as [y|]; [|split; [discriminate | intros [? _]; discriminate]].
  destruct (String.eqb_spec y ""); simpl; split.
  - discriminate.
  - intros [[= ->] Hs]. contradiction.
  - intros [= ->]. split; [reflexivity | assumption].
  - intros [[= ->] _]. reflexivity.
Qed.

Lemma orUndefined_None (x : option string) :
  Js.orUndefined x = None <-> x = None \/ x = Some "".
Proof.
  unfold Js.orUndefined, Js.truthy. destruct x as [y|]; [|tauto].
  destruct (String.eqb_spec y ""); simpl; split; try subst y; try tauto; try discriminate.
  intros [|[= ->]]; [discriminate | contradiction].
Qed.

Lemma split_without_separator (sep : ascii) (s : string) :
  occurs sep s = false -> Js.split sep s = [s].
Proof.
  induction s as [|c s IH]; simpl; [reflexivity |].
  intros H. apply orb_false_iff in H as [Hc Hs]. rewrite Hc, (IH Hs). reflexivity.
Qed.

Lemma split_at_separator (sep : ascii) (a b : string) :
  occurs sep a = false -> Js.split sep (a ++ String sep b) = a :: Js.split sep b.
Proof.
  induction a as [|c a IH]; simpl; intros H.
  - rewrite Ascii.eqb_refl. reflexivity.
  - apply orb_false_iff in H as [Hc Ha]. rewrite Hc, (IH Ha). reflexivity.
Qed.

(** Splitting undoes joining, when no piece holds the separator. *)
Lemma split_concat (sep : ascii) (pieces : list string) :
  pieces <> [] ->
  Forall (fun p => occurs sep p = false) pieces ->
  Js.split sep (String.concat (String sep "") pieces) = pieces.
Proof.
  induction pieces as [|p rest IH]; [contradiction |]. intros _ Hall.
  inversion Hall as [|? ? Hp Hrest]; subst. destruct rest as [|q rest].
  - simpl. apply split_without_separator, Hp.
  - change (String.concat (String sep "") (p :: q :: rest))
      with (p ++ String sep (String.concat (String sep "") (q :: rest))).
    rewrite split_at_separator by assumption. f_equal. apply IH; [discriminate | assumption].
Qed.

Lemma find_first_match {A} (p : A -> bool) (before after : list A) (x : A) :
  Forall (fun y => p y = false) before -> p x = true ->
  Js.find p (before ++ x :: after) = Some x.
Proof.
  unfold Js.find. induction before as [|y before IH]; simpl; intros Hb Hx.
  - now rewrite Hx.
  - inversion Hb as [|? ? Hy Hrest]; subst. rewrite Hy. now apply IH.
Qed.

Lemma trimStart_blank (ws s : string) :
  blank ws = true -> Js.trimStart (ws ++ s) = Js.trimStart s.
Proof.
  induction ws as [|c ws IH]; simpl; [reflexivity |].
  intros H. apply andb_true_iff in H as [Hc Hws]. rewrite Hc. now apply IH.
Qed.

Lemma trimEnd_keeps (c : ascii) (s : string) :
  Js.isWhiteSpace c = false -> Js.trimEnd (String c s) = String c (Js.trimEnd s).
Proof. intros Hc. simpl. destruct (Js.trimEnd s); [now rewrite Hc | reflexivity]. Qed.

Lemma blank_lacks (c : ascii) (ws : string) :
  Js.isWhiteSpace c = false -> blank ws = true -> occurs c ws = false.
Proof.
  intros Hc. induction ws as [|x ws IH]; simpl; [reflexivity |].
  intros H. apply andb_true_iff in H as [Hx Hws]. rewrite (IH Hws), orb_false_r.
  destruct (Ascii.eqb_spec x c); [congruence | reflexivity].
Qed.

Lemma occurs_app (c : ascii) (a b : string) :
  occurs c (a ++ b) = occurs c a || occurs c b.
Proof. induction a as [|x a IH]; simpl; [reflexivity | now rewrite IH, orb_assoc]. Qed.

(** A cookie [auth-token=tok], possibly after white space, is recognised
    and yields [tok]. *)
Lemma authCookie_recognised (ws tok : string) :
  blank ws = true ->
  Js.startsWith "auth-token=" (Js.trim (ws ++ "auth-token=" ++ tok)) = true.
Proof.
  intros Hws. unfold Js.trim. rewrite trimStart_blank by assumption.
  change (Js.trimStart ("auth-token=" ++ tok)) with ("auth-token=" ++ tok).
  rewrite !app_cons, app_nil, !trimEnd_keeps by reflexivity.
  exact (startsWith_app "auth-token=" (Js.trimEnd tok)).
Qed.

Lemma authCookie_value (ws tok : string) :
  blank ws = true -> occurs "=" tok = false ->
  Js.index (Js.split "=" (ws ++ "auth-token=" ++ tok)) 1 = Some tok.
Proof.
  intros Hws Htok.
  change (ws ++ "auth-token=" ++ tok) with (ws ++ ("auth-token" ++ String "=" tok)).
  rewrite <- string_app_assoc, split_at_separator.
  - rewrite split_without_separator by assumption. reflexivity.
  - rewrite occurs_app, (blank_lacks "=" ws) by (reflexivity || assumption). reflexivity.
Qed.

(** ** The session extractor *)

Lemma bearerToken_header (tok : string) : bearerToken (Some ("Bearer " ++ tok)) = Some tok.
Proof.
  unfold bearerToken.
  assert (E : Js.orUndefined (Some ("Bearer " ++ tok)) = Some ("Bearer " ++ tok))
    by reflexivity.
  rewrite E, startsWith_app. reflexivity.
Qed.

(** No bearer token is found exactly when the header is missing or does not
    start with [Bearer ]. *)
Lemma bearerToken_absent (h : option string) :
  bearerToken h = None <->
  h = None \/ exists v, h = Some v /\ Js.startsWith "Bearer " v = false.
Proof.
  unfold bearerToken. destruct h as [v|]; [|simpl; tauto].
  destruct (Js.orUndefined (Some v)) as [v'|] eqn:E.
  - apply orUndefined_Some in E as [[= <-] _].
    destruct (Js.startsWith "Bearer " v) eqn:S; split; try discriminate; eauto.
    intros [|(v' & [= <-] & S')]; congruence.
  - apply orUndefined_None in E as [|[= ->]]; [discriminate |].
    split; [|reflexivity]. intros _. right. exists "". split; reflexivity.
Qed.

Lemma concat_not_empty (sep : ascii) (pieces : list string) (c : string) :
  pieces <> [] -> Forall (fun p => occurs sep p = false) pieces ->
  In c pieces -> c <> "" -> String.concat (String sep "") pieces <> "".
Proof.
  intros Hne Hall Hin Hc Hempty.
  pose proof (split_concat sep pieces Hne Hall) as Hsplit.
  rewrite Hempty in Hsplit. simpl in Hsplit. subst pieces.
  destruct Hin as [<-|[]]. contradiction.
Qed.

Lemma cookieToken_found (before after : list string) (ws tok : string) :
  Forall (fun c => occurs ";" c = false /\
                   Js.startsWith "auth-token=" (Js.trim c) = false) before ->
  blank ws = true -> occurs ";" tok = false -> occurs "=" tok = false ->
  Forall (fun c => occurs ";" c = false) after ->
  cookieToken (Some (String.concat ";" (before ++ (ws ++ "auth-token=" ++ tok) :: after)))
  = Some tok.
Proof.
  intros Hbefore Hws Hsemi Heq Hafter.
  set (found := ws ++ "auth-token=" ++ tok).
  assert (Hfound : occurs ";" found = false).
  { unfold found. rewrite !occurs_app, (blank_lacks ";" ws), Hsemi by (reflexivity || assumption).
    reflexivity. }
  assert (Hall : Forall (fun c => occurs ";" c = false) (before ++ found :: after)%list).
  { apply Forall_app. split; [|constructor; assumption].
    eapply Forall_impl; [exact Hbefore|]. intros c [Hc _]. exact Hc. }
  assert (Hne : (before ++ found :: after)%list <> []) by (destruct before; discriminate).
  assert (Hheader : String.concat ";" (before ++ found :: after)%list <> "").
  { apply (concat_not_empty ";" _ found Hne Hall).
    - apply in_or_app. right. left. reflexivity.
    - unfold found. destruct ws; discriminate. }
  unfold cookieToken.
  destruct (Js.orUndefined _) as [c|] eqn:E.
  - apply orUndefined_Some in E as [[= <-] _].
    unfold authCookie. rewrite (split_concat ";" _ Hne Hall).
    rewrite (find_first_match _ before after found).
    + apply authCookie_value; assumption.
    + eapply Forall_impl; [exact Hbefore|]. intros c [_ Hc]. exact Hc.
    + apply authCookie_recognised. assumption.
  - apply orUndefined_None in E as [|[= E]]; [discriminate | contradiction].
Qed.

Lemma extractToken_nothing (r : Request) :
  authorization r = None -> cookie r = None -> extractToken r = None.
Proof. intros Ha Hc. unfold extractToken. rewrite Ha, Hc. reflexivity. Qed.

Lemma TaskIdSchema_nonempty (id : string) : id <> "" -> Schemas.TaskIdSchema id = true.
Proof. intros Hid. destruct id; [contradiction | reflexivity]. Qed.

Section Unauthenticated.
Context `{Platform}.

Lemma getUserFromToken_no_token (w : World) (r : Request) :
  Js.orUndefined (extractToken r) = None -> getUserFromToken w r = None.
Proof. intros E. unfold getUserFromToken. rewrite E. reflexivity. Qed.

Lemma getUserFromToken_rejected (w : World) (r : Request) (token s : string) (e : Jwt.Error) :
  Js.orUndefined (extractToken r) = Some token -> secret w = Some s ->
  Jwt.verify token s (now w) = inl e -> getUserFromToken w r = None.
Proof. intros Et Es Ev. unfold getUserFromToken. rewrite Et, Es, Ev. reflexivity. Qed.

(** Every task endpoint answers a caller it cannot identify with the same
    401 and leaves the store alone. *)
Lemma task_endpoints_unauthenticated (w : World) (db : Db) (id : string) (r : Request) :
  getUserFromToken w r = None -> id <> "" ->
  TasksRoute.GET w db r = (unauthenticated, db)
  /\ TasksRoute.POST w db r = (unauthenticated, db)
  /\ TaskRoute.GET w db id r = (unauthenticated, db)
  /\ TaskRoute.PATCH w db id r = (unauthenticated, db)
  /\ TaskRoute.DELETE w db id r = (unauthenticated, db).
Proof.
  intros Hu Hid.
  unfold TasksRoute.GET, TasksRoute.POST, TaskRoute.GET, TaskRoute.PATCH, TaskRoute.DELETE.
  rewrite Hu, (TaskIdSchema_nonempty id Hid). simpl. repeat split; reflexivity.
Qed.

Lemma me_no_token (w : World) (db : Db) (r : Request) :
  Js.orUndefined (extractToken r) = None ->
  AuthRoute.me w db r = (failure 401 "No authentication token provided", db).
Proof. intros E. unfold AuthRoute.me. rewrite E. reflexivity. Qed.

Lemma me_rejected (w : World) (db : Db) (r : Request) (token s : string) (e : Jwt.Error) :
  Js.orUndefined (extractToken r) = Some token -> secret w = Some s ->
  Jwt.verify token s (now w) = inl e ->
  AuthRoute.me w db r = (failure 401 "Invalid authentication token", db).
Proof.
  intros Et Es Ev. unfold AuthRoute.me. rewrite Et, Es, Ev. simpl.
  destruct e; reflexivity.
Qed.

(** The branch of [GET /api/auth/me] that reports an expired token is
    never taken: no request is answered with its message. *)
Lemma me_never_reports_expiry (w : World) (db : Db) (r : Request) :
  error (json (AuthRoute.me w db r).1) <> Some "Authentication token expired".
Proof.
  unfold AuthRoute.me.
  destruct (Js.orUndefined (extractToken r)) as [token|]; [|intros E; discriminate E].
  destruct (secret w) as [s|]; [|intros E; discriminate E].
  destruct (Jwt.verify token s (now w)) as [e|decoded];
    [destruct e; intros E; discriminate E |].
  destruct (User.findById (payload_userId decoded) (users db)) as [[u|]|e];
    [| |destruct e as [[]| | | | | |]]; intros E; discriminate E.
Qed.

End Unauthenticated.

(** A cookie header none of whose cookies is named [auth-token] yields no
    token. *)
Lemma cookieToken_none (h : string) :
  Forall (fun c => Js.startsWith "auth-token=" (Js.trim c) = false) (Js.split ";" h) ->
  cookieToken (Some h) = None.
Proof.
  intros Hnone. unfold cookieToken. destruct (Js.orUndefined (Some h)) as [c|] eqn:E;
    [|reflexivity].
  apply orUndefined_Some in E as [[= <-] _]. unfold authCookie, Js.find.
  destruct (List.find _ (Js.split ";" h)) as [found|] eqn:Hfind; [|reflexivity].
  apply find_some in Hfind as [Hin Hstarts].
  apply Forall_forall with (x := found) in Hnone; [congruence |].
  apply list_elem_of_In. exact Hin.
Qed.

(** A request that is identified as a user is not answered 401 by the
    listing. *)
Lemma list_identified `{Platform} (w : World) (db : Db) (r : Request) (userId : string) :
  Js.orUndefined (getUserFromToken w r) = Some userId ->
  status (TasksRoute.GET w db r).1 <> 401.
Proof.
  intros Huser. unfold TasksRoute.GET, Task.find. rewrite Huser.
  destruct (Schemas.TaskQuerySchema _ _ _); [|cbn; discriminate].
  destruct (ObjectId_isValid userId); cbn; discriminate.
Qed.

(** The user a located token resolves to. *)
Lemma getUserFromToken_verified `{Platform} (w : World) (r : Request) (tok s : string)
    (decoded : JWTPayload) :
  extractToken r = Some tok -> tok <> "" -> secret w = Some s ->
  Jwt.verify tok s (now w) = inr decoded ->
  getUserFromToken w r = Some (payload_userId decoded).
Proof.
  intros Htok Hne Hsecret Hverify. unfold getUserFromToken.
  rewrite Htok, (proj2 (orUndefined_Some (Some tok) tok) (conj eq_refl Hne)), Hsecret, Hverify.
  reflexivity.
Qed.

(** C7.  The session extractor looks for the token in the [Authorization]
    header first: a header [Bearer <token>] yields its token whatever the
    cookies hold, and [getUserFromToken] returns the user that token
    verifies to.  Only when the header is missing or is not of that form is
    the cookie header read; the first cookie named [auth-token] yields its
    value, whatever follows it, and [getUserFromToken] returns the user
    that value verifies to.  In both cases the listing does not answer 401
    when the user id is not empty.  When the header is missing or of
    another form and no cookie is named [auth-token], the caller is
    unauthenticated: [getUserFromToken] returns nothing, every
    authenticated endpoint answers 401, none answers with an internal
    error, and the store is left as it was. *)
Theorem session_extractor_order `{Platform} :
  (forall w db r tok s decoded,
      authorization r = Some ("Bearer " ++ tok) ->
      tok <> "" ->
      secret w = Some s ->
      Jwt.verify tok s (now w) = inr decoded ->
      extractToken r = Some tok
      /\ getUserFromToken w r = Some (payload_userId decoded)
      /\ (payload_userId decoded <> "" -> status (TasksRoute.GET w db r).1 <> 401))
  /\ (forall w db r before ws tok after s decoded,
        (forall v, authorization r = Some v -> Js.startsWith "Bearer " v = false) ->
        cookie r
        = Some (String.concat ";" (before ++ (ws ++ "auth-token=" ++ tok) :: after)) ->
        Forall (fun c => occurs ";" c = false /\
                         Js.startsWith "auth-token=" (Js.trim c) = false) before ->
        blank ws = true -> occurs ";" tok = false -> occurs "=" tok = false ->
        Forall (fun c => occurs ";" c = false) after ->
        tok <> "" ->
        secret w = Some s ->
        Jwt.verify tok s (now w) = inr decoded ->
        extractToken r = Some tok
        /\ getUserFromToken w r = Some (payload_userId decoded)
        /\ (payload_userId decoded <> "" -> status (TasksRoute.GET w db r).1 <> 401))
  /\ (forall w db id r,
        (forall v, authorization r = Some v -> Js.startsWith "Bearer " v = false) ->
        (forall h, cookie r = Some h ->
                   Forall (fun c => Js.startsWith "auth-token=" (Js.trim c) = false)
                     (Js.split ";" h)) ->
        id <> "" ->
        extractToken r = None
        /\ getUserFromToken w r = None
        /\ AuthRoute.me w db r = (failure 401 "No authentication token provided", db)
        /\ TasksRoute.GET w db r = (unauthenticated, db)
        /\ TasksRoute.POST w db r = (unauthenticated, db)
        /\ TaskRoute.GET w db id r = (unauthenticated, db)
        /\ TaskRoute.PATCH w db id r = (unauthenticated, db)
        /\ TaskRoute.DELETE w db id r = (unauthenticated, db)).
Proof.
  assert (Hbearer : forall r,
             (forall v, authorization r = Some v -> Js.startsWith "Bearer " v = false) ->
             bearerToken (authorization r) = None).
  { intros r Hform. apply bearerToken_absent.
    destruct (authorization r) as [v|]; [right; exists v; auto | left; reflexivity]. }
  assert (Hlisting : forall w db r tok s decoded,
             extractToken r = Some tok -> tok <> "" -> secret w = Some s ->
             Jwt.verify tok s (now w) = inr decoded ->
             extractToken r = Some tok
             /\ getUserFromToken w r = Some (payload_userId decoded)
             /\ (payload_userId decoded <> "" -> status (TasksRoute.GET w db r).1 <> 401)).
  { intros w db r tok s decoded Htok Hne Hsecret Hverify.
    pose proof (getUserFromToken_verified w r tok s decoded Htok Hne Hsecret Hverify) as Huser.
    split; [exact Htok |]. split; [exact Huser |]. intros Hid.
    apply (list_identified w db r (payload_userId decoded)). rewrite Huser.
    apply orUndefined_Some. split; [reflexivity | exact Hid]. }
  split; [|split].
  - intros w db r tok s decoded Ha Hne Hsecret Hverify.
    apply (Hlisting w db r tok s decoded); try assumption.
    unfold extractToken. now rewrite Ha, bearerToken_header.
  - intros w db r before ws tok after s decoded Hform Hc Hbefore Hws Hsemi Heq Hafter
      Hne Hsecret Hverify.
    apply (Hlisting w db r tok s decoded); try assumption.
    unfold extractToken. rewrite (Hbearer r Hform), Hc. now apply cookieToken_found.
  - intros w db id r Hform Hcookies Hid.
    assert (Hnone : extractToken r = None).
    { unfold extractToken. rewrite (Hbearer r Hform).
      destruct (cookie r) as [h|]; [|reflexivity]. apply cookieToken_none, Hcookies.
      reflexivity. }
    assert (Hfalsy : Js.orUndefined (extractToken r) = None) by now rewrite Hnone.
    split; [exact Hnone |]. split; [now apply getUserFromToken_no_token |].
    split; [now apply me_no_token |].
    apply task_endpoints_unauthenticated; [now apply getUserFromToken_no_token | exact Hid].
Qed.

Lemma session_extractor_order_witness :
  getUserFromToken Sample.world
    (mkRequest (Some ("Bearer " ++ Sample.annToken))
       (Some ("auth-token=" ++ Sample.bobToken)) [] Sample.noBody)
  = Some Sample.annId
  /\ getUserFromToken Sample.world
       (mkRequest (Some "Basic abc")
          (Some ("theme=dark; auth-token=" ++ Sample.bobToken ++ ";auth-token="
                 ++ Sample.annToken))
          [] Sample.noBody)
     = Some Sample.bobId
  /\ AuthRoute.me Sample.world Sample.db
       (mkRequest (Some "Basic abc") (Some "theme=dark; lang=en") [] Sample.noBody)
     = (failure 401 "No authentication token provided", Sample.db)
  /\ TaskRoute.PATCH Sample.world Sample.db Sample.taskId
       (mkRequest (Some "Basic abc") (Some "theme=dark; lang=en") [] Sample.noBody)
     = (unauthenticated, Sample.db).
Proof.
  destruct (@session_extractor_order Sample.platform) as (Hheader & Hcookie & Hnone).
  split; [|split].
  - apply (Hheader Sample.world Sample.db _ Sample.annToken Sample.theSecret
             Sample.annPayload).
    + reflexivity.
    + vm_compute. intros E; discriminate E.
    + reflexivity.
    + vm_compute. reflexivity.
  - apply (Hcookie Sample.world Sample.db _ ["theme=dark"] " " Sample.bobToken
             ["auth-token=" ++ Sample.annToken] Sample.theSecret Sample.bobPayload);
      first [ reflexivity
            | vm_compute; reflexivity
            | intros v [= <-]; reflexivity
            | vm_compute; intros E; discriminate E
            | repeat constructor; vm_compute; reflexivity ].
  - destruct (Hnone Sample.world Sample.db Sample.taskId
                (mkRequest (Some "Basic abc") (Some "theme=dark; lang=en") []
                   Sample.noBody))
      as (_ & _ & Hme & _ & _ & _ & Hpatch & _).
    + intros v [= <-]. reflexivity.
    + intros h [= <-]. vm_compute. repeat constructor.
    + intros E; discriminate E.
    + split; assumption.
Defined.

(** C3.  A request whose bearer token fails verification, whether the token
    is malformed, its signature invalid or its lifetime over, is answered
    401 by every authenticated endpoint, with a body that does not depend on
    the cause. *)
Theorem verification_failure_is_unauthenticated `{Platform}
    (cause : FailureCause) (w : World) (db : Db) (id : string) (r : Request)
    (token s : string) :
  Js.orUndefined (extractToken r) = Some token ->
  secret w = Some s ->
  failsWith cause token s (now w) ->
  id <> "" ->
  AuthRoute.me w db r = (failure 401 "Invalid authentication token", db)
  /\ TasksRoute.GET w db r = (unauthenticated, db)
  /\ TasksRoute.POST w db r = (unauthenticated, db)
  /\ TaskRoute.GET w db id r = (unauthenticated, db)
  /\ TaskRoute.PATCH w db id r = (unauthenticated, db)
  /\ TaskRoute.DELETE w db id r = (unauthenticated, db).
Proof.
  intros Htoken Hsecret Hfails Hid.
  assert (exists e, Jwt.verify token s (now w) = inl e) as [e He].
  { destruct cause; simpl in Hfails; [eauto | eauto | destruct Hfails; eauto]. }
  split.
  - eapply me_rejected; eassumption.
  - apply task_endpoints_unauthenticated; [|exact Hid].
    eapply getUserFromToken_rejected; eassumption.
Qed.

Lemma verification_failure_is_unauthenticated_witness :
  failsWith Expired Sample.annToken Sample.theSecret Sample.eightDaysLater
  /\ AuthRoute.me (mkWorld (mkEnv (Some Sample.theSecret)) Sample.eightDaysLater "" "")
       Sample.db (Sample.withBearer Sample.annToken Sample.noBody)
     = (failure 401 "Invalid authentication token", Sample.db).
Proof.
  assert (Hexpired : failsWith Expired Sample.annToken Sample.theSecret Sample.eightDaysLater).
  { eexists. vm_compute. reflexivity. }
  split; [exact Hexpired |].
  apply (verification_failure_is_unauthenticated Expired
           (mkWorld (mkEnv (Some Sample.theSecret)) Sample.eightDaysLater "" "")
           Sample.db Sample.taskId (Sample.withBearer Sample.annToken Sample.noBody)
           Sample.annToken Sample.theSecret);
    [reflexivity | reflexivity | exact Hexpired | discriminate].
Defined.

(** ** Tokens *)

Lemma clockTimestamp_after (now later : Z) (n : Z) :
  (now + n * 1000 <= later)%Z ->
  (Jwt.clockTimestamp now + n <= Jwt.clockTimestamp later)%Z.
Proof.
  intros Hle. unfold Jwt.clockTimestamp.
  rewrite <- (Z.div_add now n 1000) by lia. apply Z.div_le_mono; lia.
Qed.

Section VerifySigned.
Context `{Platform}.
Variables (userId email s : string) (issuedAt : Z).

Let j : Jws := Jwt.signed userId email s Jwt.sevenDays issuedAt.

Hypothesis decodes : jws_decode (jws_encode j) = Some j.
Hypothesis is_signed : Js.trim (signature j) <> "".

(** The checks that precede the expiry check pass on a token the service
    signed, at any time. *)
Lemma verify_signed (at_ : Z) :
  Jwt.verify (Jwt.sign userId email s Jwt.sevenDays issuedAt) s at_
  = if Z.leb (Jwt.clockTimestamp issuedAt + Jwt.sevenDays) (Jwt.clockTimestamp at_)
    then inl (Jwt.TokenExpiredError "jwt expired"
                ((Jwt.clockTimestamp issuedAt + Jwt.sevenDays) * 1000)%Z)
    else inr (payload j).
Proof.
  unfold Jwt.verify, Jwt.sign. fold j. rewrite decodes.
  destruct (String.eqb_spec (Js.trim (signature j)) ""); [contradiction |].
  subst j. unfold Jwt.signed. cbn [alg signature payload exp].
  rewrite String.eqb_refl. reflexivity.
Qed.

End VerifySigned.


(** ** Login *)

Lemma login_reaches_lookup `{Platform} (w : World) (db : Db) (r : Request)
    (email password : string) :
  loginRequest r email password ->
  AuthRoute.login w db r
  = tryCatch db (fun _ => failure 500 "Login failed. Please try again.")
      match User.findOne (Js.toLowerCase email) (users db) with
      | None => Return (AuthRoute.invalidCredentials, db)
      | Some user =>
          if negb (bcrypt_compare password (User.password user))
          then Return (AuthRoute.invalidCredentials, db)
          else
            match secret w with
            | None => Throw (PlainError "NEXTAUTH_SECRET is not configured")
            | Some s =>
                let token :=
                  Jwt.sign (User._id user) (User.email user) s Jwt.sevenDays (now w) in
                Return
                  (mkResponse 200
                     (mkApiResponse true (Some (LoginData (userResponse user) token))
                        (Some "Login successful") None None None)
                     [AuthRoute.authCookieOptions token],
                   db)
            end
      end.
Proof.
  intros (o & Hbody & Hemail & Hpassword & He & Hp).
  unfold AuthRoute.login, AuthRoute.credentials. rewrite Hbody. cbn [mbind Try_bind].
  rewrite Hemail, Hpassword. cbn [json_truthy].
  rewrite (truthy_true email He), (truthy_true password Hp). reflexivity.
Qed.

(** C8.  The token a login issues for a user [U] carries [U]'s id and
    e-mail address: a login with an address that lowers to [U]'s and with
    [U]'s password is answered 200 with [U]'s data and a token, set as
    the session cookie too, and that token, verified with the server's
    secret at the instant of the login, resolves to exactly [U]'s id and
    address; verified once the seven days are over, it fails with an expiry
    error. *)
Theorem token_round_trip `{Platform}
    (w : World) (db : Db) (r : Request) (email password : string) (u : User.IUser)
    (s : string) :
  let issued := Jwt.signed (User._id u) (User.email u) s Jwt.sevenDays (now w) in
  loginRequest r email password ->
  User.findOne (Js.toLowerCase email) (users db) = Some u ->
  bcrypt_compare password (User.password u) = true ->
  secret w = Some s ->
  jws_decode (jws_encode issued) = Some issued ->
  Js.trim (signature issued) <> "" ->
  exists token,
    AuthRoute.login w db r
    = (mkResponse 200
         (mkApiResponse true (Some (LoginData (userResponse u) token))
            (Some "Login successful") None None None)
         [AuthRoute.authCookieOptions token],
       db)
    /\ (exists decoded,
          Jwt.verify token s (now w) = inr decoded
          /\ payload_userId decoded = User._id u /\ payload_email decoded = User.email u)
    /\ (forall later, (now w + 7 * 24 * 60 * 60 * 1000 <= later)%Z ->
          exists expiredAt,
            Jwt.verify token s later = inl (Jwt.TokenExpiredError "jwt expired" expiredAt)).
Proof.
  intros issued Hrequest Hfound Hpassword Hsecret Hdecodes Hsigned.
  exists (Jwt.sign (User._id u) (User.email u) s Jwt.sevenDays (now w)). split; [|split].
  - rewrite (login_reaches_lookup w db r email password Hrequest), Hfound, Hpassword, Hsecret.
    reflexivity.
  - exists (payload issued). rewrite verify_signed by assumption.
    destruct (Z.leb_spec (Jwt.clockTimestamp (now w) + Jwt.sevenDays)
                (Jwt.clockTimestamp (now w))) as [Hle|_].
    + unfold Jwt.sevenDays in Hle. lia.
    + repeat split; reflexivity.
  - intros later Hlater. eexists. rewrite verify_signed by assumption.
    destruct (Z.leb_spec (Jwt.clockTimestamp (now w) + Jwt.sevenDays)
                (Jwt.clockTimestamp later)) as [_|Hlt]; [reflexivity |].
    pose proof (clockTimestamp_after (now w) later Jwt.sevenDays) as Hafter.
    unfold Jwt.sevenDays in *. lia.
Qed.

Lemma token_round_trip_witness :
  exists token,
    AuthRoute.login Sample.world Sample.db (Sample.loginAs "Ann@Example.com" "hunter22")
    = (mkResponse 200
         (mkApiResponse true (Some (LoginData (userResponse Sample.ann) token))
            (Some "Login successful") None None None)
         [AuthRoute.authCookieOptions token],
       Sample.db)
    /\ (exists decoded,
          Jwt.verify token Sample.theSecret Sample.noon = inr decoded
          /\ payload_userId decoded = Sample.annId
          /\ payload_email decoded = "ann@example.com")
    /\ exists expiredAt,
         Jwt.verify token Sample.theSecret Sample.eightDaysLater
         = inl (Jwt.TokenExpiredError "jwt expired" expiredAt).
Proof.
  destruct (@token_round_trip Sample.platform Sample.world Sample.db
              (Sample.loginAs "Ann@Example.com" "hunter22") "Ann@Example.com" "hunter22"
              Sample.ann Sample.theSecret)
    as (token & Hlogin & Hnow & Hlater).
  - eexists. repeat split; try reflexivity; discriminate.
  - vm_compute. reflexivity.
  - vm_compute. reflexivity.
  - reflexivity.
  - vm_compute. reflexivity.
  - vm_compute. intros E; discriminate E.
  - exists token. split; [exact Hlogin |]. split; [exact Hnow |].
    apply Hlater. vm_compute. discriminate.
Defined.

(** C4.  A login with an unknown e-mail address and a login with a known
    address and a wrong password receive the same response: status 401 with
    the body [{ success: false, error: 'Invalid email or password' }]. *)
Theorem login_failures_indistinguishable `{Platform}
    (w1 w2 : World) (db1 db2 : Db) (r1 r2 : Request)
    (email1 password1 email2 password2 : string) (user : User.IUser) :
  loginRequest r1 email1 password1 ->
  loginRequest r2 email2 password2 ->
  User.findOne (Js.toLowerCase email1) (users db1) = None ->
  User.findOne (Js.toLowerCase email2) (users db2) = Some user ->
  bcrypt_compare password2 (User.password user) = false ->
  (AuthRoute.login w1 db1 r1).1 = (AuthRoute.login w2 db2 r2).1
  /\ (AuthRoute.login w1 db1 r1).1 = failure 401 "Invalid email or password".
Proof.
  intros Hr1 Hr2 Hunknown Hknown Hwrong.
  rewrite (login_reaches_lookup w1 db1 r1 email1 password1 Hr1).
  rewrite (login_reaches_lookup w2 db2 r2 email2 password2 Hr2).
  rewrite Hunknown, Hknown, Hwrong. split; reflexivity.
Qed.

Lemma login_failures_indistinguishable_witness :
  (AuthRoute.login Sample.world Sample.db
     (Sample.loginAs "nobody@example.com" "hunter22")).1
  = (AuthRoute.login Sample.world Sample.db (Sample.loginAs "ann@example.com" "letmein")).1
  /\ (AuthRoute.login Sample.world Sample.db
        (Sample.loginAs "nobody@example.com" "hunter22")).1
     = failure 401 "Invalid email or password".
Proof.
  apply (login_failures_indistinguishable Sample.world Sample.world Sample.db Sample.db
           (Sample.loginAs "nobody@example.com" "hunter22")
           (Sample.loginAs "ann@example.com" "letmein")
           "nobody@example.com" "hunter22" "ann@example.com" "letmein" Sample.ann).
  - eexists. repeat split; try reflexivity; discriminate.
  - eexists. repeat split; try reflexivity; discriminate.
  - reflexivity.
  - reflexivity.
  - reflexivity.
Defined.

(** ** Creating and updating tasks *)

Lemma readBody_Return (b b' : RequestBody) : readBody b = Return b' -> b' = b.
Proof. destruct b as [|o|[]]; simpl; congruence. Qed.

(** What a [POST /api/tasks] answered with 200 has done. *)
Lemma POST_created `{Platform} (w : World) (db db' : Db) (r : Request) (resp : Response) :
  TasksRoute.POST w db r = (resp, db') -> status resp = 200 ->
  exists userId d dueDate,
    let t := Task.new (now w) (newObjectId w) (new_title d)
               (Js.orUndefined (new_description d)) (new_priority d) (new_category d)
               dueDate userId in
    Js.orUndefined (getUserFromToken w r) = Some userId
    /\ Schemas.CreateTaskSchema (now w) (body r) = Zod.Success d
    /\ Task.validate (now w) t = []
    /\ tasks db !! newObjectId w = None
    /\ resp = ok (TaskData t) "Task created successfully"
    /\ db' = mkDb (users db) (<[ newObjectId w := t ]> (tasks db)).
Proof.
  unfold TasksRoute.POST, tryCatch. intros Hpost Hstatus.
  destruct (Js.orUndefined (getUserFromToken w r)) as [userId|] eqn:Huser;
    [|injection Hpost as <- <-; discriminate Hstatus].
  destruct (readBody (body r)) as [b|e] eqn:Hbody; cbn [mbind Try_bind] in Hpost;
    [|destruct e; injection Hpost as <- <-; discriminate Hstatus].
  apply readBody_Return in Hbody as ->.
  destruct (Schemas.CreateTaskSchema (now w) (body r)) as [d|issues] eqn:Hschema;
    [|injection Hpost as <- <-; discriminate Hstatus].
  destruct (TasksRoute.newDate (new_dueDate d)) as [dueDate|e] eqn:Hdue;
    cbn [mbind Try_bind] in Hpost;
    [|destruct e; injection Hpost as <- <-; discriminate Hstatus].
  unfold Task.save in Hpost.
  destruct (Task.validate (now w) _) as [|err errs] eqn:Hvalid;
    [|injection Hpost as <- <-; discriminate Hstatus].
  cbn [Task.preSave Task.new Task._id] in Hpost.
  destruct (tasks db !! newObjectId w) as [old|] eqn:Hfresh;
    cbn [mbind Try_bind fst snd] in Hpost;
    [injection Hpost as <- <-; discriminate Hstatus|].
  injection Hpost as <- <-.
  exists userId, d, dueDate. cbn zeta. repeat split; try assumption; reflexivity.
Qed.

(** C5.  A task created by [POST /api/tasks] from a body that specifies no
    status has the default status [pending]. *)
Theorem created_task_defaults_to_pending `{Platform}
    (w : World) (db db' : Db) (r : Request) (resp : Response)
    (o : gmap string JsonValue) :
  TasksRoute.POST w db r = (resp, db') ->
  status resp = 200 ->
  body r = BodyObject o ->
  o !! "status" = None ->
  exists t,
    data (json resp) = Some (TaskData t)
    /\ tasks db' !! Task._id t = Some t
    /\ tasks db !! Task._id t = None
    /\ Task.status t = PENDING.
Proof.
  intros Hpost Hstatus _ _.
  destruct (POST_created w db db' r resp Hpost Hstatus)
    as (userId & d & dueDate & _ & _ & _ & Hfresh & -> & ->).
  eexists. split; [reflexivity |]. cbn [tasks Task._id Task.new Task.status].
  split; [apply lookup_insert_eq | split; [exact Hfresh | reflexivity]].
Qed.

(** The status of a created task is [pending] whatever the body holds: the
    handler passes no status to the model. *)
Lemma created_task_is_pending `{Platform}
    (w : World) (db db' : Db) (r : Request) (resp : Response) (t : Task.ITaskDocument) :
  TasksRoute.POST w db r = (resp, db') ->
  data (json resp) = Some (TaskData t) ->
  Task.status t = PENDING /\ Task.completedAt t = None.
Proof.
  intros Hpost Hdata.
  assert (Hstatus : status resp = 200).
  { revert Hpost Hdata. unfold TasksRoute.POST, tryCatch.
    destruct (Js.orUndefined (getUserFromToken w r)); [|intros [= <- <-]; discriminate].
    destruct (readBody (body r)) as [b|[]]; cbn [mbind Try_bind];
      try (intros [= <- <-]; discriminate).
    destruct (Schemas.CreateTaskSchema (now w) b); [|intros [= <- <-]; discriminate].
    destruct (TasksRoute.newDate _) as [?|[]]; cbn [mbind Try_bind];
      try (intros [= <- <-]; discriminate).
    destruct (Task.save _ _ _) as [?|[]]; cbn [mbind Try_bind];
      intros [= <- <-]; (reflexivity || discriminate). }
  destruct (POST_created w db db' r resp Hpost Hstatus)
    as (userId & d & dueDate & _ & _ & _ & _ & -> & _).
  injection Hdata as <-. split; reflexivity.
Qed.

Lemma created_task_defaults_to_pending_witness :
  exists t,
    data (json (TasksRoute.POST Sample.world Sample.dbWithoutTasks
                  (Sample.withBearer Sample.annToken (BodyObject Sample.buyMilk))).1)
    = Some (TaskData t)
    /\ Task.title t = "Buy milk"
    /\ Task.status t = PENDING.
Proof.
  destruct (created_task_defaults_to_pending Sample.world Sample.dbWithoutTasks
              (TasksRoute.POST Sample.world Sample.dbWithoutTasks
                 (Sample.withBearer Sample.annToken (BodyObject Sample.buyMilk))).2
              (Sample.withBearer Sample.annToken (BodyObject Sample.buyMilk))
              (TasksRoute.POST Sample.world Sample.dbWithoutTasks
                 (Sample.withBearer Sample.annToken (BodyObject Sample.buyMilk))).1
              Sample.buyMilk)
    as (t & Hdata & _ & _ & Hpending).
  - vm_compute. reflexivity.
  - vm_compute. reflexivity.
  - reflexivity.
  - vm_compute. reflexivity.
  - exists t. split; [exact Hdata |]. split; [|exact Hpending].
    vm_compute in Hdata. injection Hdata as <-. reflexivity.
Defined.

(** The [pre('save')] hook couples [completedAt] to the status whenever the
    status was modified. *)
Lemma preSave_couples (now : Z) (t : Task.ITaskDocument) :
  completedAt_coupled (Task.preSave true now t).
Proof.
  unfold completedAt_coupled, Task.preSave.
  destruct t as [id title desc st prio cat due [c|] uid created updated];
    destruct st; cbn; split; intros Hx; try discriminate Hx; try (destruct Hx; discriminate);
    eauto.
Qed.

(** The hook leaves the date of a task that was already completed. *)
Lemma preSave_recompleting (now c : Z) (t : Task.ITaskDocument) :
  Task.status t = COMPLETED -> Task.completedAt t = Some c ->
  Task.preSave true now t = t.
Proof.
  intros Hs Hc. unfold Task.preSave. rewrite Hs, Hc. cbn.
  rewrite bool_decide_eq_true_2 by eauto. reflexivity.
Qed.

(** A task as [POST /api/tasks] creates it satisfies the invariant. *)
Lemma created_task_coupled `{Platform}
    (w : World) (db db' : Db) (r : Request) (resp : Response) (t : Task.ITaskDocument) :
  TasksRoute.POST w db r = (resp, db') ->
  data (json resp) = Some (TaskData t) ->
  completedAt_coupled t.
Proof.
  intros Hpost Hdata.
  destruct (created_task_is_pending w db db' r resp t Hpost Hdata) as [Hs Hc].
  unfold completedAt_coupled. rewrite Hs, Hc. split; [discriminate | intros []; discriminate].
Qed.

(** What a [PATCH /api/tasks/:id] answered with 200 has done: the stored
    task is the old one with the fields of the update, and the old
    [completedAt]. *)
Lemma PATCH_updated `{Platform} (w : World) (db db' : Db) (id : string) (r : Request)
    (resp : Response) :
  TaskRoute.PATCH w db id r = (resp, db') -> status resp = 200 ->
  exists userId input u old,
    Js.orUndefined (getUserFromToken w r) = Some userId
    /\ Schemas.UpdateTaskSchema (now w) (body r) = Zod.Success input
    /\ Task.castUpdate input = Return u
    /\ Task.lookup id userId (tasks db) = Some old
    /\ resp = ok (TaskData (Task.applyUpdate (now w) u old)) "Task updated successfully"
    /\ db' = mkDb (users db) (<[ id := Task.applyUpdate (now w) u old ]> (tasks db)).
Proof.
  unfold TaskRoute.PATCH, tryCatch. intros Hpatch Hstatus.
  destruct (Schemas.TaskIdSchema id); cbn [negb] in Hpatch;
    [|injection Hpatch as <- <-; discriminate Hstatus].
  destruct (Js.orUndefined (getUserFromToken w r)) as [userId|] eqn:Huser;
    [|injection Hpatch as <- <-; discriminate Hstatus].
  destruct (body r) as [|o|v] eqn:Hbody; cbn [mbind Try_bind] in Hpatch;
    [injection Hpatch as <- <-; discriminate Hstatus| |].
  all: match type of Hpatch with
       | context [Schemas.UpdateTaskSchema ?n ?b] =>
           destruct (Schemas.UpdateTaskSchema n b) as [input|issues] eqn:Hschema
       end;
    [|injection Hpatch as <- <-; discriminate Hstatus].
  all: unfold Task.findOneAndUpdate in Hpatch;
    destruct (Task.castFilter id userId) as [[]|e]; cbn [mbind Try_bind] in Hpatch;
    [|destruct e; injection Hpatch as <- <-; discriminate Hstatus];
    destruct (Task.castUpdate input) as [u|e] eqn:Hcast; cbn [mbind Try_bind] in Hpatch;
    [|destruct e; injection Hpatch as <- <-; discriminate Hstatus];
    destruct (Task.validateUpdate (now w) u) as [|err errs];
    [|injection Hpatch as <- <-; discriminate Hstatus];
    destruct (Task.lookup id userId (tasks db)) as [old|] eqn:Hlookup;
    cbn [mbind Try_bind fst snd] in Hpatch;
    [|injection Hpatch as <- <-; discriminate Hstatus];
    injection Hpatch as <- <-;
    exists userId, input, u, old; repeat split; assumption || reflexivity.
Qed.

(** No [PATCH] changes [completedAt], whatever it does to the status. *)
Lemma PATCH_keeps_completedAt `{Platform} (w : World) (db db' : Db) (id : string)
    (r : Request) (resp : Response) :
  TaskRoute.PATCH w db id r = (resp, db') -> status resp = 200 ->
  exists old t,
    tasks db !! id = Some old /\ tasks db' !! id = Some t
    /\ data (json resp) = Some (TaskData t)
    /\ Task.completedAt t = Task.completedAt old.
Proof.
  intros Hpatch Hstatus.
  destruct (PATCH_updated w db db' id r resp Hpatch Hstatus)
    as (userId & input & u & old & _ & _ & _ & Hlookup & -> & ->).
  exists old, (Task.applyUpdate (now w) u old).
  unfold Task.lookup in Hlookup. destruct (tasks db !! id) as [t0|] eqn:Hid; [|discriminate].
  destruct (String.eqb (Task.userId t0) userId); [|discriminate].
  injection Hlookup as ->. cbn [tasks]. rewrite lookup_insert_eq. repeat split; reflexivity.
Qed.

(** C1, on the code.  Completing a pending task through
    [PATCH /api/tasks/:id] stores status [completed] with [completedAt]
    unset: [findOneAndUpdate] does not run the [pre('save')] hook, so the
    invariant the hook enforces on [save] does not hold after this write. *)
Theorem PATCH_completed_leaves_completedAt_unset :
  let result :=
    TaskRoute.PATCH Sample.world Sample.db Sample.taskId
      (Sample.withBearer Sample.annToken Sample.complete) in
  status result.1 = 200
  /\ exists t,
       tasks result.2 !! Sample.taskId = Some t
       /\ Task.status t = COMPLETED
       /\ Task.completedAt t = None
       /\ ~ completedAt_coupled t.
Proof.
  cbv zeta. split; [vm_compute; reflexivity |].
  eexists. split; [vm_compute; reflexivity |]. cbn.
  split; [reflexivity | split; [reflexivity |]].
  unfold completedAt_coupled. cbn. intros [Hset _].
  destruct (Hset eq_refl) as [c Hc]. discriminate Hc.
Qed.

(** ** Ownership *)

Section Ownership.
Context `{Platform}.
Variables (w : World) (id : string) (r : Request) (caller : string).
Hypothesis authenticated : authenticatedAs w r caller.
Hypothesis well_formed : wellFormedId id.

Lemma castFilter_ok : Task.castFilter id caller = Return tt.
Proof.
  destruct authenticated as [_ Hcaller]. destruct well_formed as [_ Hid].
  unfold Task.castFilter. rewrite Hid, Hcaller. reflexivity.
Qed.

(** A task that is absent and a task of another owner are the same to the
    filter [{ _id: id, userId }]. *)
Lemma lookup_absent (db : Db) : tasks db !! id = None -> Task.lookup id caller (tasks db) = None.
Proof. intros Hnone. unfold Task.lookup. now rewrite Hnone. Qed.

Lemma lookup_foreign (db : Db) (t : Task.ITaskDocument) :
  tasks db !! id = Some t -> Task.userId t <> caller ->
  Task.lookup id caller (tasks db) = None.
Proof.
  intros Hsome Hother. unfold Task.lookup. rewrite Hsome.
  destruct (String.eqb_spec (Task.userId t) caller); [contradiction | reflexivity].
Qed.

Lemma GET_not_selected (db : Db) :
  Task.lookup id caller (tasks db) = None -> TaskRoute.GET w db id r = (taskNotFound, db).
Proof.
  intros Hnone. destruct authenticated as [Huser _].
  unfold TaskRoute.GET, Task.findOne. rewrite Huser, castFilter_ok. cbn [mbind Try_bind].
  rewrite Hnone. reflexivity.
Qed.

Lemma DELETE_not_selected (db : Db) :
  Task.lookup id caller (tasks db) = None -> TaskRoute.DELETE w db id r = (taskNotFound, db).
Proof.
  intros Hnone. destruct authenticated as [Huser _]. destruct well_formed as [Hid _].
  unfold TaskRoute.DELETE, Task.findOneAndDelete.
  rewrite (TaskIdSchema_nonempty id Hid), Huser, castFilter_ok. cbn [mbind Try_bind negb].
  rewrite Hnone. reflexivity.
Qed.

(** The answer to a [PATCH] that selects no task does not depend on the
    store: it is decided by the validation of the body, and the store is
    left as it was. *)
Lemma PATCH_not_selected (db1 db2 : Db) :
  Task.lookup id caller (tasks db1) = None -> Task.lookup id caller (tasks db2) = None ->
  (TaskRoute.PATCH w db1 id r).1 = (TaskRoute.PATCH w db2 id r).1
  /\ (TaskRoute.PATCH w db1 id r).2 = db1.
Proof.
  intros Hnone1 Hnone2. destruct authenticated as [Huser _]. destruct well_formed as [Hid _].
  unfold TaskRoute.PATCH, Task.findOneAndUpdate.
  rewrite (TaskIdSchema_nonempty id Hid), Huser, castFilter_ok. cbn [mbind Try_bind negb].
  destruct (body r) as [|o|v]; cbn [mbind Try_bind]; [split; reflexivity | |].
  all: match goal with
       | |- context [Schemas.UpdateTaskSchema ?n ?b] =>
           destruct (Schemas.UpdateTaskSchema n b) as [input|issues]
       end; [|split; reflexivity].
  all: destruct (Task.castUpdate input) as [u|e]; cbn [mbind Try_bind];
    [|split; reflexivity];
    destruct (Task.validateUpdate (now w) u); [|split; reflexivity];
    rewrite Hnone1, Hnone2; split; reflexivity.
Qed.

Lemma PATCH_accepted_not_selected (db : Db) :
  acceptedUpdate (now w) (body r) ->
  Task.lookup id caller (tasks db) = None -> TaskRoute.PATCH w db id r = (taskNotFound, db).
Proof.
  intros (Hjson & input & u & Hschema & Hcast & Hvalid) Hnone.
  destruct authenticated as [Huser _]. destruct well_formed as [Hid _].
  unfold TaskRoute.PATCH, Task.findOneAndUpdate.
  rewrite (TaskIdSchema_nonempty id Hid), Huser, castFilter_ok. cbn [mbind Try_bind negb].
  destruct (body r) as [|o|v]; [contradiction | |]; cbn [mbind Try_bind];
    rewrite Hschema, Hcast; cbn [mbind Try_bind]; rewrite Hvalid, Hnone; reflexivity.
Qed.

End Ownership.

(** C2, as the code has it.  For a caller [A] and a well-formed task id, a
    task that does not exist and a task owned by another user are answered
    alike, and the store is not changed.  [GET] and [DELETE] answer 404
    [Task not found]; so does a [PATCH] whose body passes validation.  A
    [PATCH] is validated before the store is consulted, so whatever its body
    the two answers are equal. *)
Theorem foreign_task_is_not_found `{Platform}
    (w : World) (db1 db2 : Db) (id : string) (r : Request) (A : string)
    (t : Task.ITaskDocument) :
  authenticatedAs w r A ->
  wellFormedId id ->
  tasks db1 !! id = None ->
  tasks db2 !! id = Some t ->
  Task.userId t <> A ->
  (TaskRoute.GET w db1 id r = (taskNotFound, db1)
   /\ TaskRoute.GET w db2 id r = (taskNotFound, db2))
  /\ (TaskRoute.DELETE w db1 id r = (taskNotFound, db1)
      /\ TaskRoute.DELETE w db2 id r = (taskNotFound, db2))
  /\ ((TaskRoute.PATCH w db1 id r).1 = (TaskRoute.PATCH w db2 id r).1
      /\ (TaskRoute.PATCH w db1 id r).2 = db1
      /\ (TaskRoute.PATCH w db2 id r).2 = db2)
  /\ (acceptedUpdate (now w) (body r) ->
      TaskRoute.PATCH w db1 id r = (taskNotFound, db1)
      /\ TaskRoute.PATCH w db2 id r = (taskNotFound, db2)).
Proof.
  intros Hauth Hid Habsent Hstored Hother.
  pose proof (lookup_absent id A db1 Habsent) as Hnone1.
  pose proof (lookup_foreign id A db2 t Hstored Hother) as Hnone2.
  repeat split.
  - now apply (GET_not_selected w id r A).
  - now apply (GET_not_selected w id r A).
  - now apply (DELETE_not_selected w id r A).
  - now apply (DELETE_not_selected w id r A).
  - now apply (PATCH_not_selected w id r A Hauth Hid db1 db2).
  - now apply (PATCH_not_selected w id r A Hauth Hid db1 db2).
  - now apply (PATCH_not_selected w id r A Hauth Hid db2 db1).
  - now apply (PATCH_accepted_not_selected w id r A).
  - now apply (PATCH_accepted_not_selected w id r A).
Qed.

Lemma foreign_task_is_not_found_witness :
  (TaskRoute.GET Sample.world Sample.emptyDb Sample.taskId
     (Sample.withBearer Sample.bobToken Sample.complete) = (taskNotFound, Sample.emptyDb)
   /\ TaskRoute.GET Sample.world Sample.db Sample.taskId
        (Sample.withBearer Sample.bobToken Sample.complete) = (taskNotFound, Sample.db))
  /\ (TaskRoute.PATCH Sample.world Sample.emptyDb Sample.taskId
        (Sample.withBearer Sample.bobToken Sample.complete) = (taskNotFound, Sample.emptyDb)
      /\ TaskRoute.PATCH Sample.world Sample.db Sample.taskId
           (Sample.withBearer Sample.bobToken Sample.complete) = (taskNotFound, Sample.db)).
Proof.
  destruct (foreign_task_is_not_found Sample.world Sample.emptyDb Sample.db Sample.taskId
              (Sample.withBearer Sample.bobToken Sample.complete) Sample.bobId Sample.annTask)
    as (Hget & _ & _ & Hpatch).
  - split; reflexivity.
  - split; [discriminate | reflexivity].
  - reflexivity.
  - reflexivity.
  - discriminate.
  - split; [exact Hget |]. apply Hpatch. split; [discriminate |].
    eexists _, _. repeat split; vm_compute; reflexivity.
Defined.

(** C2 as stated fails where a guard precedes the query.  Bob's [PATCH] with
    an empty title is answered 400, both for a task that does not exist and
    for Ann's task; his [GET] for an id that is no [ObjectId] is answered
    500. *)
Lemma invalid_update_is_rejected_before_lookup :
  status (TaskRoute.PATCH Sample.world Sample.emptyDb Sample.taskId
            (Sample.withBearer Sample.bobToken Sample.emptyTitle)).1 = 400
  /\ status (TaskRoute.PATCH Sample.world Sample.db Sample.taskId
               (Sample.withBearer Sample.bobToken Sample.emptyTitle)).1 = 400
  /\ (TaskRoute.PATCH Sample.world Sample.db Sample.taskId
        (Sample.withBearer Sample.bobToken Sample.emptyTitle)).1 <> taskNotFound
  /\ status (TaskRoute.GET Sample.world Sample.db "abc"
               (Sample.withBearer Sample.bobToken Sample.noBody)).1 = 500.
Proof.
  split; [vm_compute; reflexivity |]. split; [vm_compute; reflexivity |].
  split; [|vm_compute; reflexivity].
  intros Heq. apply (f_equal status) in Heq. vm_compute in Heq. discriminate Heq.
Qed.

(** ** Listing tasks *)

Lemma newestFirst_total : Total Task.newestFirst.
Proof. intros a b. unfold Task.newestFirst. lia. Qed.

Lemma newestFirst_transitive : Transitive Task.newestFirst.
Proof. intros a b c. unfold Task.newestFirst. lia. Qed.

Lemma TaskStatus_value_inj (a b : TaskStatus) :
  TaskStatus_value a = TaskStatus_value b -> a = b.
Proof. destruct a, b; simpl; congruence. Qed.

Lemma TaskPriority_value_inj (a b : TaskPriority) :
  TaskPriority_value a = TaskPriority_value b -> a = b.
Proof. destruct a, b; simpl; congruence. Qed.

Lemma TaskCategory_value_inj (a b : TaskCategory) :
  TaskCategory_value a = TaskCategory_value b -> a = b.
Proof. destruct a, b; simpl; congruence. Qed.

(** An optional enum parameter parses to nothing when it is absent and to
    the member it names when it is supplied. *)
Lemma optional_nativeEnum {A} (value : A -> string) (values : list A) (path : string)
    (raw : option string) (x : option A) (issues : list Zod.Issue) :
  Zod.optional (Zod.nativeEnum value values None path) (JString <$> raw) = (Some x, issues) ->
  (raw = None /\ x = None) \/ (exists a, raw = Some (value a) /\ x = Some a).
Proof.
  destruct raw as [v|]; cbn [fmap option_fmap option_map Zod.optional].
  - unfold Zod.nativeEnum.
    destruct (List.find (fun a => String.eqb (value a) v) values) as [a|] eqn:Hfind;
      cbn; intros [= <- _].
    right. exists a. apply find_some in Hfind as [_ Heq].
    apply String.eqb_eq in Heq. now subst v.
  - intros [= <- _]. left. split; reflexivity.
Qed.

Lemma TaskQuerySchema_Success (s p c : option string) (q : TaskQueryInput) :
  Schemas.TaskQuerySchema s p c = Zod.Success q ->
  ((s = None /\ query_status q = None)
   \/ exists a, s = Some (TaskStatus_value a) /\ query_status q = Some a)
  /\ ((p = None /\ query_priority q = None)
      \/ exists a, p = Some (TaskPriority_value a) /\ query_priority q = Some a)
  /\ ((c = None /\ query_category q = None)
      \/ exists a, c = Some (TaskCategory_value a) /\ query_category q = Some a).
Proof.
  unfold Schemas.TaskQuerySchema.
  destruct (Zod.optional (Zod.nativeEnum TaskStatus_value _ _ _) _) as [[xs|] i1] eqn:Hs;
    [|discriminate].
  destruct (Zod.optional (Zod.nativeEnum TaskPriority_value _ _ _) _) as [[xp|] i2] eqn:Hp;
    [|discriminate].
  destruct (Zod.optional (Zod.nativeEnum TaskCategory_value _ _ _) _) as [[xc|] i3] eqn:Hc;
    [|discriminate].
  cbn [fst snd]. unfold Zod.finish. destruct (i1 ++ i2 ++ i3)%list; [|discriminate].
  intros [= <-]. cbn [query_status query_priority query_category].
  apply optional_nativeEnum in Hs, Hp, Hc. repeat split; assumption.
Qed.

(** One equality per supplied parameter, none for an absent one. *)
Lemma filter_reads_parameter {A} (value : A -> string) `{EqDecision A}
    (raw : option string) (x : option A) (actual : A) :
  (forall a b, value a = value b -> a = b) ->
  (raw = None /\ x = None) \/ (exists a, raw = Some (value a) /\ x = Some a) ->
  from_option (fun a => bool_decide (actual = a)) true x = true
  <-> (forall v, raw = Some v -> value actual = v).
Proof.
  intros Hinj [[-> ->]|(a & -> & ->)]; cbn.
  - split; [discriminate | reflexivity].
  - rewrite bool_decide_eq_true. split.
    + intros -> v [= <-]. reflexivity.
    + intros Hv. apply Hinj, Hv. reflexivity.
Qed.

Lemma documents_of_map (m : gmap string Task.ITaskDocument) (t : Task.ITaskDocument) :
  In t (map snd (map_to_list m)) <-> exists id, m !! id = Some t.
Proof.
  rewrite in_map_iff. split.
  - intros ([id t'] & <- & Hin). exists id.
    apply list_elem_of_In, elem_of_map_to_list in Hin. exact Hin.
  - intros (id & Hid). exists (id, t). split; [reflexivity |].
    apply list_elem_of_In, elem_of_map_to_list. exact Hid.
Qed.

(** C6.  An authenticated [GET /api/tasks] whose parameters pass the enum
    validation is answered 200 with the stored tasks that belong to the
    caller and agree with every supplied parameter, and with no others; an
    absent parameter constrains nothing; the list is ordered by creation
    time, newest first. *)
Theorem list_is_owned_filtered_newest_first `{Platform}
    (w : World) (db : Db) (r : Request) (caller : string) (q : TaskQueryInput) :
  authenticatedAs w r caller ->
  Schemas.TaskQuerySchema (supplied "status" r) (supplied "priority" r)
    (supplied "category" r) = Zod.Success q ->
  exists found,
    TasksRoute.GET w db r = (ok (TaskList found) "Tasks fetched successfully", db)
    /\ (forall t,
          In t found <->
          (exists id, tasks db !! id = Some t)
          /\ Task.userId t = caller
          /\ (forall v, supplied "status" r = Some v -> TaskStatus_value (Task.status t) = v)
          /\ (forall v, supplied "priority" r = Some v ->
                        TaskPriority_value (Task.priority t) = v)
          /\ (forall v, supplied "category" r = Some v ->
                        TaskCategory_value (Task.category t) = v))
    /\ StronglySorted Task.newestFirst found.
Proof.
  intros [Huser Hvalid] Hquery.
  set (found := merge_sort Task.newestFirst
                  (List.filter (Task.matches caller q) (map snd (map_to_list (tasks db))))).
  exists found. split; [|split].
  - unfold TasksRoute.GET, Task.find. rewrite Huser. fold (supplied "status" r).
    fold (supplied "priority" r). fold (supplied "category" r).
    rewrite Hquery, Hvalid. reflexivity.
  - intros t. destruct (TaskQuerySchema_Success _ _ _ q Hquery) as (Hs & Hp & Hc).
    rewrite <- (filter_reads_parameter TaskStatus_value _ _ (Task.status t)
                  TaskStatus_value_inj Hs).
    rewrite <- (filter_reads_parameter TaskPriority_value _ _ (Task.priority t)
                  TaskPriority_value_inj Hp).
    rewrite <- (filter_reads_parameter TaskCategory_value _ _ (Task.category t)
                  TaskCategory_value_inj Hc).
    rewrite <- documents_of_map. unfold found.
    assert (Hperm : In t (merge_sort Task.newestFirst
                            (List.filter (Task.matches caller q)
                               (map snd (map_to_list (tasks db)))))
                    <-> In t (List.filter (Task.matches caller q)
                                (map snd (map_to_list (tasks db))))).
    { split; apply Permutation_in;
        [|symmetry]; apply merge_sort_Permutation. }
    rewrite Hperm, filter_In. unfold Task.matches.
    rewrite !andb_true_iff, String.eqb_eq. tauto.
  - apply Sorted_StronglySorted; [apply newestFirst_transitive |].
    apply (Sorted_merge_sort Task.newestFirst (Total0 := newestFirst_total)).
Qed.

Lemma list_is_owned_filtered_newest_first_witness :
  exists found,
    TasksRoute.GET Sample.world Sample.threeTasks (Sample.listWith [("status", "pending")])
    = (ok (TaskList found) "Tasks fetched successfully", Sample.threeTasks)
    /\ In Sample.annTask found
    /\ ~ In Sample.annDone found
    /\ ~ In Sample.bobTask found.
Proof.
  destruct (list_is_owned_filtered_newest_first Sample.world Sample.threeTasks
              (Sample.listWith [("status", "pending")]) Sample.annId
              (mkTaskQueryInput (Some PENDING) None None))
    as (found & Hget & Hiff & _).
  - split; reflexivity.
  - reflexivity.
  - exists found. split; [exact Hget |]. split; [|split].
    + apply Hiff. split; [exists Sample.taskId; reflexivity |].
      split; [reflexivity |].
      split; [intros v [= <-]; reflexivity |]. split; intros v [=].
    + intros Hin. apply Hiff in Hin as (_ & _ & Hstatus & _).
      specialize (Hstatus "pending" eq_refl). discriminate Hstatus.
    + intros Hin. apply Hiff in Hin as (_ & Howner & _). discriminate Howner.
Defined.

Example list_without_filter :
  (TasksRoute.GET Sample.world Sample.threeTasks (Sample.listWith [])).1
  = ok (TaskList [Sample.annTask; Sample.annDone]) "Tasks fetched successfully".
Proof. vm_compute. reflexivity. Qed.

Example list_rejects_unknown_status :
  status (TasksRoute.GET Sample.world Sample.threeTasks
            (Sample.listWith [("status", "done")])).1 = 400.
Proof. vm_compute. reflexivity. Qed.

(** ** The signing secret *)

Lemma serve_answers_every_call `{Platform} (db : Db) (calls : list (World * Call)) :
  length (serve db calls) = length calls.
Proof.
  revert db. induction calls as [|[w c] calls IH]; intros db; [reflexivity |].
  cbn [serve length]. now rewrite IH.
Qed.

(** C9, as the code has it.  Without a signing secret nothing aborts: the
    secret is looked up inside the handlers, and the failure is that of one
    request.  A login whose credentials are accepted, and a request to
    [GET /api/auth/me] that carries a token, are answered 500 with a generic
    message and leave the store as it was; every call is still answered. *)
Theorem missing_secret_fails_per_request `{Platform} (w : World) (db : Db) :
  secret w = None ->
  (forall r email password user,
      loginRequest r email password ->
      User.findOne (Js.toLowerCase email) (users db) = Some user ->
      bcrypt_compare password (User.password user) = true ->
      AuthRoute.login w db r = (failure 500 "Login failed. Please try again.", db))
  /\ (forall r token,
        Js.orUndefined (extractToken r) = Some token ->
        AuthRoute.me w db r = (failure 500 "Failed to get current user", db))
  /\ (forall calls, length (serve db calls) = length calls).
Proof.
  intros Hsecret. split; [|split].
  - intros r email password user Hrequest Hfound Hpassword.
    rewrite (login_reaches_lookup w db r email password Hrequest).
    rewrite Hfound, Hpassword, Hsecret. reflexivity.
  - intros r token Htoken. unfold AuthRoute.me. rewrite Htoken, Hsecret. reflexivity.
  - apply serve_answers_every_call.
Qed.

Lemma missing_secret_fails_per_request_witness :
  AuthRoute.login Sample.worldWithoutSecret Sample.db (Sample.loginAs "ann@example.com" "hunter22")
  = (failure 500 "Login failed. Please try again.", Sample.db)
  /\ AuthRoute.me Sample.worldWithoutSecret Sample.db
       (Sample.withBearer Sample.annToken Sample.noBody)
     = (failure 500 "Failed to get current user", Sample.db).
Proof.
  destruct (missing_secret_fails_per_request Sample.worldWithoutSecret Sample.db)
    as (Hlogin & Hme & _); [reflexivity |].
  split.
  - apply (Hlogin _ "ann@example.com" "hunter22" Sample.ann); try reflexivity.
    eexists. repeat split; try reflexivity; discriminate.
  - apply (Hme _ Sample.annToken). reflexivity.
Defined.

(** C9 as stated fails: without a secret the service answers one call
    after the other.  Ann's login, with the right password, is answered 500;
    her request for her tasks, with a token, is then answered 401, word for
    word the answer to a request that carries no credentials. *)
Lemma missing_secret_is_answered_as_unauthenticated :
  serve Sample.db
    [(Sample.worldWithoutSecret, Login (Sample.loginAs "ann@example.com" "hunter22"));
     (Sample.worldWithoutSecret, ListTasks (Sample.withBearer Sample.annToken Sample.noBody));
     (Sample.worldWithoutSecret, ListTasks (Sample.anonymous Sample.noBody))]
  = [failure 500 "Login failed. Please try again.";
     failure 401 "Authentication required";
     failure 401 "Authentication required"].
Proof. vm_compute. reflexivity. Qed.

(** ** E-mail addresses *)

Lemma lowerChar_idempotent (c : ascii) : Js.lowerChar (Js.lowerChar c) = Js.lowerChar c.
Proof. destruct c as [[] [] [] [] [] [] [] []]; reflexivity. Qed.

Lemma isWhiteSpace_lowerChar (c : ascii) : Js.isWhiteSpace (Js.lowerChar c) = Js.isWhiteSpace c.
Proof. destruct c as [[] [] [] [] [] [] [] []]; reflexivity. Qed.

Lemma toLowerCase_idempotent (s : string) :
  Js.toLowerCase (Js.toLowerCase s) = Js.toLowerCase s.
Proof.
  induction s as [|c s IH]; [reflexivity |]. cbn [Js.toLowerCase].
  now rewrite lowerChar_idempotent, IH.
Qed.

Lemma toLowerCase_empty (s : string) : Js.toLowerCase s = "" <-> s = "".
Proof. destruct s; cbn [Js.toLowerCase]; split; congruence. Qed.

Lemma trimStart_toLowerCase (s : string) :
  Js.trimStart (Js.toLowerCase s) = Js.toLowerCase (Js.trimStart s).
Proof.
  induction s as [|c s IH]; [reflexivity |]. cbn [Js.toLowerCase Js.trimStart].
  rewrite isWhiteSpace_lowerChar. destruct (Js.isWhiteSpace c); [exact IH | reflexivity].
Qed.

Lemma trimEnd_toLowerCase (s : string) :
  Js.trimEnd (Js.toLowerCase s) = Js.toLowerCase (Js.trimEnd s).
Proof.
  induction s as [|c s IH]; [reflexivity |]. cbn [Js.toLowerCase Js.trimEnd].
  rewrite IH, isWhiteSpace_lowerChar.
  destruct (Js.trimEnd s) as [|d rest]; cbn [Js.toLowerCase];
    [destruct (Js.isWhiteSpace c) |]; reflexivity.
Qed.

(** Trimming and lowering commute: lowering maps no character to or from
    white space. *)
Lemma trim_toLowerCase (s : string) : Js.trim (Js.toLowerCase s) = Js.toLowerCase (Js.trim s).
Proof. unfold Js.trim. now rewrite trimStart_toLowerCase, trimEnd_toLowerCase. Qed.

Lemma emailSetters_lowered (e : string) :
  Js.trim e = e -> User.emailSetters (Js.toLowerCase e) = Js.toLowerCase e.
Proof.
  intros Htrim. unfold User.emailSetters.
  now rewrite trim_toLowerCase, Htrim, toLowerCase_idempotent.
Qed.

Lemma documents_of_users (m : gmap string User.IUser) (u : User.IUser) :
  In u (User.documents m) <-> exists id, m !! id = Some u.
Proof.
  unfold User.documents. rewrite in_map_iff. split.
  - intros ([id u'] & <- & Hin). exists id.
    apply list_elem_of_In, elem_of_map_to_list in Hin. exact Hin.
  - intros (id & Hid). exists (id, u). split; [reflexivity |].
    apply list_elem_of_In, elem_of_map_to_list. exact Hid.
Qed.

(** After the insertion of a user whose address no stored user has, a
    lookup by that address finds the new user. *)
Lemma find_inserted (m : gmap string User.IUser) (id : string) (u : User.IUser) :
  existsb (fun x => String.eqb (User.email x) (User.email u)) (User.documents m) = false ->
  List.find (fun x => String.eqb (User.email x) (User.email u))
    (User.documents (<[ id := u ]> m)) = Some u.
Proof.
  intros Hunique.
  destruct (List.find _ (User.documents (<[ id := u ]> m))) as [x|] eqn:Hfind.
  - apply find_some in Hfind as [Hin Heq]. apply documents_of_users in Hin as [i Hi].
    destruct (decide (id = i)) as [<-|Hne].
    + rewrite lookup_insert_eq in Hi. symmetry. exact Hi.
    + rewrite lookup_insert_ne in Hi by exact Hne.
      assert (existsb (fun x => String.eqb (User.email x) (User.email u)) (User.documents m)
              = true) as Hexists.
      { apply existsb_exists. exists x. split; [|exact Heq].
        apply documents_of_users. eauto. }
      congruence.
  - exfalso. pose proof (find_none _ _ Hfind u) as Hnone. cbn beta in Hnone.
    rewrite String.eqb_refl in Hnone. discriminate Hnone.
    apply documents_of_users. exists id. apply lookup_insert_eq.
Qed.

Lemma string_JString `{Platform} (cs : list Zod.StringCheck) (path s : string) :
  Zod.string_ cs path (Some (JString s))
  = (Some (Zod.runChecks cs s).1, map (pair path) (Zod.runChecks cs s).2).
Proof. reflexivity. Qed.

Lemma finish_Success {A} (x d : A) (issues : list Zod.Issue) :
  Zod.finish (Some x) issues = Zod.Success d -> d = x /\ issues = [].
Proof. destruct issues; cbn; [intros [= <-]; split; reflexivity | discriminate]. Qed.

(** What the [email] and [password] schemas of [RegisterSchema] accept, and
    what they output. *)
Lemma RegisterSchema_Success `{Platform} (o : gmap string JsonValue) (d : RegisterInput)
    (e p : string) :
  Schemas.RegisterSchema (BodyObject o) = Zod.Success d ->
  o !! "email" = Some (JString e) -> o !! "password" = Some (JString p) ->
  zod_email e = true
  /\ reg_email d = Js.trim (Js.toLowerCase e)
  /\ reg_password d = p.
Proof.
  intros Hschema He Hp. unfold Schemas.RegisterSchema in Hschema.
  rewrite He, Hp, !string_JString in Hschema.
  destruct (Zod.string_ _ "name" _) as [[n|] issues_n]; cbn [fst snd] in Hschema;
    [|discriminate Hschema].
  destruct (Zod.string_ _ "confirmPassword" _) as [[c|] issues_c]; cbn [fst snd] in Hschema;
    [|discriminate Hschema].
  assert (Hissues :
            (issues_n ++ map (pair "email")
                           (Zod.runChecks [Zod.Email "Please enter a valid email address";
                                           Zod.ToLowerCase; Zod.Trim] e).2
             ++ map (pair "password")
                  (Zod.runChecks [Zod.Min 6 "Password must be at least 6 characters";
                                  Zod.Max 100 "Password is too long"] p).2
             ++ issues_c)%list = []
            /\ d = mkRegisterInput n (Js.trim (Js.toLowerCase e)) p c).
  { destruct (String.eqb _ c); apply finish_Success in Hschema as [-> Hnil].
    - split; [exact Hnil | reflexivity].
    - apply app_eq_nil in Hnil as [_ Hnil]. discriminate Hnil. }
  destruct Hissues as [Hnil ->].
  apply app_eq_nil in Hnil as [_ Hnil]. apply app_eq_nil in Hnil as [Hemail _].
  cbn in Hemail. destruct (zod_email e); [|discriminate Hemail].
  repeat split; reflexivity.
Qed.

(** What a [POST /api/auth/register] answered with 200 has done. *)
Lemma register_registered `{Platform} (w : World) (db db' : Db) (r : Request)
    (resp : Response) :
  AuthRoute.register w db r = (resp, db') -> status resp = 200 ->
  exists d,
    let u := User.new (now w) (newObjectId w) (reg_name d) (reg_email d) (reg_password d) in
    let saved := User.set_password (bcrypt_hash (salt w) (reg_password d)) u in
    Schemas.RegisterSchema (body r) = Zod.Success d
    /\ User.validate u = []
    /\ existsb (fun x => String.eqb (User.email x) (User.email saved))
         (User.documents (users db)) = false
    /\ resp = mkResponse 200
                (mkApiResponse true (Some (UserData (userResponse saved)))
                   (Some "User registered successfully") None None None) []
    /\ db' = mkDb (<[ newObjectId w := saved ]> (users db)) (tasks db).
Proof.
  unfold AuthRoute.register, tryCatch. intros Hreg Hstatus.
  destruct (readBody (body r)) as [b|e] eqn:Hbody; cbn [mbind Try_bind] in Hreg;
    [|destruct e; injection Hreg as <- <-; discriminate Hstatus].
  apply readBody_Return in Hbody as ->.
  destruct (Schemas.RegisterSchema (body r)) as [d|issues] eqn:Hschema;
    [|injection Hreg as <- <-; discriminate Hstatus].
  destruct (User.findOne (reg_email d) (users db));
    [injection Hreg as <- <-; discriminate Hstatus |].
  unfold User.save in Hreg.
  destruct (User.validate _) as [|err errs] eqn:Hvalid;
    [|injection Hreg as <- <-; discriminate Hstatus].
  cbn [User.preSave negb] in Hreg.
  match type of Hreg with
  | context [if ?c then _ else _] => destruct c eqn:Hdup
  end; cbn [mbind Try_bind fst snd] in Hreg;
    [injection Hreg as <- <-; discriminate Hstatus |].
  apply orb_false_iff in Hdup as [_ Hunique].
  injection Hreg as <- <-. exists d. cbn zeta. repeat split; assumption || reflexivity.
Qed.

Lemma validate_email_nonempty (v : string) : User.validate_email v = [] -> v <> "".
Proof. intros Hv ->. discriminate Hv. Qed.

Lemma validate_password_nonempty (v : string) : User.validate_password v = [] -> v <> "".
Proof. intros Hv ->. discriminate Hv. Qed.

(** C10.  Registration stores the e-mail address in lower case, and login
    lowers the address it is given before the lookup: after a user has
    registered with an address, a login with any address that lowers to the
    same string, and the password, succeeds and returns that user. *)
Theorem login_is_case_insensitive `{Platform}
    (w w' : World) (db db' : Db) (r r' : Request) (resp : Response)
    (o o' : gmap string JsonValue) (e p e' s : string) :
  (forall x, zod_email x = true -> Js.trim x = x) ->
  (forall salt plain, bcrypt_compare plain (bcrypt_hash salt plain) = true) ->
  AuthRoute.register w db r = (resp, db') ->
  status resp = 200 ->
  body r = BodyObject o ->
  o !! "email" = Some (JString e) ->
  o !! "password" = Some (JString p) ->
  Js.toLowerCase e' = Js.toLowerCase e ->
  body r' = BodyObject o' ->
  o' !! "email" = Some (JString e') ->
  o' !! "password" = Some (JString p) ->
  secret w' = Some s ->
  exists stored token,
    users db' !! newObjectId w = Some stored
    /\ User.email stored = Js.toLowerCase e
    /\ data (json resp) = Some (UserData (userResponse stored))
    /\ AuthRoute.login w' db' r'
       = (mkResponse 200
            (mkApiResponse true (Some (LoginData (userResponse stored) token))
               (Some "Login successful") None None None)
            [AuthRoute.authCookieOptions token],
          db').
Proof.
  intros Hzod Hbcrypt Hreg Hstatus Hbody He Hp Hsame Hbody' He' Hp' Hsecret.
  destruct (register_registered w db db' r resp Hreg Hstatus)
    as (d & Hschema & Hvalid & Hunique & -> & ->).
  rewrite Hbody in Hschema.
  destruct (RegisterSchema_Success o d e p Hschema He Hp) as (Hemail & Hreg_email & Hreg_pw).
  pose proof (Hzod e Hemail) as Htrim.
  rewrite trim_toLowerCase, Htrim in Hreg_email.
  set (u := User.new (now w) (newObjectId w) (reg_name d) (reg_email d) (reg_password d))
    in *.
  set (saved := User.set_password (bcrypt_hash (salt w) (reg_password d)) u) in *.
  assert (Hstored : User.email saved = Js.toLowerCase e).
  { unfold saved, u. cbn [User.set_password User.email User.new].
    rewrite Hreg_email. now apply emailSetters_lowered. }
  unfold User.validate in Hvalid.
  apply app_eq_nil in Hvalid as [_ Hvalid]. apply app_eq_nil in Hvalid as [Hv_email Hv_pw].
  apply validate_email_nonempty in Hv_email. apply validate_password_nonempty in Hv_pw.
  change (User.email u) with (User.email saved) in Hv_email.
  change (User.password u) with (reg_password d) in Hv_pw.
  rewrite Hstored in Hv_email. rewrite Hreg_pw in Hv_pw.
  assert (Hrequest : loginRequest r' e' p).
  { exists o'. repeat split; try assumption.
    intros ->. apply Hv_email. rewrite <- Hsame. reflexivity. }
  exists saved. eexists. split; [apply lookup_insert_eq |]. split; [exact Hstored |].
  split; [reflexivity |].
  rewrite (login_reaches_lookup w' _ r' e' p Hrequest).
  assert (Hfound : User.findOne (Js.toLowerCase e')
                     (users (mkDb (<[ newObjectId w := saved ]> (users db)) (tasks db)))
                   = Some saved).
  { unfold User.findOne. cbn [users].
    assert (Hwanted : (if settersOnQuery then User.emailSetters (Js.toLowerCase e')
                       else Js.toLowerCase e') = User.email saved).
    { rewrite Hsame, Hstored. destruct settersOnQuery; [|reflexivity].
      now apply emailSetters_lowered. }
    rewrite Hwanted. now apply find_inserted. }
  rewrite Hfound.
  assert (Hpassword : bcrypt_compare p (User.password saved) = true).
  { unfold saved. cbn [User.set_password User.password]. rewrite Hreg_pw. apply Hbcrypt. }
  rewrite Hpassword, Hsecret. reflexivity.
Qed.

Lemma login_is_case_insensitive_witness :
  exists stored token,
    users (AuthRoute.register Sample.world Sample.emptyDb
             (Sample.registerAs "Ann" "Ann@Example.com" "hunter22")).2
      !! newObjectId Sample.world = Some stored
    /\ User.email stored = "ann@example.com"
    /\ (AuthRoute.login Sample.world
          (AuthRoute.register Sample.world Sample.emptyDb
             (Sample.registerAs "Ann" "Ann@Example.com" "hunter22")).2
          (Sample.loginAs "ANN@example.COM" "hunter22")).1
       = mkResponse 200
           (mkApiResponse true (Some (LoginData (userResponse stored) token))
              (Some "Login successful") None None None)
           [AuthRoute.authCookieOptions token].
Proof.
  destruct (login_is_case_insensitive Sample.world Sample.world Sample.emptyDb
              (AuthRoute.register Sample.world Sample.emptyDb
                 (Sample.registerAs "Ann" "Ann@Example.com" "hunter22")).2
              (Sample.registerAs "Ann" "Ann@Example.com" "hunter22")
              (Sample.loginAs "ANN@example.COM" "hunter22")
              (AuthRoute.register Sample.world Sample.emptyDb
                 (Sample.registerAs "Ann" "Ann@Example.com" "hunter22")).1
              {[ "name" := JString "Ann"; "email" := JString "Ann@Example.com";
                 "password" := JString "hunter22";
                 "confirmPassword" := JString "hunter22" ]}
              {[ "email" := JString "ANN@example.COM"; "password" := JString "hunter22" ]}
              "Ann@Example.com" "hunter22" "ANN@example.COM" Sample.theSecret)
    as (stored & token & Hstored & Hemail & _ & Hlogin).
  - intros x Hx. apply andb_prop in Hx as [Hx _]. apply String.eqb_eq in Hx. exact Hx.
  - intros salt plain. apply String.eqb_refl.
  - vm_compute. reflexivity.
  - vm_compute. reflexivity.
  - reflexivity.
  - reflexivity.
  - reflexivity.
  - reflexivity.
  - reflexivity.
  - reflexivity.
  - reflexivity.
  - reflexivity.
  - exists stored, token. split; [exact Hstored |]. split; [exact Hemail |].
    rewrite Hlogin. reflexivity.
Defined.

(** ** The handlers on concrete requests *)

Example split_cookie_header :
  Js.split ";" "theme=dark; auth-token=abc" = ["theme=dark"; " auth-token=abc"].
Proof. reflexivity. Qed.

Example trim_both_sides : Js.trim "  a b  " = "a b".
Proof. reflexivity. Qed.

Example email_pattern :
  Regex.test User.emailPattern "ann.lee@example.com" = true
  /\ Regex.test User.emailPattern "ann@example.info" = false
  /\ Regex.test User.emailPattern "ann lee@example.com" = false.
Proof. repeat split; vm_compute; reflexivity. Qed.

(** The three causes on Ann's token: a string that is no token, her payload
    under a signature made with another secret, and her token eight days
    after it was issued. *)
Example three_causes :
  failsWith Malformed "not-a-token" Sample.theSecret Sample.noon
  /\ failsWith SignatureInvalid
       (Sample.encode (mkJws "HS256" Sample.annPayload
                         (Sample.mac "HS256" "guess" Sample.annPayload)))
       Sample.theSecret Sample.noon
  /\ failsWith Expired Sample.annToken Sample.theSecret Sample.eightDaysLater.
Proof. split; [|split]; [| |eexists]; vm_compute; reflexivity. Qed.

(** An id that Mongoose cannot cast is answered with an internal error, for
    every store. *)
Example malformed_id_is_internal_error :
  (TaskRoute.GET Sample.world Sample.db "abc"
     (Sample.withBearer Sample.bobToken Sample.noBody)).1
  = failure 500 "Failed to fetch task".
Proof. vm_compute. reflexivity. Qed.

(** The owner reads, completes and deletes the task. *)
Example owner_reads_task :
  (TaskRoute.GET Sample.world Sample.db Sample.taskId
     (Sample.withBearer Sample.annToken Sample.noBody)).1
  = ok (TaskData Sample.annTask) "Task fetched successfully".
Proof. vm_compute. reflexivity. Qed.

Example owner_deletes_task :
  tasks (TaskRoute.DELETE Sample.world Sample.db Sample.taskId
           (Sample.withBearer Sample.annToken Sample.noBody)).2 !! Sample.taskId = None.
Proof. vm_compute. reflexivity. Qed.

(** A status in the body of [POST /api/tasks] is not read. *)
Example create_ignores_status :
  exists t,
    data (json (TasksRoute.POST Sample.world Sample.dbWithoutTasks
                  (Sample.withBearer Sample.annToken
                     (BodyObject (<[ "status" := JString "completed" ]> Sample.buyMilk)))).1)
    = Some (TaskData t)
    /\ Task.status t = PENDING.
Proof. eexists. split; [vm_compute; reflexivity | reflexivity]. Qed.

(** Registering with passwords that differ is refused with a field error on
    [confirmPassword], and no user is stored. *)
Example register_password_mismatch :
  let answer :=
    AuthRoute.register Sample.world Sample.emptyDb
      (Sample.anonymous
         (BodyObject {[ "name" := JString "Ann"; "email" := JString "ann@example.com";
                        "password" := JString "hunter22";
                        "confirmPassword" := JString "hunter23" ]})) in
  status answer.1 = 400
  /\ fieldErrors (json answer.1) = Some {[ "confirmPassword" := "Passwords don't match" ]}
  /\ answer.2 = Sample.emptyDb.
Proof. cbv zeta. repeat split; vm_compute; reflexivity. Qed.

(** * Further properties of the code *)

(** ** Trimming *)

(** A no-break space is white space to [trim]: a title that consists of
    one is blank, and a cookie that follows one is recognised. *)
Example trim_no_break_space :
  Js.trim (String (ascii_of_nat 160) "Buy milk" ++ String (ascii_of_nat 160) "") = "Buy milk"
  /\ blank (String (ascii_of_nat 160) "") = true
  /\ cookieToken (Some (String (ascii_of_nat 160) "auth-token=first;auth-token=second"))
     = Some "first".
Proof. repeat split; vm_compute; reflexivity. Qed.

(** Lower-casing reaches the letters of Latin-1 and leaves the
    multiplication sign alone. *)
Example toLowerCase_latin1 :
  Js.toLowerCase (String (ascii_of_nat 201) (String (ascii_of_nat 215) "A"))
  = String (ascii_of_nat 233) (String (ascii_of_nat 215) "a").
Proof. vm_compute. reflexivity. Qed.

Lemma trimStart_headNotBlank (s : string) : headNotBlank (Js.trimStart s).
Proof.
  induction s as [|c s IH]; cbn [Js.trimStart]; [exact I |].
  destruct (Js.isWhiteSpace c) eqn:Hc; [exact IH | exact Hc].
Qed.

Lemma trimStart_fixed (s : string) : headNotBlank s -> Js.trimStart s = s.
Proof. destruct s as [|c s]; cbn; [reflexivity | intros ->; reflexivity]. Qed.

Lemma trimEnd_headNotBlank (s : string) : headNotBlank s -> headNotBlank (Js.trimEnd s).
Proof.
  destruct s as [|c s]; [intros _; exact I |]. intros Hc. cbn in Hc.
  rewrite trimEnd_keeps by exact Hc. exact Hc.
Qed.

Lemma trimEnd_idempotent (s : string) : Js.trimEnd (Js.trimEnd s) = Js.trimEnd s.
Proof.
  induction s as [|c s IH]; [reflexivity |].
  change (Js.trimEnd (String c s))
    with (match Js.trimEnd s with
          | EmptyString => if Js.isWhiteSpace c then EmptyString else String c EmptyString
          | r => String c r
          end).
  destruct (Js.trimEnd s) as [|d r] eqn:Hr.
  - destruct (Js.isWhiteSpace c) eqn:Hc; [reflexivity |]. cbn. now rewrite Hc.
  - change (Js.trimEnd (String c (String d r)))
      with (match Js.trimEnd (String d r) with
            | EmptyString => if Js.isWhiteSpace c then EmptyString else String c EmptyString
            | r0 => String c r0
            end).
    rewrite IH. reflexivity.
Qed.

Lemma trim_idempotent (s : string) : Js.trim (Js.trim s) = Js.trim s.
Proof.
  unfold Js.trim.
  rewrite (trimStart_fixed (Js.trimEnd (Js.trimStart s)))
    by apply trimEnd_headNotBlank, trimStart_headNotBlank.
  apply trimEnd_idempotent.
Qed.

Lemma length_trimStart (s : string) : Js.length (Js.trimStart s) <= Js.length s.
Proof.
  induction s as [|c s IH]; cbn [Js.trimStart String.length]; [lia |].
  destruct (Js.isWhiteSpace c); cbn [String.length]; lia.
Qed.

Lemma length_trimEnd (s : string) : Js.length (Js.trimEnd s) <= Js.length s.
Proof.
  induction s as [|c s IH]; cbn [Js.trimEnd String.length]; [lia |].
  destruct (Js.trimEnd s); [destruct (Js.isWhiteSpace c) |]; cbn [String.length] in *; lia.
Qed.

Lemma length_trim (s : string) : Js.length (Js.trim s) <= Js.length s.
Proof.
  unfold Js.trim. pose proof (length_trimEnd (Js.trimStart s)).
  pose proof (length_trimStart s). lia.
Qed.

(** ** Field errors *)

Lemma foldl_insert_other (acc : gmap string string) (issues : list Zod.Issue) (k : string) :
  Forall (fun i => i.1 <> k) issues ->
  foldl (fun a (i : Zod.Issue) => <[ i.1 := i.2 ]> a) acc issues !! k = acc !! k.
Proof.
  revert acc. induction issues as [|i issues IH]; intros acc Hall; [reflexivity |].
  inversion Hall as [|? ? Hi Hrest]; subst. cbn [foldl]. rewrite IH by assumption.
  now apply lookup_insert_ne.
Qed.

Lemma foldl_insert_some (acc : gmap string string) (issues : list Zod.Issue) (k : string) :
  is_Some (acc !! k) \/ Exists (fun i => i.1 = k) issues ->
  is_Some (foldl (fun a (i : Zod.Issue) => <[ i.1 := i.2 ]> a) acc issues !! k).
Proof.
  revert acc. induction issues as [|i issues IH]; intros acc [Hacc|Hex].
  - exact Hacc.
  - inversion Hex.
  - cbn [foldl]. apply IH. left.
    destruct (decide (i.1 = k)) as [<-|Hne];
      [rewrite lookup_insert_eq; eauto | now rewrite lookup_insert_ne].
  - cbn [foldl]. apply IH. inversion Hex as [? ? Hhere|? ? Hlater]; subst.
    + left. rewrite lookup_insert_eq. eauto.
    + right. exact Hlater.
Qed.

Lemma formatZodError_found (before after : list Zod.Issue) (path message : string) :
  Forall (fun i => i.1 <> path) after ->
  Zod.formatZodError (before ++ (path, message) :: after) !! path = Some message.
Proof.
  intros Hafter. unfold Zod.formatZodError.
  rewrite foldl_app. cbn [foldl]. rewrite foldl_insert_other by exact Hafter.
  apply lookup_insert_eq.
Qed.

(** X1.  [formatZodError] keeps, for every path, the message of the last
    issue raised on it, and has an entry for exactly the paths of the
    issues. *)
Theorem formatZodError_last_issue_wins :
  (forall (before after : list Zod.Issue) (path message : string),
      Forall (fun i => i.1 <> path) after ->
      Zod.formatZodError (before ++ (path, message) :: after) !! path = Some message)
  /\ (forall (issues : list Zod.Issue) (path : string),
        Zod.formatZodError issues !! path = None <->
        Forall (fun i => i.1 <> path) issues).
Proof.
  split.
  - apply formatZodError_found.
  - intros issues path. unfold Zod.formatZodError. split.
    + intros Hnone. apply Forall_forall. intros i Hin Heq.
      destruct (foldl_insert_some (∅ : gmap string string) issues path) as [m Hm];
        [right; apply Exists_exists; eauto | congruence].
    + intros Hall. rewrite foldl_insert_other by exact Hall. apply lookup_empty.
Qed.

Lemma formatZodError_last_issue_wins_witness :
  Zod.formatZodError
    [("title", "first"); ("dueDate", "other"); ("title", "second"); ("priority", "third")]
    !! "title" = Some "second".
Proof.
  destruct formatZodError_last_issue_wins as [Hlast _].
  apply (Hlast [("title", "first"); ("dueDate", "other")] [("priority", "third")]).
  repeat constructor. discriminate.
Defined.

(** ** The schema and the validators of a new task *)

Section CreateSchema.
Context `{Platform}.

Lemma title_schema_string (s : string) :
  Schemas.title_schema (Some (JString s))
  = (Some (Js.trim s),
     map (pair "title")
       (if Nat.leb 1 (Js.length s)
        then if Nat.leb (Js.length s) 200 then []
             else ["Title must be less than 200 characters"]
        else "Task title is required"
             :: (if Nat.leb (Js.length s) 200 then []
                 else ["Title must be less than 200 characters"]))).
Proof. reflexivity. Qed.

Lemma title_schema_accepts (s : string) :
  1 <= Js.length s <= 200 ->
  Schemas.title_schema (Some (JString s)) = (Some (Js.trim s), []).
Proof.
  intros [Hmin Hmax]. rewrite title_schema_string.
  apply Nat.leb_le in Hmin, Hmax. now rewrite Hmin, Hmax.
Qed.

Lemma priority_schema_accepts (p : TaskPriority) :
  Schemas.priority_schema (Some (JString (TaskPriority_value p))) = (Some p, []).
Proof. destruct p; reflexivity. Qed.

Lemma category_schema_accepts (c : TaskCategory) :
  Schemas.category_schema (Some (JString (TaskCategory_value c))) = (Some c, []).
Proof. destruct c; reflexivity. Qed.

Lemma description_schema_absent : Schemas.description_schema None = (Some None, []).
Proof. reflexivity. Qed.

Lemma description_schema_accepts (s : string) :
  Js.length s <= 1000 ->
  Schemas.description_schema (Some (JString s)) = (Some (Some (Js.trim s)), []).
Proof.
  intros Hmax. apply Nat.leb_le in Hmax. unfold Schemas.description_schema.
  cbn. rewrite Hmax. reflexivity.
Qed.

Lemma dueDate_schema_absent (now : Z) : Schemas.dueDate_schema now None = (Some None, []).
Proof. reflexivity. Qed.

Lemma dueDate_schema_accepts (now : Z) (s : string) :
  Schemas.dueDate_refine now (Some s) = true ->
  Schemas.dueDate_schema now (Some (JString s)) = (Some (Some s), []).
Proof. intros Hrefine. unfold Schemas.dueDate_schema. cbn. now rewrite Hrefine. Qed.

(** The issues of a field are raised on the path of the field. *)
Lemma string_paths (cs : list Zod.StringCheck) (path : string) (v : option JsonValue) :
  Forall (fun i => i.1 = path) (Zod.string_ cs path v).2.
Proof.
  unfold Zod.string_. destruct v as [[s| | | | |]|]; cbn [snd];
    try (repeat constructor; fail).
  apply Forall_forall. intros i Hin. apply list_elem_of_In, in_map_iff in Hin as (m & <- & _).
  reflexivity.
Qed.

Lemma description_paths (v : option JsonValue) :
  Forall (fun i => i.1 = "description") (Schemas.description_schema v).2.
Proof.
  unfold Schemas.description_schema, Schemas.orEmptyLiteral, Zod.optional.
  destruct v as [x|]; [|repeat constructor].
  pose proof (string_paths [Zod.Max 1000 "Description must be less than 1000 characters";
                            Zod.Trim] "description" (Some x)) as Hpaths.
  destruct (Zod.string_ _ "description" (Some x)) as [[s|] issues]; cbn in *;
    [exact Hpaths | repeat constructor].
Qed.

Lemma nativeEnum_paths {A} (value : A -> string) (values : list A) (errorMap : option string)
    (path : string) (v : option JsonValue) :
  Forall (fun i => i.1 = path) (Zod.nativeEnum value values errorMap path v).2.
Proof.
  unfold Zod.nativeEnum.
  destruct (match v with Some (JString s) => _ | _ => None end); repeat constructor.
Qed.

Lemma dueDate_paths (now : Z) (v : option JsonValue) :
  Forall (fun i => i.1 = "dueDate") (Schemas.dueDate_schema now v).2.
Proof.
  unfold Schemas.dueDate_schema, Schemas.orEmptyLiteral, Zod.optional.
  destruct v as [[s| | | | |]|]; cbn;
    try destruct (Schemas.dueDate_refine now _); repeat constructor.
Qed.

(** The schema accepts a body whose five fields are accepted. *)
Lemma CreateTaskSchema_accepts (now : Z) (o : gmap string JsonValue)
    (t : string) (d : option string) (p : TaskPriority) (c : TaskCategory)
    (due : option string) :
  Schemas.title_schema (o !! "title") = (Some t, []) ->
  Schemas.description_schema (o !! "description") = (Some d, []) ->
  Schemas.priority_schema (o !! "priority") = (Some p, []) ->
  Schemas.category_schema (o !! "category") = (Some c, []) ->
  Schemas.dueDate_schema now (o !! "dueDate") = (Some due, []) ->
  Schemas.CreateTaskSchema now (BodyObject o) = Zod.Success (mkCreateTaskInput t d p c due).
Proof.
  intros Ht Hd Hp Hc Hdue. unfold Schemas.CreateTaskSchema.
  rewrite Ht, Hd, Hp, Hc, Hdue. reflexivity.
Qed.

(** The schema fails with the issues of its fields, in the order of the
    fields, as soon as there is one. *)
Lemma CreateTaskSchema_rejects (now : Z) (o : gmap string JsonValue) :
  let issues :=
    ((Schemas.title_schema (o !! "title")).2
     ++ (Schemas.description_schema (o !! "description")).2
     ++ (Schemas.priority_schema (o !! "priority")).2
     ++ (Schemas.category_schema (o !! "category")).2
     ++ (Schemas.dueDate_schema now (o !! "dueDate")).2)%list in
  issues <> [] ->
  Schemas.CreateTaskSchema now (BodyObject o) = Zod.Failure issues.
Proof.
  cbv zeta. intros Hissues. unfold Schemas.CreateTaskSchema.
  destruct (Schemas.title_schema _) as [[t|] it];
    destruct (Schemas.description_schema _) as [[d|] id];
    destruct (Schemas.priority_schema _) as [[p|] ip];
    destruct (Schemas.category_schema _) as [[c|] ic];
    destruct (Schemas.dueDate_schema _ _) as [[due|] idue];
    cbn [fst snd] in *; try reflexivity.
  unfold Zod.finish. destruct (it ++ id ++ ip ++ ic ++ idue)%list; [contradiction | reflexivity].
Qed.

End CreateSchema.

Lemma trimStart_empty (s : string) : Js.trimStart s = "" <-> blank s = true.
Proof.
  induction s as [|c s IH]; cbn [Js.trimStart blank]; [tauto |].
  destruct (Js.isWhiteSpace c); cbn [andb]; [exact IH |].
  split; discriminate.
Qed.

Lemma trimEnd_empty (s : string) : headNotBlank s -> Js.trimEnd s = "" -> s = "".
Proof.
  destruct s as [|c s]; [reflexivity |]. cbn [headNotBlank]. intros Hc.
  rewrite trimEnd_keeps by exact Hc. discriminate.
Qed.

Lemma trim_empty (s : string) : Js.trim s = "" <-> blank s = true.
Proof.
  unfold Js.trim. split.
  - intros Hend. apply trimStart_empty, trimEnd_empty; [apply trimStart_headNotBlank | exact Hend].
  - intros Hblank. apply trimStart_empty in Hblank. now rewrite Hblank.
Qed.

Lemma validate_title_trimmed (t : string) :
  Js.length t <= 200 -> blank t = false -> Task.validate_title (Js.trim t) = [].
Proof.
  intros Hmax Hblank. unfold Task.validate_title.
  destruct (String.eqb_spec (Js.trim t) "") as [E|E].
  - apply trim_empty in E. congruence.
  - pose proof (length_trim t) as Hlen.
    destruct (Js.trim t) as [|c rest] eqn:Htrim; [contradiction |].
    replace (Nat.leb (String.length (String c rest)) 200) with true
      by (symmetry; apply Nat.leb_le; lia).
    reflexivity.
Qed.

(** ** Creating a task *)

Section Create.
Context `{Platform}.
Variables (w : World) (db : Db) (r : Request) (userId : string)
  (o : gmap string JsonValue).
Hypothesis Huser : Js.orUndefined (getUserFromToken w r) = Some userId.
Hypothesis Hbody : body r = BodyObject o.

Lemma POST_schema_failure (issues : list Zod.Issue) :
  Schemas.CreateTaskSchema (now w) (BodyObject o) = Zod.Failure issues ->
  TasksRoute.POST w db r = (failureWithFields "Validation failed" issues, db).
Proof.
  intros Hschema. unfold TasksRoute.POST. rewrite Huser, Hbody.
  cbn [readBody mbind Try_bind]. rewrite Hschema. reflexivity.
Qed.

Lemma POST_schema_success (d : CreateTaskInput) :
  Schemas.CreateTaskSchema (now w) (BodyObject o) = Zod.Success d ->
  TasksRoute.POST w db r
  = tryCatch db
      (fun e =>
         match e with
         | ValidationError heading errors =>
             failureWithDetails "Validation failed" (validationMessage heading errors)
         | _ => failure 500 "Failed to create task"
         end)
      (dueDate ← TasksRoute.newDate (new_dueDate d);
       saved ← Task.save (now w)
                 (Task.new (now w) (newObjectId w) (new_title d)
                    (Js.orUndefined (new_description d)) (new_priority d) (new_category d)
                    dueDate userId) (tasks db);
       Return (ok (TaskData saved.1) "Task created successfully",
               mkDb (users db) saved.2)).
Proof.
  intros Hschema. unfold TasksRoute.POST. rewrite Huser, Hbody.
  cbn [readBody mbind Try_bind]. rewrite Hschema. reflexivity.
Qed.

End Create.

(** X2.  A create request whose title is the empty string or longer than
    200 code units ([title.length]) is answered 400 'Validation failed'
    with a field error on [title] that names the bound, and the store is
    left as it was. *)
Theorem create_rejects_title_out_of_bounds `{Platform}
    (w : World) (db : Db) (r : Request) (userId : string)
    (o : gmap string JsonValue) (t : string) :
  Js.orUndefined (getUserFromToken w r) = Some userId ->
  body r = BodyObject o ->
  o !! "title" = Some (JString t) ->
  ~ 1 <= Js.length t <= 200 ->
  exists errors : gmap string string,
    TasksRoute.POST w db r
    = (mkResponse 400
         (mkApiResponse false None None (Some "Validation failed") (Some errors) None) [],
       db)
    /\ errors !! "title"
       = Some (if Nat.eqb (Js.length t) 0 then "Task title is required"
               else "Title must be less than 200 characters").
Proof.
  intros Huser Hbody Htitle Hbounds.
  pose proof (CreateTaskSchema_rejects (now w) o) as Hrejects. cbv zeta in Hrejects.
  pose proof (description_paths (o !! "description")) as Hd.
  pose proof (nativeEnum_paths TaskPriority_value TaskPriority_values
                (Some "Please select a valid priority") "priority" (o !! "priority")) as Hp.
  pose proof (nativeEnum_paths TaskCategory_value TaskCategory_values
                (Some "Please select a valid category") "category" (o !! "category")) as Hc.
  pose proof (dueDate_paths (now w) (o !! "dueDate")) as Hdue.
  fold Schemas.priority_schema in Hp. fold Schemas.category_schema in Hc.
  set (rest := ((Schemas.description_schema (o !! "description")).2
                ++ (Schemas.priority_schema (o !! "priority")).2
                ++ (Schemas.category_schema (o !! "category")).2
                ++ (Schemas.dueDate_schema (now w) (o !! "dueDate")).2)%list) in *.
  assert (Hrest : Forall (fun i : Zod.Issue => i.1 <> "title") rest).
  { subst rest. repeat (apply Forall_app; split);
      (eapply Forall_impl; [eassumption |]); cbn; intros i ->; discriminate. }
  rewrite Htitle, title_schema_string in Hrejects. cbn [snd] in Hrejects.
  set (message := if Nat.eqb (String.length t) 0 then "Task title is required"
                  else "Title must be less than 200 characters").
  assert (Hissue : map (pair "title")
                     (if Nat.leb 1 (String.length t)
                      then if Nat.leb (String.length t) 200 then []
                           else ["Title must be less than 200 characters"]
                      else "Task title is required"
                           :: (if Nat.leb (String.length t) 200 then []
                               else ["Title must be less than 200 characters"]))
                   = [("title", message)]).
  { subst message. destruct (String.length t) as [|n]; [reflexivity |].
    destruct (Nat.leb (S n) 200) eqn:Hle; [apply Nat.leb_le in Hle; lia | reflexivity]. }
  rewrite Hissue in Hrejects. eexists. split.
  - apply (POST_schema_failure w db r userId o Huser Hbody). apply Hrejects.
    intros E; discriminate E.
  - exact (formatZodError_found [] rest "title" message Hrest).
Qed.

Lemma create_rejects_title_out_of_bounds_witness :
  exists errors : gmap string string,
    TasksRoute.POST Sample.world Sample.dbWithoutTasks (Cases.create (Cases.letters 201))
    = (mkResponse 400
         (mkApiResponse false None None (Some "Validation failed") (Some errors) None) [],
       Sample.dbWithoutTasks)
    /\ errors !! "title" = Some "Title must be less than 200 characters".
Proof.
  apply (create_rejects_title_out_of_bounds Sample.world Sample.dbWithoutTasks
           (Cases.create (Cases.letters 201)) Sample.annId
           (Cases.createBody (Cases.letters 201)) (Cases.letters 201));
    [vm_compute; reflexivity | reflexivity | vm_compute; reflexivity | vm_compute; lia].
Defined.

Section CreateOutcome.
Context `{Platform}.
Variables (w : World) (db : Db) (r : Request) (userId : string)
  (o : gmap string JsonValue) (d : CreateTaskInput) (due : option Z).
Hypothesis Huser : Js.orUndefined (getUserFromToken w r) = Some userId.
Hypothesis Hbody : body r = BodyObject o.
Hypothesis Hschema : Schemas.CreateTaskSchema (now w) (BodyObject o) = Zod.Success d.
Hypothesis Hdue : TasksRoute.newDate (new_dueDate d) = Return due.

Let newTask : Task.ITaskDocument :=
  Task.new (now w) (newObjectId w) (new_title d) (Js.orUndefined (new_description d))
    (new_priority d) (new_category d) due userId.

Lemma POST_model_rejects :
  Task.validate (now w) newTask <> [] ->
  TasksRoute.POST w db r
  = (failureWithDetails "Validation failed"
       (validationMessage "Task validation failed" (Task.validate (now w) newTask)),
     db).
Proof.
  intros Hinvalid. rewrite (POST_schema_success w db r userId o Huser Hbody d Hschema), Hdue.
  cbn [mbind Try_bind]. unfold Task.save. fold newTask.
  destruct (Task.validate (now w) newTask); [contradiction | reflexivity].
Qed.

Lemma POST_saves :
  Task.validate (now w) newTask = [] -> tasks db !! newObjectId w = None ->
  TasksRoute.POST w db r
  = (ok (TaskData newTask) "Task created successfully",
     mkDb (users db) (<[ newObjectId w := newTask ]> (tasks db))).
Proof.
  intros Hvalid Hfresh. rewrite (POST_schema_success w db r userId o Huser Hbody d Hschema), Hdue.
  cbn [mbind Try_bind]. unfold Task.save. fold newTask. rewrite Hvalid.
  cbn [Task.preSave]. change (Task._id newTask) with (newObjectId w). rewrite Hfresh.
  reflexivity.
Qed.

End CreateOutcome.

Lemma validate_userId_authenticated `{Platform} (w : World) (r : Request) (userId : string) :
  authenticatedAs w r userId -> Task.validate_userId userId = [].
Proof.
  intros [Huser Hvalid]. apply orUndefined_Some in Huser as [_ Hne].
  unfold Task.validate_userId. rewrite Hvalid.
  destruct (String.eqb_spec userId ""); [contradiction | reflexivity].
Qed.

(** X3.  A title of white space only passes the request schema, which
    checks the length before it trims, and is then refused by the model:
    the answer is 400 'Validation failed' with the message of the model in
    [details] instead of a field error, and nothing is stored. *)
Theorem create_rejects_blank_title `{Platform}
    (w : World) (db : Db) (r : Request) (userId : string)
    (o : gmap string JsonValue) (t : string) (p : TaskPriority) (c : TaskCategory) :
  authenticatedAs w r userId ->
  body r = BodyObject o ->
  o !! "title" = Some (JString t) ->
  1 <= Js.length t <= 200 ->
  blank t = true ->
  o !! "description" = None ->
  o !! "priority" = Some (JString (TaskPriority_value p)) ->
  o !! "category" = Some (JString (TaskCategory_value c)) ->
  o !! "dueDate" = None ->
  TasksRoute.POST w db r
  = (mkResponse 400
       (mkApiResponse false None None (Some "Validation failed") None
          (Some "Task validation failed: title: Task title is required")) [],
     db).
Proof.
  intros Hauth Hbody Htitle Hlen Hblank Hdesc Hprio Hcat Hdue.
  assert (Hschema : Schemas.CreateTaskSchema (now w) (BodyObject o)
                    = Zod.Success (mkCreateTaskInput (Js.trim t) None p c None)).
  { apply CreateTaskSchema_accepts.
    - rewrite Htitle. now apply title_schema_accepts.
    - rewrite Hdesc. reflexivity.
    - rewrite Hprio. apply priority_schema_accepts.
    - rewrite Hcat. apply category_schema_accepts.
    - rewrite Hdue. reflexivity. }
  pose proof (validate_userId_authenticated w r userId Hauth) as Hid.
  assert (Hvalidate :
            Task.validate (now w)
              (Task.new (now w) (newObjectId w) (Js.trim t) None p c None userId)
            = [("title", "Task title is required")]).
  { unfold Task.validate, Task.new. cbn [Task.title Task.description Task.dueDate Task.userId].
    rewrite Hid, trim_idempotent. apply trim_empty in Hblank. rewrite Hblank. reflexivity. }
  destruct Hauth as [Huser _].
  rewrite (POST_model_rejects w db r userId o _ None Huser Hbody Hschema eq_refl);
    cbn [new_title new_description new_priority new_category Js.orUndefined];
    rewrite Hvalidate; [reflexivity | discriminate].
Qed.

Lemma create_rejects_blank_title_witness :
  TasksRoute.POST Sample.world Sample.dbWithoutTasks (Cases.create "   ")
  = (mkResponse 400
       (mkApiResponse false None None (Some "Validation failed") None
          (Some "Task validation failed: title: Task title is required")) [],
     Sample.dbWithoutTasks).
Proof.
  apply (create_rejects_blank_title Sample.world Sample.dbWithoutTasks (Cases.create "   ")
           Sample.annId (Cases.createBody "   ") "   " LOW PERSONAL);
    try (vm_compute; reflexivity); try reflexivity.
  - split; vm_compute; reflexivity.
  - vm_compute. lia.
Defined.

(** X4.  The request schema accepts a due date from the midnight that began
    today on, the model only one after the present instant: a create
    request whose due date falls between the two is answered 400 with the
    message of the model in [details], and nothing is stored. *)
Theorem create_rejects_due_date_earlier_today `{Platform}
    (w : World) (db : Db) (r : Request) (userId : string)
    (o : gmap string JsonValue) (t s : string) (due : Z)
    (p : TaskPriority) (c : TaskCategory) :
  authenticatedAs w r userId ->
  body r = BodyObject o ->
  o !! "title" = Some (JString t) ->
  1 <= Js.length t <= 200 ->
  blank t = false ->
  o !! "description" = None ->
  o !! "priority" = Some (JString (TaskPriority_value p)) ->
  o !! "category" = Some (JString (TaskCategory_value c)) ->
  o !! "dueDate" = Some (JString s) ->
  s <> "" ->
  Date_parse s = Some due ->
  (startOfLocalDay (now w) <= due <= now w)%Z ->
  TasksRoute.POST w db r
  = (mkResponse 400
       (mkApiResponse false None None (Some "Validation failed") None
          (Some "Task validation failed: dueDate: Due date should be in the future")) [],
     db).
Proof.
  intros Hauth Hbody Htitle Hlen Hblank Hdesc Hprio Hcat Hdue Hs Hparse [Hfrom Hto].
  assert (Hor : Js.orUndefined (Some s) = Some s)
    by (apply orUndefined_Some; split; [reflexivity | exact Hs]).
  assert (Hschema : Schemas.CreateTaskSchema (now w) (BodyObject o)
                    = Zod.Success (mkCreateTaskInput (Js.trim t) None p c (Some s))).
  { apply CreateTaskSchema_accepts.
    - rewrite Htitle. now apply title_schema_accepts.
    - rewrite Hdesc. reflexivity.
    - rewrite Hprio. apply priority_schema_accepts.
    - rewrite Hcat. apply category_schema_accepts.
    - rewrite Hdue. apply dueDate_schema_accepts. unfold Schemas.dueDate_refine.
      rewrite Hor, Hparse. now apply Z.leb_le. }
  assert (HnewDate : TasksRoute.newDate (Some s) = Return (Some due)).
  { unfold TasksRoute.newDate. now rewrite Hor, Hparse. }
  pose proof (validate_userId_authenticated w r userId Hauth) as Hid.
  assert (Hvalidate :
            Task.validate (now w)
              (Task.new (now w) (newObjectId w) (Js.trim t) None p c (Some due) userId)
            = [("dueDate", "Due date should be in the future")]).
  { unfold Task.validate, Task.new. cbn [Task.title Task.description Task.dueDate Task.userId].
    rewrite Hid, trim_idempotent, validate_title_trimmed by (lia || assumption).
    cbn. replace (Z.ltb (now w) due) with false by (symmetry; apply Z.ltb_ge; lia).
    reflexivity. }
  destruct Hauth as [Huser _].
  rewrite (POST_model_rejects w db r userId o _ (Some due) Huser Hbody Hschema HnewDate);
    cbn [new_title new_description new_priority new_category Js.orUndefined];
    rewrite Hvalidate; [reflexivity | discriminate].
Qed.

Lemma create_rejects_due_date_earlier_today_witness :
  @TasksRoute.POST Cases.datedPlatform Sample.world Sample.dbWithoutTasks
    (Sample.withBearer Sample.annToken (BodyObject Cases.dueToday))
  = (mkResponse 400
       (mkApiResponse false None None (Some "Validation failed") None
          (Some "Task validation failed: dueDate: Due date should be in the future")) [],
     Sample.dbWithoutTasks).
Proof.
  apply (@create_rejects_due_date_earlier_today Cases.datedPlatform
           Sample.world Sample.dbWithoutTasks
           (Sample.withBearer Sample.annToken (BodyObject Cases.dueToday))
           Sample.annId Cases.dueToday "Buy milk" "2023-11-15" Cases.midnight LOW PERSONAL);
    try (vm_compute; reflexivity); try reflexivity.
  - split; vm_compute; reflexivity.
  - vm_compute. lia.
  - intros E; discriminate E.
  - vm_compute. split; intros E; discriminate E.
Defined.

(** X5.  A create request of an authenticated caller with a title of 1 to
    200 code units that [trim] does not empty, a description of at most
    1000 code units if any, a priority and a category of the enumerations, and a
    due date that is absent, empty or in the future, is answered 200; the
    stored task has the trimmed title and description, the status
    [pending], no completion date, the caller as owner and the present
    instant as creation and update time; every other document stays. *)
Theorem create_stores_the_task `{Platform}
    (w : World) (db : Db) (r : Request) (userId : string)
    (o : gmap string JsonValue) (t : string) (desc dueField : option string)
    (due : option Z) (p : TaskPriority) (c : TaskCategory) :
  authenticatedAs w r userId ->
  body r = BodyObject o ->
  o !! "title" = Some (JString t) ->
  1 <= Js.length t <= 200 ->
  blank t = false ->
  o !! "description" = JString <$> desc ->
  (forall s, desc = Some s -> Js.length s <= 1000) ->
  o !! "priority" = Some (JString (TaskPriority_value p)) ->
  o !! "category" = Some (JString (TaskCategory_value c)) ->
  o !! "dueDate" = JString <$> dueField ->
  readsDueDate (now w) dueField due ->
  tasks db !! newObjectId w = None ->
  let created :=
    Task.mk (newObjectId w) (Js.trim t) (Js.orUndefined (Js.trim <$> desc)) PENDING p c
      due None userId (now w) (now w) in
  TasksRoute.POST w db r
  = (ok (TaskData created) "Task created successfully",
     mkDb (users db) (<[ newObjectId w := created ]> (tasks db))).
Proof.
  intros Hauth Hbody Htitle Hlen Hblank Hdesc Hdesclen Hprio Hcat Hdue Hreads Hfresh created.
  assert (Hrefine : Schemas.dueDate_schema (now w) (JString <$> dueField) = (Some dueField, [])
                    /\ TasksRoute.newDate dueField = Return due).
  { unfold readsDueDate in Hreads. unfold TasksRoute.newDate.
    destruct dueField as [s|]; [|cbn in *; subst due; split; reflexivity].
    cbn [fmap option_fmap option_map]. split.
    - apply dueDate_schema_accepts. unfold Schemas.dueDate_refine.
      destruct (Js.orUndefined (Some s)); [|reflexivity].
      destruct Hreads as (dd & -> & _ & Hfrom & _). now apply Z.leb_le.
    - destruct (Js.orUndefined (Some s)); [|now subst due].
      destruct Hreads as (dd & -> & -> & _). reflexivity. }
  destruct Hrefine as [Hdueschema HnewDate].
  assert (Hschema : Schemas.CreateTaskSchema (now w) (BodyObject o)
                    = Zod.Success (mkCreateTaskInput (Js.trim t) (Js.trim <$> desc) p c dueField)).
  { apply CreateTaskSchema_accepts.
    - rewrite Htitle. now apply title_schema_accepts.
    - rewrite Hdesc. destruct desc as [s|]; [|reflexivity].
      apply description_schema_accepts, Hdesclen. reflexivity.
    - rewrite Hprio. apply priority_schema_accepts.
    - rewrite Hcat. apply category_schema_accepts.
    - rewrite Hdue. exact Hdueschema. }
  pose proof (validate_userId_authenticated w r userId Hauth) as Hid.
  assert (Htrimmed : Js.trim <$> Js.orUndefined (Js.trim <$> desc)
                     = Js.orUndefined (Js.trim <$> desc)).
  { destruct desc as [s|]; [|reflexivity]. cbn. destruct (Js.truthy (Js.trim s)); [|reflexivity].
    cbn. now rewrite trim_idempotent. }
  assert (Hnew : Task.new (now w) (newObjectId w) (Js.trim t)
                   (Js.orUndefined (Js.trim <$> desc)) p c due userId = created).
  { unfold Task.new, created. now rewrite trim_idempotent, Htrimmed. }
  assert (Hvalidate : Task.validate (now w) created = []).
  { unfold Task.validate, created.
    cbn [Task.title Task.description Task.dueDate Task.userId].
    rewrite Hid, validate_title_trimmed by (lia || assumption).
    assert (Hd : Task.validate_description (Js.orUndefined (Js.trim <$> desc)) = []).
    { destruct desc as [s|]; [|reflexivity]. cbn. destruct (Js.truthy (Js.trim s)); [|reflexivity].
      cbn. pose proof (length_trim s). pose proof (Hdesclen s eq_refl).
      replace (Nat.leb (String.length (Js.trim s)) 1000) with true
        by (symmetry; apply Nat.leb_le; lia).
      reflexivity. }
    assert (Hdd : Task.validate_dueDate (now w) due = []).
    { unfold readsDueDate in Hreads. destruct (Js.orUndefined dueField).
      - destruct Hreads as (dd & _ & -> & _ & Hafter). cbn.
        replace (Z.ltb (now w) dd) with true by (symmetry; apply Z.ltb_lt; lia).
        reflexivity.
      - now subst due. }
    rewrite Hd, Hdd. reflexivity. }
  destruct Hauth as [Huser _].
  pose proof (POST_saves w db r userId o _ due Huser Hbody Hschema HnewDate) as Hpost.
  cbn [new_title new_description new_priority new_category] in Hpost.
  rewrite Hnew in Hpost. exact (Hpost Hvalidate Hfresh).
Qed.

Lemma create_stores_the_task_witness :
  TasksRoute.POST Sample.world Sample.dbWithoutTasks (Cases.create "  Buy milk ")
  = (ok (TaskData (Task.mk Sample.taskId "Buy milk" None PENDING LOW PERSONAL None None
                     Sample.annId Sample.noon Sample.noon))
       "Task created successfully",
     mkDb (users Sample.dbWithoutTasks)
       (<[ Sample.taskId :=
             Task.mk Sample.taskId "Buy milk" None PENDING LOW PERSONAL None None
               Sample.annId Sample.noon Sample.noon ]> (tasks Sample.dbWithoutTasks))).
Proof.
  apply (create_stores_the_task Sample.world Sample.dbWithoutTasks
           (Cases.create "  Buy milk ") Sample.annId (Cases.createBody "  Buy milk ")
           "  Buy milk " None None None LOW PERSONAL);
    try (vm_compute; reflexivity); try reflexivity.
  - split; vm_compute; reflexivity.
  - vm_compute. lia.
  - intros s E; discriminate E.
Defined.

(** ** The store under the calls of the API *)

(** Case analysis on the block of a handler, up to its answer. *)
Ltac handler_cases :=
  repeat match goal with
    | |- context [tryCatch _ _ (match ?x with _ => _ end)] => destruct x eqn:?
    | |- context [tryCatch _ _ (mbind _ ?x)] => destruct x eqn:?; cbn [mbind Try_bind]
    end;
  cbn [tryCatch fst snd].

Section StoreChanges.
Context `{Platform}.
Variables (w : World) (db : Db).

Lemma login_reads (r : Request) : (AuthRoute.login w db r).2 = db.
Proof. unfold AuthRoute.login. handler_cases; reflexivity. Qed.

Lemma me_reads (r : Request) : (AuthRoute.me w db r).2 = db.
Proof. unfold AuthRoute.me. handler_cases; reflexivity. Qed.

Lemma list_reads (r : Request) : (TasksRoute.GET w db r).2 = db.
Proof. unfold TasksRoute.GET. handler_cases; reflexivity. Qed.

Lemma get_reads (id : string) (r : Request) : (TaskRoute.GET w db id r).2 = db.
Proof. unfold TaskRoute.GET. handler_cases; reflexivity. Qed.

Lemma register_writes_on_success (r : Request) :
  (AuthRoute.register w db r).2 = db \/ status (AuthRoute.register w db r).1 = 200.
Proof. unfold AuthRoute.register. handler_cases; auto. Qed.

Lemma create_writes_on_success (r : Request) :
  (TasksRoute.POST w db r).2 = db \/ status (TasksRoute.POST w db r).1 = 200.
Proof. unfold TasksRoute.POST. handler_cases; auto. Qed.

Lemma patch_writes_on_success (id : string) (r : Request) :
  (TaskRoute.PATCH w db id r).2 = db \/ status (TaskRoute.PATCH w db id r).1 = 200.
Proof. unfold TaskRoute.PATCH. handler_cases; auto. Qed.

Lemma delete_writes_on_success (id : string) (r : Request) :
  (TaskRoute.DELETE w db id r).2 = db \/ status (TaskRoute.DELETE w db id r).1 = 200.
Proof. unfold TaskRoute.DELETE. handler_cases; auto. Qed.

End StoreChanges.

Lemma store_changes_cases `{Platform} (w : World) (db : Db) (c : Call) :
  (dispatch w db c).2 = db
  \/ (writes c = true /\ status (dispatch w db c).1 = 200).
Proof.
  destruct c as [r|r|r|r|r|id r|id r|id r]; cbn [dispatch writes].
  - destruct (register_writes_on_success w db r); auto.
  - left. apply login_reads.
  - left. apply me_reads.
  - left. apply list_reads.
  - destruct (create_writes_on_success w db r); auto.
  - left. apply get_reads.
  - destruct (patch_writes_on_success w db id r); auto.
  - destruct (delete_writes_on_success w db id r); auto.
Qed.

(** X6.  A call leaves the store exactly as it was unless it is a
    registration, a creation, an update or a deletion that is answered 200:
    a login, a session query, a listing and a read never write, and no
    refused or failed call writes. *)
Theorem store_changes_only_on_successful_writes `{Platform}
    (w : World) (db : Db) (c : Call) :
  (dispatch w db c).2 = db
  \/ (writes c = true /\ status (dispatch w db c).1 = 200).
Proof. apply store_changes_cases. Qed.

Lemma lookup_Some (id userId : string) (tasks : gmap string Task.ITaskDocument)
    (t : Task.ITaskDocument) :
  Task.lookup id userId tasks = Some t <-> tasks !! id = Some t /\ Task.userId t = userId.
Proof.
  unfold Task.lookup. destruct (tasks !! id) as [t0|]; [|split; [discriminate | intros [E _]; discriminate E]].
  destruct (String.eqb_spec (Task.userId t0) userId) as [E|E]; split.
  - intros [= <-]. split; [reflexivity | exact E].
  - intros [[= <-] _]. reflexivity.
  - discriminate.
  - intros [[= <-] E']. contradiction.
Qed.

(** What a [DELETE /api/tasks/:id] answered with 200 has done. *)
Lemma DELETE_deleted `{Platform} (w : World) (db db' : Db) (id : string) (r : Request)
    (resp : Response) :
  TaskRoute.DELETE w db id r = (resp, db') -> status resp = 200 ->
  exists userId old,
    Js.orUndefined (getUserFromToken w r) = Some userId
    /\ Task.castFilter id userId = Return tt
    /\ Task.lookup id userId (tasks db) = Some old
    /\ resp = ok (TaskData old) "Task deleted successfully"
    /\ db' = mkDb (users db) (delete id (tasks db)).
Proof.
  unfold TaskRoute.DELETE, tryCatch. intros Hdelete Hstatus.
  destruct (Schemas.TaskIdSchema id); cbn [negb] in Hdelete;
    [|injection Hdelete as <- <-; discriminate Hstatus].
  destruct (Js.orUndefined (getUserFromToken w r)) as [userId|] eqn:Huser;
    [|injection Hdelete as <- <-; discriminate Hstatus].
  unfold Task.findOneAndDelete in Hdelete.
  destruct (Task.castFilter id userId) as [[]|e] eqn:Hcast; cbn [mbind Try_bind] in Hdelete;
    [|injection Hdelete as <- <-; discriminate Hstatus].
  destruct (Task.lookup id userId (tasks db)) as [old|] eqn:Hlookup;
    cbn [mbind Try_bind fst snd] in Hdelete;
    injection Hdelete as <- <-; [|discriminate Hstatus].
  exists userId, old. repeat split; assumption || reflexivity.
Qed.

(** X7.  The tasks of everyone but the caller are out of a call's reach:
    whatever the call, a task whose owner is not the user the call is made
    as is stored afterwards exactly if it was stored before, under the same
    id and with the same content. *)
Theorem tasks_of_others_are_untouched `{Platform}
    (w : World) (db : Db) (c : Call) (id : string) (t : Task.ITaskDocument) :
  caller w c <> Some (Task.userId t) ->
  tasks (dispatch w db c).2 !! id = Some t <-> tasks db !! id = Some t.
Proof.
  intros Hother.
  destruct (store_changes_cases w db c) as [-> | [Hwrites Hstatus]]; [tauto |].
  destruct (dispatch w db c) as [resp db'] eqn:Hcall. cbn [fst snd] in *.
  destruct c as [r|r|r|r|r|id' r|id' r|id' r]; try discriminate Hwrites;
    cbn [dispatch] in Hcall; unfold caller in Hother; cbn [callRequest] in Hother.
  - destruct (register_registered w db db' r resp Hcall Hstatus) as (d & _ & _ & _ & _ & ->).
    reflexivity.
  - destruct (POST_created w db db' r resp Hcall Hstatus)
      as (userId & d & due & Huser & _ & _ & Hfresh & _ & ->).
    cbn [tasks]. destruct (decide (newObjectId w = id)) as [<-|Hne].
    + rewrite lookup_insert_eq, Hfresh. split; [|discriminate].
      intros [= <-]. cbn [Task.new Task.userId] in Hother. congruence.
    + now rewrite lookup_insert_ne.
  - destruct (PATCH_updated w db db' id' r resp Hcall Hstatus)
      as (userId & input & u & old & Huser & _ & _ & Hlookup & _ & ->).
    apply lookup_Some in Hlookup as [Hold Howner].
    cbn [tasks]. destruct (decide (id' = id)) as [<-|Hne].
    + rewrite lookup_insert_eq, Hold. split; intros [= <-]; exfalso; apply Hother;
        rewrite Huser; cbn [Task.applyUpdate Task.userId]; congruence.
    + now rewrite lookup_insert_ne.
  - destruct (DELETE_deleted w db db' id' r resp Hcall Hstatus)
      as (userId & old & Huser & _ & Hlookup & _ & ->).
    apply lookup_Some in Hlookup as [Hold Howner].
    cbn [tasks]. destruct (decide (id' = id)) as [<-|Hne].
    + rewrite lookup_delete_eq, Hold. split; [discriminate |].
      intros [= <-]. exfalso. apply Hother. rewrite Huser. congruence.
    + now rewrite lookup_delete_ne.
Qed.

Lemma tasks_of_others_are_untouched_witness :
  tasks (dispatch Sample.world Sample.threeTasks
           (DeleteTask (Task._id Sample.bobTask)
              (Sample.withBearer Sample.annToken Sample.noBody))).2
    !! Task._id Sample.bobTask = Some Sample.bobTask
  <-> tasks Sample.threeTasks !! Task._id Sample.bobTask = Some Sample.bobTask.
Proof.
  apply (tasks_of_others_are_untouched Sample.world Sample.threeTasks
           (DeleteTask (Task._id Sample.bobTask)
              (Sample.withBearer Sample.annToken Sample.noBody))
           (Task._id Sample.bobTask) Sample.bobTask).
  vm_compute. intros E; discriminate E.
Defined.

(** ** The invariant of the store *)

Lemma storeInvariant_dispatch `{Platform} (w : World) (db : Db) (c : Call) :
  storeInvariant db -> storeInvariant (dispatch w db c).2.
Proof.
  intros Hinv.
  destruct (store_changes_cases w db c) as [-> | [Hwrites Hstatus]]; [exact Hinv |].
  destruct (dispatch w db c) as [resp db'] eqn:Hcall. cbn [fst snd] in *.
  destruct Hinv as (Htasks & Husers & Hdistinct & Hlower).
  destruct c as [r|r|r|r|r|id' r|id' r|id' r]; try discriminate Hwrites;
    cbn [dispatch] in Hcall.
  - destruct (register_registered w db db' r resp Hcall Hstatus)
      as (d & _ & _ & Hunique & _ & ->).
    cbn zeta in Hunique.
    set (saved := User.set_password _ _) in *.
    assert (Hnone : forall i u, users db !! i = Some u -> User.email u <> User.email saved).
    { intros i u Hi Heq.
      assert (existsb (fun x => String.eqb (User.email x) (User.email saved))
                (User.documents (users db)) = true) as Hex.
      { apply existsb_exists. exists u. split; [apply documents_of_users; eauto |].
        now apply String.eqb_eq. }
      congruence. }
    repeat split; cbn [users tasks].
    + exact Htasks.
    + intros i u. destruct (decide (newObjectId w = i)) as [<-|Hne].
      * rewrite lookup_insert_eq. intros [= <-]. reflexivity.
      * rewrite lookup_insert_ne by exact Hne. apply Husers.
    + intros i j u v.
      destruct (decide (newObjectId w = i)) as [<-|Hi];
        destruct (decide (newObjectId w = j)) as [<-|Hj];
        rewrite ?lookup_insert_eq, ?lookup_insert_ne by assumption.
      * reflexivity.
      * intros [= <-] Hv Heq. exfalso. exact (Hnone j v Hv (eq_sym Heq)).
      * intros Hu [= <-] Heq. exfalso. exact (Hnone i u Hu Heq).
      * apply Hdistinct.
    + intros i u. destruct (decide (newObjectId w = i)) as [<-|Hne].
      * rewrite lookup_insert_eq. intros [= <-]. subst saved.
        cbn [User.set_password User.new User.email]. unfold User.emailSetters.
        apply toLowerCase_idempotent.
      * rewrite lookup_insert_ne by exact Hne. apply Hlower.
  - destruct (POST_created w db db' r resp Hcall Hstatus)
      as (userId & d & due & _ & _ & _ & _ & _ & ->).
    repeat split; cbn [users tasks]; try assumption.
    intros i t. destruct (decide (newObjectId w = i)) as [<-|Hne].
    + rewrite lookup_insert_eq. intros [= <-]. reflexivity.
    + rewrite lookup_insert_ne by exact Hne. apply Htasks.
  - destruct (PATCH_updated w db db' id' r resp Hcall Hstatus)
      as (userId & input & u & old & _ & _ & _ & Hlookup & _ & ->).
    apply lookup_Some in Hlookup as [Hold _].
    repeat split; cbn [users tasks]; try assumption.
    intros i t. destruct (decide (id' = i)) as [<-|Hne].
    + rewrite lookup_insert_eq. intros [= <-]. cbn [Task.applyUpdate Task._id].
      exact (Htasks id' old Hold).
    + rewrite lookup_insert_ne by exact Hne. apply Htasks.
  - destruct (DELETE_deleted w db db' id' r resp Hcall Hstatus)
      as (userId & old & _ & _ & _ & _ & ->).
    repeat split; cbn [users tasks]; try assumption.
    intros i t Hi. apply lookup_delete_Some in Hi as [_ Hi]. exact (Htasks i t Hi).
Qed.

Lemma storeInvariant_run `{Platform} (calls : list (World * Call)) (db : Db) :
  storeInvariant db -> storeInvariant (run db calls).
Proof.
  revert db. induction calls as [|[w c] rest IH]; intros db Hinv; [exact Hinv |].
  cbn [run]. apply IH, storeInvariant_dispatch, Hinv.
Qed.

(** X8.  Whatever calls the service has answered since its store was
    empty, every document is stored under its own id, no two users share
    an e-mail address, and every stored address is in lower case. *)
Theorem reachable_stores_are_consistent `{Platform} (calls : list (World * Call)) :
  storeInvariant (run (mkDb ∅ ∅) calls).
Proof.
  apply storeInvariant_run.
  repeat split; cbn [users tasks]; intros *; rewrite ?lookup_empty; discriminate.
Qed.

(** ** Updating a task *)

(** What the schema of updates read from each field when it succeeded. *)
Lemma UpdateTaskSchema_Success `{Platform} (now : Z) (o : gmap string JsonValue)
    (input : UpdateTaskInput) :
  Schemas.UpdateTaskSchema now (BodyObject o) = Zod.Success input ->
  Zod.optional Schemas.title_schema (o !! "title") = (Some (upd_title input), [])
  /\ Schemas.description_schema (o !! "description") = (Some (upd_description input), [])
  /\ Zod.optional Schemas.priority_schema (o !! "priority") = (Some (upd_priority input), [])
  /\ Zod.optional Schemas.category_schema (o !! "category") = (Some (upd_category input), [])
  /\ Schemas.dueDate_schema now (o !! "dueDate") = (Some (upd_dueDate input), [])
  /\ Zod.optional statusSchema (o !! "status") = (Some (upd_status input), []).
Proof.
  unfold Schemas.UpdateTaskSchema. fold statusSchema.
  destruct (Zod.optional Schemas.title_schema _) as [[t|] i1]; [|discriminate].
  destruct (Schemas.description_schema _) as [[d|] i2]; [|discriminate].
  destruct (Zod.optional Schemas.priority_schema _) as [[p|] i3]; [|discriminate].
  destruct (Zod.optional Schemas.category_schema _) as [[c|] i4]; [|discriminate].
  destruct (Schemas.dueDate_schema _ _) as [[due|] i5]; [|discriminate].
  destruct (Zod.optional statusSchema _) as [[s|] i6]; [|discriminate].
  cbn [fst snd]. intros Hfinish. apply finish_Success in Hfinish as [-> Hissues].
  apply app_eq_nil in Hissues as [-> Hissues].
  apply app_eq_nil in Hissues as [-> Hissues].
  apply app_eq_nil in Hissues as [-> Hissues].
  apply app_eq_nil in Hissues as [-> Hissues].
  apply app_eq_nil in Hissues as [-> ->].
  repeat split; reflexivity.
Qed.

(** X9.  An update answered 200 changes what it was given and nothing
    else: the id, the owner, the creation time and the completion date of
    the task stay, the update time becomes the present instant, every field
    whose key is missing from the body keeps its value, and no user and no
    other task is touched. *)
Theorem update_keeps_what_it_was_not_given `{Platform}
    (w : World) (db db' : Db) (id : string) (r : Request) (resp : Response)
    (o : gmap string JsonValue) :
  TaskRoute.PATCH w db id r = (resp, db') ->
  status resp = 200 ->
  body r = BodyObject o ->
  exists old t,
    tasks db !! id = Some old
    /\ caller w (PatchTask id r) = Some (Task.userId old)
    /\ data (json resp) = Some (TaskData t)
    /\ db' = mkDb (users db) (<[ id := t ]> (tasks db))
    /\ Task._id t = Task._id old
    /\ Task.userId t = Task.userId old
    /\ Task.createdAt t = Task.createdAt old
    /\ Task.completedAt t = Task.completedAt old
    /\ Task.updatedAt t = now w
    /\ (o !! "title" = None -> Task.title t = Task.title old)
    /\ (o !! "description" = None -> Task.description t = Task.description old)
    /\ (o !! "status" = None -> Task.status t = Task.status old)
    /\ (o !! "priority" = None -> Task.priority t = Task.priority old)
    /\ (o !! "category" = None -> Task.category t = Task.category old)
    /\ (o !! "dueDate" = None -> Task.dueDate t = Task.dueDate old).
Proof.
  intros Hpatch Hstatus Hbody.
  destruct (PATCH_updated w db db' id r resp Hpatch Hstatus)
    as (userId & input & u & old & Huser & Hschema & Hcast & Hlookup & -> & ->).
  apply lookup_Some in Hlookup as [Hold Howner].
  rewrite Hbody in Hschema.
  apply UpdateTaskSchema_Success in Hschema as (Ht & Hd & Hp & Hc & Hdue & Hs).
  unfold Task.castUpdate in Hcast.
  exists old, (Task.applyUpdate (now w) u old).
  split; [exact Hold |]. split; [unfold caller; cbn [callRequest]; congruence |].
  do 7 (split; [reflexivity |]).
  repeat split; intros Habsent; rewrite Habsent in *;
    cbn in Ht, Hd, Hp, Hc, Hdue, Hs;
    destruct (upd_dueDate input) as [s|];
    try (destruct (Task.castDate s)); cbn [mbind Try_bind] in Hcast;
    try discriminate; injection Hcast as <-; cbn;
    try (injection Ht as <-); try (injection Hd as <-); try (injection Hp as <-);
    try (injection Hc as <-); try (injection Hs as <-); try discriminate; reflexivity.
Qed.

Lemma update_keeps_what_it_was_not_given_witness :
  exists old t,
    tasks Sample.db !! Sample.taskId = Some old
    /\ tasks (TaskRoute.PATCH Sample.world Sample.db Sample.taskId
                (Sample.withBearer Sample.annToken Sample.complete)).2 !! Sample.taskId
       = Some t
    /\ Task.title t = Task.title old
    /\ Task.status t = COMPLETED.
Proof.
  destruct (update_keeps_what_it_was_not_given Sample.world Sample.db
              (TaskRoute.PATCH Sample.world Sample.db Sample.taskId
                 (Sample.withBearer Sample.annToken Sample.complete)).2
              Sample.taskId (Sample.withBearer Sample.annToken Sample.complete)
              (TaskRoute.PATCH Sample.world Sample.db Sample.taskId
                 (Sample.withBearer Sample.annToken Sample.complete)).1
              {[ "status" := JString "completed" ]})
    as (old & t & Hold & _ & Hdata & Hdb & _ & _ & _ & _ & _ & Htitle & _).
  - vm_compute. reflexivity.
  - vm_compute. reflexivity.
  - reflexivity.
  - exists old, t. split; [exact Hold |]. rewrite Hdb. cbn [tasks].
    rewrite lookup_insert_eq. split; [reflexivity |]. split; [apply Htitle; reflexivity |].
    vm_compute in Hdata. injection Hdata as <-. reflexivity.
Defined.

(** X10.  The request of a status button of the task list is honoured for
    the owner whatever the status of the task and whatever the status
    asked for: the answer is 200 and the stored task differs from the old
    one in its status and its update time only; in particular the
    completion date is neither set nor cleared. *)
Theorem status_request_sets_any_status `{Platform}
    (w : World) (db : Db) (id : string) (r : Request) (userId : string)
    (old : Task.ITaskDocument) (s : TaskStatus) :
  authenticatedAs w r userId ->
  wellFormedId id ->
  tasks db !! id = Some old ->
  Task.userId old = userId ->
  body r = TasksPage.statusBody s ->
  let t :=
    Task.mk (Task._id old) (Task.title old) (Task.description old) s (Task.priority old)
      (Task.category old) (Task.dueDate old) (Task.completedAt old) (Task.userId old)
      (Task.createdAt old) (now w) in
  TaskRoute.PATCH w db id r
  = (ok (TaskData t) "Task updated successfully", mkDb (users db) (<[ id := t ]> (tasks db))).
Proof.
  intros Hauth Hid Hold Howner Hbody t.
  assert (Hschema : Schemas.UpdateTaskSchema (now w) (TasksPage.statusBody s)
                    = Zod.Success (mkUpdateTaskInput None None None None None (Some s))).
  { destruct s; vm_compute; reflexivity. }
  assert (Hlookup : Task.lookup id userId (tasks db) = Some old)
    by (apply lookup_Some; split; assumption).
  unfold TaskRoute.PATCH, Task.findOneAndUpdate.
  rewrite (TaskIdSchema_nonempty id (proj1 Hid)), (proj1 Hauth),
    (castFilter_ok w id r userId Hauth Hid), Hbody.
  cbn [negb TasksPage.statusBody mbind Try_bind]. fold (TasksPage.statusBody s).
  rewrite Hschema. cbn [mbind Try_bind Task.castUpdate upd_title upd_description
    upd_priority upd_category upd_dueDate upd_status fmap option_fmap option_map
    Task.validateUpdate Task.set_title Task.set_description Task.set_dueDate from_option
    Task.validate_description app].
  rewrite Hlookup. reflexivity.
Qed.

Lemma status_request_sets_any_status_witness :
  TaskRoute.PATCH Sample.world Sample.threeTasks (Task._id Sample.annDone)
    (Sample.withBearer Sample.annToken (TasksPage.statusBody PENDING))
  = (ok (TaskData
           (Task.mk (Task._id Sample.annDone) "File taxes" None PENDING HIGH FINANCE None
              (Some (Sample.noon - 2000)%Z) Sample.annId (Sample.noon - 9000)%Z Sample.noon))
       "Task updated successfully",
     mkDb (users Sample.threeTasks)
       (<[ Task._id Sample.annDone :=
             Task.mk (Task._id Sample.annDone) "File taxes" None PENDING HIGH FINANCE None
               (Some (Sample.noon - 2000)%Z) Sample.annId (Sample.noon - 9000)%Z
               Sample.noon ]> (tasks Sample.threeTasks))).
Proof.
  apply (status_request_sets_any_status Sample.world Sample.threeTasks
           (Task._id Sample.annDone)
           (Sample.withBearer Sample.annToken (TasksPage.statusBody PENDING))
           Sample.annId Sample.annDone PENDING).
  - split; vm_compute; reflexivity.
  - split; [intros E; discriminate E | vm_compute; reflexivity].
  - vm_compute. reflexivity.
  - reflexivity.
  - reflexivity.
Defined.

(** ** Creating, reading and deleting *)

(** What a [GET /api/tasks/:id] answered with 200 has found. *)
Lemma GET_fetched `{Platform} (w : World) (db db' : Db) (id : string) (r : Request)
    (resp : Response) :
  TaskRoute.GET w db id r = (resp, db') -> status resp = 200 ->
  exists userId t,
    Js.orUndefined (getUserFromToken w r) = Some userId
    /\ Task.lookup id userId (tasks db) = Some t
    /\ resp = ok (TaskData t) "Task fetched successfully".
Proof.
  unfold TaskRoute.GET, tryCatch, Task.findOne. intros Hget Hstatus.
  destruct (Js.orUndefined (getUserFromToken w r)) as [userId|] eqn:Huser;
    [|injection Hget as <- <-; discriminate Hstatus].
  destruct (Task.castFilter id userId) as [[]|e]; cbn [mbind Try_bind] in Hget;
    [|injection Hget as <- <-; discriminate Hstatus].
  destruct (Task.lookup id userId (tasks db)) as [t|] eqn:Hlookup;
    injection Hget as <- <-; [|discriminate Hstatus].
  exists userId, t. repeat split; assumption || reflexivity.
Qed.

(** X11.  A task that was created can be read back: the creator's next
    request for the id the answer carried is answered 200 with the same
    task, and the creator's unfiltered listing contains it. *)
Theorem created_task_can_be_read_back `{Platform}
    (w w' : World) (db db' : Db) (r r' : Request) (resp : Response) (userId : string) :
  TasksRoute.POST w db r = (resp, db') ->
  status resp = 200 ->
  caller w (CreateTask r) = Some userId ->
  authenticatedAs w' r' userId ->
  wellFormedId (newObjectId w) ->
  supplied "status" r' = None ->
  supplied "priority" r' = None ->
  supplied "category" r' = None ->
  exists t found,
    data (json resp) = Some (TaskData t)
    /\ TaskRoute.GET w' db' (Task._id t) r' = (ok (TaskData t) "Task fetched successfully", db')
    /\ TasksRoute.GET w' db' r' = (ok (TaskList found) "Tasks fetched successfully", db')
    /\ In t found.
Proof.
  intros Hpost Hstatus Hcaller Hauth Hid Hs Hp Hc.
  destruct (POST_created w db db' r resp Hpost Hstatus)
    as (creator & d & due & Huser & _ & _ & _ & -> & ->).
  unfold caller in Hcaller. cbn [callRequest] in Hcaller.
  rewrite Huser in Hcaller. injection Hcaller as ->.
  set (t := Task.new _ _ _ _ _ _ _ _).
  set (found := merge_sort Task.newestFirst
                  (List.filter (Task.matches userId (mkTaskQueryInput None None None))
                     (map snd (map_to_list (<[ newObjectId w := t ]> (tasks db)))))).
  exists t, found. split; [reflexivity |]. split; [|split].
  - change (Task._id t) with (newObjectId w).
    unfold TaskRoute.GET, Task.findOne.
    rewrite (proj1 Hauth), (castFilter_ok w' (newObjectId w) r' userId Hauth Hid).
    cbn [mbind Try_bind tasks]. unfold Task.lookup. rewrite lookup_insert_eq.
    change (Task.userId t) with userId. rewrite String.eqb_refl. reflexivity.
  - unfold TasksRoute.GET, Task.find. rewrite (proj1 Hauth).
    fold (supplied "status" r'). fold (supplied "priority" r').
    fold (supplied "category" r'). rewrite Hs, Hp, Hc, (proj2 Hauth). reflexivity.
  - eapply Permutation_in; [symmetry; apply merge_sort_Permutation |].
    apply filter_In. split.
    + apply documents_of_map. exists (newObjectId w). apply lookup_insert_eq.
    + unfold Task.matches. change (Task.userId t) with userId.
      rewrite String.eqb_refl. reflexivity.
Qed.

Lemma created_task_can_be_read_back_witness :
  exists t found,
    data (json (TasksRoute.POST Sample.world Sample.dbWithoutTasks
                  (Cases.create "Buy milk")).1) = Some (TaskData t)
    /\ TaskRoute.GET Sample.world
         (TasksRoute.POST Sample.world Sample.dbWithoutTasks (Cases.create "Buy milk")).2
         (Task._id t) (Sample.listWith [])
       = (ok (TaskData t) "Task fetched successfully",
          (TasksRoute.POST Sample.world Sample.dbWithoutTasks (Cases.create "Buy milk")).2)
    /\ TasksRoute.GET Sample.world
         (TasksRoute.POST Sample.world Sample.dbWithoutTasks (Cases.create "Buy milk")).2
         (Sample.listWith [])
       = (ok (TaskList found) "Tasks fetched successfully",
          (TasksRoute.POST Sample.world Sample.dbWithoutTasks (Cases.create "Buy milk")).2)
    /\ In t found.
Proof.
  apply (created_task_can_be_read_back Sample.world Sample.world Sample.dbWithoutTasks
           (TasksRoute.POST Sample.world Sample.dbWithoutTasks (Cases.create "Buy milk")).2
           (Cases.create "Buy milk") (Sample.listWith [])
           (TasksRoute.POST Sample.world Sample.dbWithoutTasks (Cases.create "Buy milk")).1
           Sample.annId);
    try (vm_compute; reflexivity).
  - split; vm_compute; reflexivity.
  - split; [intros E; discriminate E | vm_compute; reflexivity].
Defined.

(** X12.  A deletion answered 200 removes the caller's task of that id and
    nothing else, returns the removed task, and from then on no read,
    update or deletion of that id succeeds, whoever asks. *)
Theorem deleted_task_is_gone `{Platform}
    (w : World) (db db' : Db) (id : string) (r : Request) (resp : Response) :
  TaskRoute.DELETE w db id r = (resp, db') ->
  status resp = 200 ->
  exists old,
    tasks db !! id = Some old
    /\ caller w (DeleteTask id r) = Some (Task.userId old)
    /\ data (json resp) = Some (TaskData old)
    /\ db' = mkDb (users db) (delete id (tasks db))
    /\ forall (w' : World) (r' : Request),
         status (TaskRoute.GET w' db' id r').1 <> 200
         /\ status (TaskRoute.PATCH w' db' id r').1 <> 200
         /\ status (TaskRoute.DELETE w' db' id r').1 <> 200.
Proof.
  intros Hdelete Hstatus.
  destruct (DELETE_deleted w db db' id r resp Hdelete Hstatus)
    as (userId & old & Huser & _ & Hlookup & -> & ->).
  apply lookup_Some in Hlookup as [Hold Howner].
  exists old. split; [exact Hold |].
  split; [unfold caller; cbn [callRequest]; congruence |].
  do 2 (split; [reflexivity |]).
  assert (Hgone : forall u, Task.lookup id u (delete id (tasks db)) = None).
  { intros u. unfold Task.lookup. now rewrite lookup_delete_eq. }
  intros w' r'. split; [|split]; intros H200.
  - destruct (TaskRoute.GET w' _ id r') as [resp' db''] eqn:Hcall.
    destruct (GET_fetched _ _ _ _ _ _ Hcall H200) as (u & t & _ & Hsome & _).
    cbn [tasks] in Hsome. rewrite Hgone in Hsome. discriminate Hsome.
  - destruct (TaskRoute.PATCH w' _ id r') as [resp' db''] eqn:Hcall.
    destruct (PATCH_updated _ _ _ _ _ _ Hcall H200) as (u & i & upd & t & _ & _ & _ & Hsome & _).
    cbn [tasks] in Hsome. rewrite Hgone in Hsome. discriminate Hsome.
  - destruct (TaskRoute.DELETE w' _ id r') as [resp' db''] eqn:Hcall.
    destruct (DELETE_deleted _ _ _ _ _ _ Hcall H200) as (u & t & _ & _ & Hsome & _).
    cbn [tasks] in Hsome. rewrite Hgone in Hsome. discriminate Hsome.
Qed.

Lemma deleted_task_is_gone_witness :
  exists old,
    tasks Sample.db !! Sample.taskId = Some old
    /\ TaskRoute.GET Sample.world
         (TaskRoute.DELETE Sample.world Sample.db Sample.taskId
            (Sample.withBearer Sample.annToken Sample.noBody)).2
         Sample.taskId (Sample.withBearer Sample.annToken Sample.noBody)
       = (taskNotFound,
          (TaskRoute.DELETE Sample.world Sample.db Sample.taskId
             (Sample.withBearer Sample.annToken Sample.noBody)).2).
Proof.
  destruct (deleted_task_is_gone Sample.world Sample.db
              (TaskRoute.DELETE Sample.world Sample.db Sample.taskId
                 (Sample.withBearer Sample.annToken Sample.noBody)).2
              Sample.taskId (Sample.withBearer Sample.annToken Sample.noBody)
              (TaskRoute.DELETE Sample.world Sample.db Sample.taskId
                 (Sample.withBearer Sample.annToken Sample.noBody)).1)
    as (old & Hold & _).
  - vm_compute. reflexivity.
  - vm_compute. reflexivity.
  - exists old. split; [exact Hold | vm_compute; reflexivity].
Defined.

(** ** Sessions *)




Lemma optional_paths {A} (schema : option JsonValue -> Zod.Parsed A) (path : string)
    (v : option JsonValue) :
  (forall x, Forall (fun i => i.1 = path) (schema x).2) ->
  Forall (fun i => i.1 = path) (Zod.optional schema v).2.
Proof. intros Hschema. destruct v as [x|]; cbn; [apply Hschema | constructor]. Qed.

Lemma nativeEnum_unknown {A} (value : A -> string) (values : list A) (path v : string) :
  (forall a, value a <> v) ->
  Zod.nativeEnum value values None path (Some (JString v))
  = (None,
     [(path,
       "Invalid enum value. Expected "
       ++ String.concat " | " (map (fun a => Zod.quote (value a)) values)
       ++ ", received " ++ Zod.quote v)]).
Proof.
  intros Hunknown. unfold Zod.nativeEnum.
  destruct (List.find (fun a => String.eqb (value a) v) values) as [a|] eqn:Hfind;
    [|reflexivity].
  apply find_some in Hfind as [_ Heq]. apply String.eqb_eq in Heq.
  now destruct (Hunknown a).
Qed.

(** X14.  A listing whose [status] parameter is not one of the three
    status values is refused with 400 'Invalid query parameters' and a
    field error on [status] that lists the values and quotes the one
    received; nothing is listed. *)
Theorem list_rejects_unknown_status_value `{Platform}
    (w : World) (db : Db) (r : Request) (userId v : string) :
  caller w (ListTasks r) = Some userId ->
  supplied "status" r = Some v ->
  (forall s, TaskStatus_value s <> v) ->
  exists errors : gmap string string,
    TasksRoute.GET w db r
    = (mkResponse 400
         (mkApiResponse false None None (Some "Invalid query parameters") (Some errors) None)
         [],
       db)
    /\ errors !! "status"
       = Some ("Invalid enum value. Expected 'pending' | 'in_progress' | 'completed', received '"
               ++ v ++ "'").
Proof.
  unfold caller, supplied. cbn [callRequest]. intros Huser Hstatus Hunknown.
  pose proof (optional_paths
                (Zod.nativeEnum TaskPriority_value TaskPriority_values None "priority")
                "priority" (JString <$> Js.orUndefined (searchParams_get "priority" r))
                (nativeEnum_paths _ _ _ _)) as Hp.
  pose proof (optional_paths
                (Zod.nativeEnum TaskCategory_value TaskCategory_values None "category")
                "category" (JString <$> Js.orUndefined (searchParams_get "category" r))
                (nativeEnum_paths _ _ _ _)) as Hc.
  unfold TasksRoute.GET, Schemas.TaskQuerySchema. rewrite Huser, Hstatus.
  cbn [fmap option_fmap option_map Zod.optional].
  rewrite (nativeEnum_unknown TaskStatus_value TaskStatus_values "status" v Hunknown).
  cbn [fst snd fmap option_fmap option_map tryCatch].
  eexists. split; [reflexivity |].
  set (rest := ((Zod.optional _ (JString <$> Js.orUndefined (searchParams_get "priority" r))).2
                ++ (Zod.optional _
                      (JString <$> Js.orUndefined (searchParams_get "category" r))).2)%list).
  assert (Hrest : Forall (fun i : Zod.Issue => i.1 <> "status") rest).
  { subst rest. apply Forall_app. split;
      (eapply Forall_impl; [eassumption |]); cbn; intros i ->; discriminate. }
  assert (Hmessage :
            "Invalid enum value. Expected "
            ++ String.concat " | "
                 (map (fun a => Zod.quote (TaskStatus_value a)) TaskStatus_values)
            ++ ", received " ++ Zod.quote v
            = "Invalid enum value. Expected 'pending' | 'in_progress' | 'completed', received '"
              ++ v ++ "'") by reflexivity.
  rewrite Hmessage.
  exact (formatZodError_found [] rest "status" _ Hrest).
Qed.

Lemma list_rejects_unknown_status_value_witness :
  exists errors : gmap string string,
    TasksRoute.GET Sample.world Sample.threeTasks (Sample.listWith [("status", "done")])
    = (mkResponse 400
         (mkApiResponse false None None (Some "Invalid query parameters") (Some errors) None)
         [],
       Sample.threeTasks)
    /\ errors !! "status"
       = Some "Invalid enum value. Expected 'pending' | 'in_progress' | 'completed', received 'done'".
Proof.
  apply (list_rejects_unknown_status_value Sample.world Sample.threeTasks
           (Sample.listWith [("status", "done")]) Sample.annId "done").
  - vm_compute. reflexivity.
  - reflexivity.
  - intros s E. destruct s; discriminate E.
Defined.

(** ** Overdue tasks and the dashboard *)

Lemma filter_disjoint_length {A} (p q : A -> bool) (l : list A) :
  (forall x, p x = true -> q x = false) ->
  length (List.filter p l) + length (List.filter q l) <= length l.
Proof.
  intros Hdisjoint. induction l as [|x l IH]; [reflexivity |]. cbn [List.filter].
  destruct (p x) eqn:Hp.
  - rewrite (Hdisjoint x Hp). cbn [length]. lia.
  - destruct (q x); cbn [length]; lia.
Qed.

Lemma isOverdue_dashboard (now : Z) (task : Task.ITaskDocument) :
  match Task.dueDate task with
  | Some due => Z.ltb due now && negb (bool_decide (Task.status task = COMPLETED))
  | None => false
  end = TasksPage.isOverdue now task.
Proof.
  unfold TasksPage.isOverdue. destruct (Task.dueDate task) as [due|]; [|reflexivity].
  destruct (bool_decide (Task.status task = COMPLETED)); cbn;
    [apply andb_false_r | apply andb_true_r].
Qed.

(** X15.  The three places that decide whether a task is overdue agree:
    the dashboard counts exactly the tasks the task list marks as overdue,
    and [findOverdue] selects exactly the user's tasks that the task list
    would mark.  An overdue task is never a completed one, so the
    dashboard's overdue and completed counts, like its pending and
    completed counts, add up to at most the total. *)
Theorem overdue_is_decided_consistently `{Platform}
    (now : Z) (userId : string) (tasks : gmap string Task.ITaskDocument)
    (taskList : list Task.ITaskDocument) :
  let stats := DashboardPage.calculateStats now taskList in
  DashboardPage.overdue stats = length (List.filter (TasksPage.isOverdue now) taskList)
  /\ DashboardPage.overdue stats + DashboardPage.completed stats <= DashboardPage.total stats
  /\ DashboardPage.pending stats + DashboardPage.completed stats <= DashboardPage.total stats
  /\ match TaskStatics.findByUser userId tasks, TaskStatics.findOverdue now userId tasks with
     | Return mine, Return late =>
         forall t, In t late <-> In t mine /\ TasksPage.isOverdue now t = true
     | Throw _, Throw _ => ObjectId_isValid userId = false
     | _, _ => False
     end.
Proof.
  cbv zeta. unfold DashboardPage.calculateStats.
  cbn [DashboardPage.overdue DashboardPage.completed DashboardPage.pending DashboardPage.total].
  assert (Hsame : List.filter
                    (fun task =>
                       match Task.dueDate task with
                       | Some due =>
                           Z.ltb due now && negb (bool_decide (Task.status task = COMPLETED))
                       | None => false
                       end) taskList
                  = List.filter (TasksPage.isOverdue now) taskList).
  { apply filter_ext. intros t. apply isOverdue_dashboard. }
  rewrite Hsame. split; [reflexivity |]. split; [|split].
  - apply filter_disjoint_length. intros t. unfold TasksPage.isOverdue.
    destruct (Task.dueDate t); [|discriminate].
    destruct (bool_decide (Task.status t = COMPLETED)); [discriminate | reflexivity].
  - apply filter_disjoint_length. intros t Hpending.
    apply bool_decide_eq_true in Hpending. apply bool_decide_eq_false. congruence.
  - unfold TaskStatics.findByUser, TaskStatics.findOverdue.
    destruct (ObjectId_isValid userId); cbn [negb]; [|reflexivity].
    intros t.
    assert (Hsorted : In t (merge_sort Task.newestFirst
                              (List.filter (fun t => String.eqb (Task.userId t) userId)
                                 (map snd (map_to_list tasks))))
                      <-> In t (List.filter (fun t => String.eqb (Task.userId t) userId)
                                  (map snd (map_to_list tasks)))).
    { split; apply Permutation_in; [|symmetry]; apply merge_sort_Permutation. }
    rewrite Hsorted, !filter_In. unfold TaskStatics.overdueFilter.
    rewrite <- isOverdue_dashboard, !andb_true_iff.
    destruct (Task.dueDate t); rewrite ?andb_true_iff; intuition discriminate.
Qed.

(** ** The form of the create page *)

Lemma trim_truthy_length (s : string) : Js.truthy (Js.trim s) = true -> 1 <= Js.length s.
Proof. destruct s; [discriminate | cbn [String.length]; lia]. Qed.

(** X16.  The create form is at least as strict as the request schema: a
    form that passes [validateForm], and whose due date is empty or a date
    that [new Date] can read, is accepted by [CreateTaskSchema] when browser
    and server read the same instant in the same time zone, and the schema
    outputs the form's fields with title and description trimmed. *)
Theorem valid_form_passes_the_schema `{Platform}
    (now : Z) (formData : CreateTaskPage.FormData) :
  CreateTaskPage.validateForm now formData = true ->
  (CreateTaskPage.dueDate formData <> "" ->
   is_Some (Date_parse (CreateTaskPage.dueDate formData))) ->
  Schemas.CreateTaskSchema now (BodyObject (CreateTaskPage.submitted formData))
  = Zod.Success
      (mkCreateTaskInput (Js.trim (CreateTaskPage.title formData))
         (Some (Js.trim (CreateTaskPage.description formData)))
         (CreateTaskPage.priority formData) (CreateTaskPage.category formData)
         (Some (CreateTaskPage.dueDate formData))).
Proof.
  destruct formData as [title description priority category dueDate].
  unfold CreateTaskPage.validateForm, CreateTaskPage.newErrors.
  cbn [CreateTaskPage.title CreateTaskPage.description CreateTaskPage.priority
       CreateTaskPage.category CreateTaskPage.dueDate].
  intros Hvalid Hdate. apply bool_decide_eq_true in Hvalid.
  assert (Htitle : Js.truthy (Js.trim title) = true /\ Nat.ltb 200 (String.length title) = false).
  { destruct (Js.truthy (Js.trim title)), (Nat.ltb 200 (String.length title));
      cbn [negb] in Hvalid; try (split; reflexivity); exfalso;
      repeat match type of Hvalid with
        | context [if ?b then _ else _] => destruct b
        | context [match ?x with _ => _ end] => destruct x
        end;
      first [ exact (insert_non_empty _ _ _ Hvalid) | exact (map_non_empty_singleton _ _ Hvalid) ]. }
  destruct Htitle as [Htruthy Hshort]. rewrite Htruthy, Hshort in Hvalid. cbn [negb] in Hvalid.
  assert (Hdescription : String.length description <= 1000).
  { destruct (Nat.ltb_spec 1000 (String.length description)) as [Hlong|]; [|lia].
    destruct description as [|c rest]; [cbn; lia |].
    exfalso. cbn [Js.truthy String.eqb negb andb] in Hvalid.
    repeat match type of Hvalid with
      | context [if ?b then _ else _] => destruct b
      | context [match ?x with _ => _ end] => destruct x
      end;
      exact (insert_non_empty _ _ _ Hvalid). }
  assert (Hdue : Schemas.dueDate_refine now (Some dueDate) = true).
  { unfold Schemas.dueDate_refine, Js.orUndefined.
    destruct (Js.truthy dueDate) eqn:Hgiven; [|reflexivity].
    assert (dueDate <> "") as Hne by (intros ->; discriminate Hgiven).
    destruct (Hdate Hne) as [due Hparse]. rewrite Hparse in *.
    apply Z.leb_le. destruct (Z.ltb_spec due (startOfLocalDay now)) as [Hpast|]; [|lia].
    exfalso.
    repeat match type of Hvalid with
      | context [if ?b then _ else _] => destruct b
      end;
      exact (insert_non_empty _ _ _ Hvalid). }
  apply Nat.ltb_ge in Hshort. apply trim_truthy_length in Htruthy.
  apply CreateTaskSchema_accepts.
  - change (CreateTaskPage.submitted _ !! "title") with (Some (JString title)).
    apply title_schema_accepts. lia.
  - change (CreateTaskPage.submitted _ !! "description") with (Some (JString description)).
    now apply description_schema_accepts.
  - change (CreateTaskPage.submitted _ !! "priority")
      with (Some (JString (TaskPriority_value priority))).
    apply priority_schema_accepts.
  - change (CreateTaskPage.submitted _ !! "category")
      with (Some (JString (TaskCategory_value category))).
    apply category_schema_accepts.
  - change (CreateTaskPage.submitted _ !! "dueDate") with (Some (JString dueDate)).
    now apply dueDate_schema_accepts.
Qed.

Lemma valid_form_passes_the_schema_witness :
  Schemas.CreateTaskSchema Sample.noon
    (BodyObject
       (CreateTaskPage.submitted
          (CreateTaskPage.mkFormData " Buy milk" "two litres " LOW PERSONAL "")))
  = Zod.Success (mkCreateTaskInput "Buy milk" (Some "two litres") LOW PERSONAL (Some "")).
Proof.
  apply (valid_form_passes_the_schema Sample.noon
           (CreateTaskPage.mkFormData " Buy milk" "two litres " LOW PERSONAL "")).
  - vm_compute. reflexivity.
  - intros Hne. now destruct Hne.
Defined.

(** ** Registration *)

Lemma RegisterSchema_email `{Platform} (o : gmap string JsonValue) (d : RegisterInput)
    (e : string) :
  Schemas.RegisterSchema (BodyObject o) = Zod.Success d ->
  o !! "email" = Some (JString e) ->
  reg_email d = Js.trim (Js.toLowerCase e).
Proof.
  intros Hschema He. unfold Schemas.RegisterSchema in Hschema.
  rewrite He, string_JString in Hschema.
  destruct (Zod.string_ _ "name" _) as [[n|] issues_n]; cbn [fst snd] in Hschema;
    [|discriminate Hschema].
  destruct (Zod.string_ _ "password" _) as [[p|] issues_p]; cbn [fst snd] in Hschema;
    [|discriminate Hschema].
  destruct (Zod.string_ _ "confirmPassword" _) as [[c|] issues_c]; cbn [fst snd] in Hschema;
    [|discriminate Hschema].
  destruct (String.eqb p c); apply finish_Success in Hschema as [-> _]; reflexivity.
Qed.

Lemma stored_email (e : string) :
  User.emailSetters (Js.trim (Js.toLowerCase e)) = Js.trim (Js.toLowerCase e).
Proof.
  unfold User.emailSetters.
  now rewrite trim_idempotent, <- trim_toLowerCase, toLowerCase_idempotent.
Qed.

(** X17.  An address that has registered cannot register again, in
    whatever case it is written: the second request is answered 400, with
    'User with this email already exists' unless the schema refuses it
    first, and the store keeps the one account. *)
Theorem registered_address_cannot_register_again `{Platform}
    (w w' : World) (db db' : Db) (r r' : Request) (resp : Response)
    (o o' : gmap string JsonValue) (e e' : string) :
  AuthRoute.register w db r = (resp, db') ->
  status resp = 200 ->
  body r = BodyObject o ->
  o !! "email" = Some (JString e) ->
  body r' = BodyObject o' ->
  o' !! "email" = Some (JString e') ->
  Js.toLowerCase e' = Js.toLowerCase e ->
  exists resp',
    AuthRoute.register w' db' r' = (resp', db')
    /\ status resp' = 400
    /\ (error (json resp') = Some "Validation failed"
        \/ error (json resp') = Some "User with this email already exists").
Proof.
  intros Hreg Hstatus Hbody He Hbody' He' Hsame.
  destruct (register_registered w db db' r resp Hreg Hstatus)
    as (d & Hschema & _ & Hunique & _ & ->).
  rewrite Hbody in Hschema. pose proof (RegisterSchema_email o d e Hschema He) as Hemail.
  cbn zeta in Hunique. set (saved := User.set_password _ _) in *.
  assert (Hsaved : User.email saved = Js.trim (Js.toLowerCase e)).
  { subst saved. cbn [User.set_password User.new User.email]. rewrite Hemail.
    apply stored_email. }
  unfold AuthRoute.register. rewrite Hbody'. cbn [readBody mbind Try_bind].
  destruct (Schemas.RegisterSchema (BodyObject o')) as [d'|issues] eqn:Hschema'.
  - pose proof (RegisterSchema_email o' d' e' Hschema' He') as Hemail'.
    assert (Hfound : User.findOne (reg_email d')
                       (<[ newObjectId w := saved ]> (users db)) = Some saved).
    { unfold User.findOne.
      replace (if settersOnQuery then User.emailSetters (reg_email d') else reg_email d')
        with (User.email saved).
      - apply find_inserted, Hunique.
      - rewrite Hsaved, Hemail', Hsame. destruct settersOnQuery; [|reflexivity].
        symmetry. apply stored_email. }
    cbn [users]. rewrite Hfound. eexists. split; [reflexivity |].
    split; [reflexivity | right; reflexivity].
  - eexists. split; [reflexivity |]. split; [reflexivity | left; reflexivity].
Qed.

Lemma registered_address_cannot_register_again_witness :
  exists resp',
    AuthRoute.register Sample.world
      (AuthRoute.register Sample.world Sample.emptyDb
         (Sample.registerAs "Ann" "ann@example.com" "hunter22")).2
      (Sample.registerAs "Ann" "Ann@Example.com" "hunter22")
    = (resp',
       (AuthRoute.register Sample.world Sample.emptyDb
          (Sample.registerAs "Ann" "ann@example.com" "hunter22")).2)
    /\ status resp' = 400
    /\ (error (json resp') = Some "Validation failed"
        \/ error (json resp') = Some "User with this email already exists").
Proof.
  apply (registered_address_cannot_register_again Sample.world Sample.world Sample.emptyDb
           (AuthRoute.register Sample.world Sample.emptyDb
              (Sample.registerAs "Ann" "ann@example.com" "hunter22")).2
           (Sample.registerAs "Ann" "ann@example.com" "hunter22")
           (Sample.registerAs "Ann" "Ann@Example.com" "hunter22")
           (AuthRoute.register Sample.world Sample.emptyDb
              (Sample.registerAs "Ann" "ann@example.com" "hunter22")).1
           {[ "name" := JString "Ann"; "email" := JString "ann@example.com";
              "password" := JString "hunter22"; "confirmPassword" := JString "hunter22" ]}
           {[ "name" := JString "Ann"; "email" := JString "Ann@Example.com";
              "password" := JString "hunter22"; "confirmPassword" := JString "hunter22" ]}
           "ann@example.com" "Ann@Example.com");
    vm_compute; reflexivity.
Defined.

(** X18.  A registration whose four fields are strings and whose two
    passwords differ is refused with 400 'Validation failed' and the field
    error "Passwords don't match" on [confirmPassword], whatever else is
    wrong with the fields; no user is stored. *)
Theorem register_rejects_password_mismatch `{Platform}
    (w : World) (db : Db) (r : Request) (o : gmap string JsonValue)
    (n e p c : string) :
  body r = BodyObject o ->
  o !! "name" = Some (JString n) ->
  o !! "email" = Some (JString e) ->
  o !! "password" = Some (JString p) ->
  o !! "confirmPassword" = Some (JString c) ->
  p <> c ->
  exists errors : gmap string string,
    AuthRoute.register w db r
    = (mkResponse 400
         (mkApiResponse false None None (Some "Validation failed") (Some errors) None) [],
       db)
    /\ errors !! "confirmPassword" = Some "Passwords don't match".
Proof.
  intros Hbody Hn He Hp Hc Hdiffer.
  unfold AuthRoute.register, Schemas.RegisterSchema. rewrite Hbody.
  cbn [readBody mbind Try_bind]. rewrite Hn, He, Hp, Hc, !string_JString. cbn [fst snd].
  change (Zod.runChecks [] c) with (c, @nil string). cbn [fst snd map].
  replace (String.eqb (Zod.runChecks _ p).1 c) with false.
  2:{ symmetry. apply String.eqb_neq. exact Hdiffer. }
  set (issues := (_ ++ _ ++ _ ++ [])%list).
  assert (Hfinish : forall d : RegisterInput,
             Zod.finish (Some d) (issues ++ [("confirmPassword", "Passwords don't match")])
             = Zod.Failure (issues ++ [("confirmPassword", "Passwords don't match")])).
  { intros d. unfold Zod.finish. destruct issues; reflexivity. }
  rewrite Hfinish. cbn [tryCatch]. eexists. split; [reflexivity |].
  apply formatZodError_found. constructor.
Qed.

Lemma register_rejects_password_mismatch_witness :
  exists errors : gmap string string,
    AuthRoute.register Sample.world Sample.emptyDb
      (Sample.anonymous
         (BodyObject {[ "name" := JString "A"; "email" := JString "ann@example.com";
                        "password" := JString "hunter22";
                        "confirmPassword" := JString "hunter23" ]}))
    = (mkResponse 400
         (mkApiResponse false None None (Some "Validation failed") (Some errors) None) [],
       Sample.emptyDb)
    /\ errors !! "confirmPassword" = Some "Passwords don't match".
Proof.
  apply (register_rejects_password_mismatch Sample.world Sample.emptyDb
           (Sample.anonymous
              (BodyObject {[ "name" := JString "A"; "email" := JString "ann@example.com";
                             "password" := JString "hunter22";
                             "confirmPassword" := JString "hunter23" ]}))
           {[ "name" := JString "A"; "email" := JString "ann@example.com";
              "password" := JString "hunter22"; "confirmPassword" := JString "hunter23" ]}
           "A" "ann@example.com" "hunter22" "hunter23");
    try (vm_compute; reflexivity).
  intros E; discriminate E.
Defined.

(** X19.  A registration answered 200 stores one new user under the drawn
    id, with the bcrypt hash of the submitted password in place of the
    password, which has at least six characters; every other user and every
    task stay, and the answer sets no cookie: registering does not log
    in. *)
Theorem registration_stores_the_hash `{Platform}
    (w : World) (db db' : Db) (r : Request) (resp : Response)
    (o : gmap string JsonValue) (e p : string) :
  AuthRoute.register w db r = (resp, db') ->
  status resp = 200 ->
  body r = BodyObject o ->
  o !! "email" = Some (JString e) ->
  o !! "password" = Some (JString p) ->
  exists stored,
    db' = mkDb (<[ newObjectId w := stored ]> (users db)) (tasks db)
    /\ User._id stored = newObjectId w
    /\ User.password stored = bcrypt_hash (salt w) p
    /\ 6 <= Js.length p
    /\ User.createdAt stored = now w
    /\ data (json resp) = Some (UserData (userResponse stored))
    /\ cookies resp = [].
Proof.
  intros Hreg Hstatus Hbody He Hp.
  destruct (register_registered w db db' r resp Hreg Hstatus)
    as (d & Hschema & Hvalid & _ & -> & ->).
  rewrite Hbody in Hschema.
  destruct (RegisterSchema_Success o d e p Hschema He Hp) as (_ & _ & Hpassword).
  eexists. split; [reflexivity |]. rewrite Hpassword in *.
  repeat split.
  unfold User.validate in Hvalid. apply app_eq_nil in Hvalid as [_ Hvalid].
  apply app_eq_nil in Hvalid as [_ Hvalid].
  cbn [User.new User.password] in Hvalid. unfold User.validate_password in Hvalid.
  destruct (String.eqb p ""); [discriminate Hvalid |].
  destruct (Nat.leb_spec 6 (String.length p)); [assumption | discriminate Hvalid].
Qed.

Lemma registration_stores_the_hash_witness :
  exists stored,
    (AuthRoute.register Sample.world Sample.emptyDb
       (Sample.registerAs "Ann" "ann@example.com" "hunter22")).2
    = mkDb (<[ Sample.taskId := stored ]> (users Sample.emptyDb)) (tasks Sample.emptyDb)
    /\ User.password stored = "bcrypt:hunter22".
Proof.
  destruct (registration_stores_the_hash Sample.world Sample.emptyDb
              (AuthRoute.register Sample.world Sample.emptyDb
                 (Sample.registerAs "Ann" "ann@example.com" "hunter22")).2
              (Sample.registerAs "Ann" "ann@example.com" "hunter22")
              (AuthRoute.register Sample.world Sample.emptyDb
                 (Sample.registerAs "Ann" "ann@example.com" "hunter22")).1
              {[ "name" := JString "Ann"; "email" := JString "ann@example.com";
                 "password" := JString "hunter22"; "confirmPassword" := JString "hunter22" ]}
              "ann@example.com" "hunter22")
    as (stored & Hdb & _ & Hpassword & _); try (vm_compute; reflexivity).
  exists stored. split; [exact Hdb | exact Hpassword].
Defined.


(** ** The task list of the page *)

Lemma response_ok_200 (resp : Response) :
  TasksPage.response_ok resp = true -> status resp <> 200 ->
  status resp <> 400 /\ status resp <> 401 /\ status resp <> 404 /\ status resp <> 500.
Proof.
  unfold TasksPage.response_ok. intros Hok Hnot.
  apply andb_true_iff in Hok as [Hlow Hhigh]. apply Nat.leb_le in Hlow, Hhigh. lia.
Qed.

Lemma patch_answers `{Platform} (w : World) (db : Db) (id : string) (r : Request) :
  In (status (TaskRoute.PATCH w db id r).1) [200; 400; 401; 404; 500].
Proof.
  unfold TaskRoute.PATCH. handler_cases;
    try match goal with e : Exception |- _ => destruct e end; cbn; auto 10.
Qed.

Lemma delete_answers `{Platform} (w : World) (db : Db) (id : string) (r : Request) :
  In (status (TaskRoute.DELETE w db id r).1) [200; 400; 401; 404; 500].
Proof.
  unfold TaskRoute.DELETE. handler_cases;
    try match goal with e : Exception |- _ => destruct e end; cbn; auto 10.
Qed.

Lemma ok_is_200 (resp : Response) :
  In (status resp) [200; 400; 401; 404; 500] ->
  TasksPage.response_ok resp = true <-> status resp = 200.
Proof.
  unfold TasksPage.response_ok. intros [<-|[<-|[<-|[<-|[<-|[]]]]]]; cbn; split;
    congruence || discriminate.
Qed.

(** X21.  The task list of the page stays true to the store without a
    reload: if the list shows exactly the caller's stored tasks, it still
    does after [updateTaskStatus], whether the server accepted or refused
    the update. *)
Theorem page_follows_a_status_update `{Platform}
    (w : World) (db : Db) (session : Request) (userId taskId : string) (s : TaskStatus)
    (prevTasks : list Task.ITaskDocument) :
  storeInvariant db ->
  Js.orUndefined (getUserFromToken w session) = Some userId ->
  shows userId db prevTasks ->
  let after := TasksPage.updateTaskStatus w db session taskId s prevTasks in
  shows userId after.2 after.1.
Proof.
  intros (Hkeys & _) Huser Hshows. cbv zeta. unfold TasksPage.updateTaskStatus.
  set (r := TasksPage.withBody (TasksPage.statusBody s) session).
  pose proof (ok_is_200 _ (patch_answers w db taskId r)) as Hok.
  destruct (TaskRoute.PATCH w db taskId r) as [resp db'] eqn:Hpatch. cbn [fst snd] in *.
  destruct (TasksPage.response_ok resp) eqn:Hresp.
  - apply proj1 in Hok. specialize (Hok eq_refl). clear Hresp. rename Hok into Hresp.
    destruct (PATCH_updated w db db' taskId r resp Hpatch Hresp)
      as (u & input & upd & old & Hcaller & _ & _ & Hlookup & -> & ->).
    change (getUserFromToken w r) with (getUserFromToken w session) in Hcaller.
    rewrite Huser in Hcaller. injection Hcaller as <-.
    apply lookup_Some in Hlookup as [Hold Howner].
    cbn [json success data ok]. set (updated := Task.applyUpdate (now w) upd old).
    intros t. unfold TasksPage.replaceTask. rewrite in_map_iff. cbn [tasks]. split.
    + intros (x & Hx & Hin). apply Hshows in Hin as [[i Hi] Hmine].
      pose proof (Hkeys i x Hi) as Hid.
      destruct (String.eqb_spec (Task._id x) taskId) as [E|E]; subst t.
      * split; [exists taskId; apply lookup_insert_eq | exact Howner].
      * split; [|exact Hmine]. exists i. rewrite lookup_insert_ne by congruence. exact Hi.
    + intros [[i Hi] Hmine]. destruct (decide (taskId = i)) as [<-|Hne].
      * rewrite lookup_insert_eq in Hi. injection Hi as <-. exists old. split.
        -- rewrite (Hkeys taskId old Hold), String.eqb_refl. reflexivity.
        -- apply Hshows. split; [exists taskId; exact Hold | exact Howner].
      * rewrite lookup_insert_ne in Hi by exact Hne. exists t. split.
        -- rewrite (Hkeys i t Hi).
           destruct (String.eqb_spec i taskId); [congruence | reflexivity].
        -- apply Hshows. split; [exists i; exact Hi | exact Hmine].
  - assert (Hnot : status resp <> 200)
      by (intros E; apply Hok in E; discriminate E).
    destruct (patch_writes_on_success w db taskId r) as [Hsame|H200];
      rewrite Hpatch in *; cbn [fst snd] in *; [subst db'; exact Hshows | contradiction].
Qed.

Lemma page_follows_a_status_update_witness :
  shows Sample.annId
    (TasksPage.updateTaskStatus Sample.world Sample.db
       (Sample.withBearer Sample.annToken Sample.noBody) Sample.taskId COMPLETED
       [Sample.annTask]).2
    (TasksPage.updateTaskStatus Sample.world Sample.db
       (Sample.withBearer Sample.annToken Sample.noBody) Sample.taskId COMPLETED
       [Sample.annTask]).1.
Proof.
  apply (page_follows_a_status_update Sample.world Sample.db
           (Sample.withBearer Sample.annToken Sample.noBody) Sample.annId Sample.taskId
           COMPLETED [Sample.annTask]).
  - repeat split; cbn [Sample.db users tasks]; intros *;
      repeat (rewrite lookup_singleton_Some || intros [<- <-] || intros ->);
      try reflexivity; congruence.
  - vm_compute. reflexivity.
  - intros t. cbn [In Sample.db tasks]. split.
    + intros [<-|[]]. split; [exists Sample.taskId; reflexivity | reflexivity].
    + intros [[i Hi] _]. apply lookup_singleton_Some in Hi as [_ <-]. left. reflexivity.
Defined.

(** X22.  Likewise for [deleteTask]: after it, confirmed or not, accepted
    or refused, the list shows exactly the caller's stored tasks if it did
    before. *)
Theorem page_follows_a_deletion `{Platform}
    (w : World) (db : Db) (session : Request) (userId taskId : string) (confirmed : bool)
    (prevTasks : list Task.ITaskDocument) :
  storeInvariant db ->
  Js.orUndefined (getUserFromToken w session) = Some userId ->
  shows userId db prevTasks ->
  let after := TasksPage.deleteTask w db session taskId confirmed prevTasks in
  shows userId after.2 after.1.
Proof.
  intros (Hkeys & _) Huser Hshows. cbv zeta. unfold TasksPage.deleteTask.
  destruct confirmed; cbn [negb]; [|exact Hshows].
  set (r := TasksPage.withBody BodyNotJson session).
  pose proof (ok_is_200 _ (delete_answers w db taskId r)) as Hok.
  destruct (TaskRoute.DELETE w db taskId r) as [resp db'] eqn:Hdelete. cbn [fst snd] in *.
  destruct (TasksPage.response_ok resp) eqn:Hresp.
  - apply proj1 in Hok. specialize (Hok eq_refl). clear Hresp. rename Hok into Hresp.
    destruct (DELETE_deleted w db db' taskId r resp Hdelete Hresp)
      as (u & old & _ & _ & _ & _ & ->).
    intros t. unfold TasksPage.removeTask. rewrite filter_In, (Hshows t). cbn [tasks]. split.
    + intros [[[i Hi] Hmine] Hother]. split; [|exact Hmine]. exists i.
      rewrite lookup_delete_ne; [exact Hi |].
      intros <-. rewrite (Hkeys taskId t Hi), String.eqb_refl in Hother. discriminate Hother.
    + intros [[i Hi] Hmine]. apply lookup_delete_Some in Hi as [Hne Hi].
      split; [split; [exists i; exact Hi | exact Hmine] |].
      rewrite (Hkeys i t Hi). destruct (String.eqb_spec i taskId); [congruence | reflexivity].
  - assert (Hnot : status resp <> 200)
      by (intros E; apply Hok in E; discriminate E).
    destruct (delete_writes_on_success w db taskId r) as [Hsame|H200];
      rewrite Hdelete in *; cbn [fst snd] in *; [subst db'; exact Hshows | contradiction].
Qed.

Lemma page_follows_a_deletion_witness :
  shows Sample.annId
    (TasksPage.deleteTask Sample.world Sample.db
       (Sample.withBearer Sample.annToken Sample.noBody) Sample.taskId true
       [Sample.annTask]).2
    (TasksPage.deleteTask Sample.world Sample.db
       (Sample.withBearer Sample.annToken Sample.noBody) Sample.taskId true
       [Sample.annTask]).1.
Proof.
  apply (page_follows_a_deletion Sample.world Sample.db
           (Sample.withBearer Sample.annToken Sample.noBody) Sample.annId Sample.taskId
           true [Sample.annTask]).
  - repeat split; cbn [Sample.db users tasks]; intros *;
      repeat (rewrite lookup_singleton_Some || intros [<- <-] || intros ->);
      try reflexivity; congruence.
  - vm_compute. reflexivity.
  - intros t. cbn [In Sample.db tasks]. split.
    + intros [<-|[]]. split; [exists Sample.taskId; reflexivity | reflexivity].
    + intros [[i Hi] _]. apply lookup_singleton_Some in Hi as [_ <-]. left. reflexivity.
Defined.
